(** * OECD ingestion handler: fetch, de-duplicate, archive

  A shallow embedding of [handler.py]: the two-URL fetch with bounded
  retries, the SHA-256 content digest, the DynamoDB ledger, the S3 archive
  and the orchestrating loop of [lambda_handler], together with the
  properties of that pipeline.

  Python values are modelled as follows.
  - [bytes] is [list byte]; [str] is [string].
  - A dict is a [gmap] from [string] keys.
  - An [int] is a [Z].
  - An exception is a value of [Exn]; a call that may raise returns a
    [Result].
  - The outside world (HTTP, clock, DynamoDB, S3, gzip) is an [Env] of
    oracles, indexed by the number of effects performed so far; what the
    handler did to it is recorded in a [World]. *)

From Stdlib Require Import ZArith Lia Bool.
From Stdlib Require Import Strings.Byte.
From stdpp Require Import gmap strings list pretty.

Local Open Scope string_scope.
Local Open Scope Z_scope.

(** ** Text helpers (the str and bytes methods the handler uses) *)

Module Text.

Abbreviation bytes := (list byte).

(** [b"..."] literals. *)
Definition encode (s : string) : bytes := String.list_byte_of_string s.

(** [s[:n]]. *)
Definition prefix (n : nat) (s : string) : string := String.substring 0 n s.

(** [sep.join(parts)]. *)
Fixpoint join (sep : string) (parts : list string) : string :=
  match parts with
  | [] => ""
  | [p] => p
  | p :: rest => p ++ sep ++ join sep rest
  end.

(** [s.rstrip('/')]. *)
Fixpoint rstrip_slash (s : string) : string :=
  match s with
  | EmptyString => EmptyString
  | String c rest =>
      match rstrip_slash rest with
      | EmptyString => if Ascii.eqb c (Ascii.ascii_of_nat 47) then EmptyString else String c EmptyString
      | r => String c r
      end
  end.

(** Decimal rendering of an [int], as [str(n)] and [f"{n}"] give it. *)
Definition str_int (n : Z) : string := pretty n.

(** [f"{n:02d}"] and [f"{n:04d}"] for the non-negative calendar fields. *)
Definition pad2 (n : Z) : string :=
  if (n <? 10)%Z then "0" ++ str_int n else str_int n.

Definition pad4 (n : Z) : string :=
  if (n <? 10)%Z then "000" ++ str_int n
  else if (n <? 100)%Z then "00" ++ str_int n
  else if (n <? 1000)%Z then "0" ++ str_int n
  else str_int n.

Definition hex_digit (d : Z) : string :=
  String.substring (Z.to_nat d) 1 "0123456789abcdef".

End Text.

(** ** SHA-256 (what [hashlib.sha256(data).hexdigest()] computes) *)

Module SHA256.
Import Text.

Definition w32 : Z := 4294967296.

Definition add32 (a b : Z) : Z := (a + b) mod w32.

Definition rotr (n x : Z) : Z :=
  Z.lor (Z.shiftr x n) ((Z.shiftl x (32 - n)) mod w32).

Definition Ch (x y z : Z) : Z :=
  Z.lxor (Z.land x y) (Z.land (Z.lxor x (w32 - 1)) z).

Definition Maj (x y z : Z) : Z :=
  Z.lxor (Z.lxor (Z.land x y) (Z.land x z)) (Z.land y z).

Definition Sigma0 (x : Z) : Z := Z.lxor (Z.lxor (rotr 2 x) (rotr 13 x)) (rotr 22 x).
Definition Sigma1 (x : Z) : Z := Z.lxor (Z.lxor (rotr 6 x) (rotr 11 x)) (rotr 25 x).
Definition sigma0 (x : Z) : Z := Z.lxor (Z.lxor (rotr 7 x) (rotr 18 x)) (Z.shiftr x 3).
Definition sigma1 (x : Z) : Z := Z.lxor (Z.lxor (rotr 17 x) (rotr 19 x)) (Z.shiftr x 10).

(** Round constants: the fractional parts of the cube roots of the first
    64 primes. *)
Definition K : list Z :=
  [ 1116352408; 1899447441; 3049323471; 3921009573;
    961987163; 1508970993; 2453635748; 2870763221;
    3624381080; 310598401; 607225278; 1426881987;
    1925078388; 2162078206; 2614888103; 3248222580;
    3835390401; 4022224774; 264347078; 604807628;
    770255983; 1249150122; 1555081692; 1996064986;
    2554220882; 2821834349; 2952996808; 3210313671;
    3336571891; 3584528711; 113926993; 338241895;
    666307205; 773529912; 1294757372; 1396182291;
    1695183700; 1986661051; 2177026350; 2456956037;
    2730485921; 2820302411; 3259730800; 3345764771;
    3516065817; 3600352804; 4094571909; 275423344;
    430227734; 506948616; 659060556; 883997877;
    958139571; 1322822218; 1537002063; 1747873779;
    1955562222; 2024104815; 2227730452; 2361852424;
    2428436474; 2756734187; 3204031479; 3329325298 ].

(** Initial hash value. *)
Definition H0 : list Z :=
  [ 1779033703; 3144134277; 1013904242; 2773480762;
    1359893119; 2600822924; 528734635; 1541459225 ].

Definition byteZ (b : byte) : Z := Z.of_N (Byte.to_N b).

(** Big-endian [n]-byte encoding of [v]. *)
Fixpoint be_bytes (n : nat) (v : Z) : list Z :=
  match n with
  | O => []
  | S n' => (Z.shiftr v (8 * Z.of_nat n')) mod 256 :: be_bytes n' v
  end.

(** Message padding: a 1 bit, zeros up to 56 mod 64 bytes, then the length
    in bits on 8 bytes. *)
Definition pad (msg : bytes) : list Z :=
  let len := Z.of_nat (length msg) in
  let zeros := Z.to_nat ((55 - len) mod 64) in
  ((byteZ <$> msg) ++ [128] ++ replicate zeros 0 ++ be_bytes 8 (8 * len))%list.

Fixpoint words (fuel : nat) (bs : list Z) : list Z :=
  match fuel, bs with
  | S fuel', b0 :: b1 :: b2 :: b3 :: rest =>
      (((b0 * 256 + b1) * 256 + b2) * 256 + b3) :: words fuel' rest
  | _, _ => []
  end.

Definition at_ (i : nat) (l : list Z) : Z := nth i l 0.

(** One round per constant; [w] is the sliding window of the sixteen most
    recent schedule words, oldest first. *)
Fixpoint rounds (ks : list Z) (st : list Z) (w : list Z) : list Z :=
  match ks with
  | [] => st
  | k :: ks' =>
      let a := at_ 0 st in let b := at_ 1 st in
      let c := at_ 2 st in let d := at_ 3 st in
      let e := at_ 4 st in let f := at_ 5 st in
      let g := at_ 6 st in let h := at_ 7 st in
      let t1 := add32 (add32 (add32 (add32 h (Sigma1 e)) (Ch e f g)) k) (at_ 0 w) in
      let t2 := add32 (Sigma0 a) (Maj a b c) in
      let next :=
        add32 (add32 (add32 (sigma1 (at_ 14 w)) (at_ 9 w)) (sigma0 (at_ 1 w))) (at_ 0 w) in
      rounds ks' [add32 t1 t2; a; b; c; add32 d t1; e; f; g] (tl w ++ [next])%list
  end.

Definition compress (st : list Z) (block : list Z) : list Z :=
  zip_with add32 st (rounds K st block).

Fixpoint blocks (fuel : nat) (st : list Z) (ws : list Z) : list Z :=
  match fuel with
  | O => st
  | S fuel' =>
      match ws with
      | [] => st
      | _ => blocks fuel' (compress st (take 16 ws)) (drop 16 ws)
      end
  end.

Definition digest_words (msg : bytes) : list Z :=
  let p := pad msg in
  let ws := words (length p) p in
  blocks (length ws) H0 ws.

Fixpoint hex_word (n : nat) (v : Z) : string :=
  match n with
  | O => ""
  | S n' => hex_digit ((Z.shiftr v (4 * Z.of_nat n')) mod 16) ++ hex_word n' v
  end.

Definition hexdigest (msg : bytes) : string :=
  String.concat "" (hex_word 8 <$> digest_words msg).

End SHA256.

(** ** The proleptic Gregorian calendar of [datetime] *)

Module Calendar.
Import Text.

Definition is_leap (year : Z) : bool :=
  (year mod 4 =? 0) && (negb (year mod 100 =? 0) || (year mod 400 =? 0)).

Definition DAYS_IN_MONTH : list Z := [31; 28; 31; 30; 31; 30; 31; 31; 30; 31; 30; 31].

(** Days in the year before the first of [month] (1-based), leap day apart. *)
Definition DAYS_BEFORE_MONTH (month : Z) : Z :=
  foldr Z.add 0 (take (Z.to_nat (month - 1)) DAYS_IN_MONTH).

Definition days_in_month (year month : Z) : Z :=
  if (month =? 2) && is_leap year then 29
  else nth (Z.to_nat (month - 1)) DAYS_IN_MONTH 0.

Definition days_before_year (year : Z) : Z :=
  let y := year - 1 in y * 365 + y / 4 - y / 100 + y / 400.

Definition days_before_month (year month : Z) : Z :=
  DAYS_BEFORE_MONTH month + (if (2 <? month) && is_leap year then 1 else 0).

(** Ordinal of a date; 0001-01-01 is day 1. *)
Definition ymd2ord (year month day : Z) : Z :=
  days_before_year year + days_before_month year month + day.

Definition DI400Y : Z := 146097.
Definition DI100Y : Z := 36524.
Definition DI4Y : Z := 1461.

(** Ordinal to (year, month, day). *)
Definition ord2ymd (ordinal : Z) : Z * Z * Z :=
  let n := ordinal - 1 in
  let n400 := n / DI400Y in
  let n := n mod DI400Y in
  let n100 := n / DI100Y in
  let n := n mod DI100Y in
  let n4 := n / DI4Y in
  let n := n mod DI4Y in
  let n1 := n / 365 in
  let n := n mod 365 in
  let year := n400 * 400 + 1 + n100 * 100 + n4 * 4 + n1 in
  if (n1 =? 4) || (n100 =? 4) then (year - 1, 12, 31)
  else
    let leapyear := (n1 =? 3) && (negb (n4 =? 24) || (n100 =? 3)) in
    let month := Z.shiftr (n + 50) 5 in
    let preceding := DAYS_BEFORE_MONTH month + (if (2 <? month) && leapyear then 1 else 0) in
    if n <? preceding then
      let month' := month - 1 in
      let preceding' :=
        preceding - (nth (Z.to_nat (month' - 1)) DAYS_IN_MONTH 0
                     + (if (month' =? 2) && leapyear then 1 else 0)) in
      (year, month', n - preceding' + 1)
    else (year, month, n - preceding + 1).

Definition MINORDINAL : Z := 1.
Definition MAXORDINAL : Z := 3652059.

(** [datetime.now(timezone.utc)] for a clock that reads [t] seconds after
    1970-01-01T00:00:00Z. *)
Record datetime := mk_datetime {
  dt_ordinal : Z;
  dt_hour : Z;
  dt_minute : Z;
  dt_second : Z
}.

Definition EPOCH_ORDINAL : Z := 719163.

Definition utc_of_posix (t : Z) : datetime :=
  let s := t mod 86400 in
  {| dt_ordinal := EPOCH_ORDINAL + t / 86400;
     dt_hour := s / 3600;
     dt_minute := (s mod 3600) / 60;
     dt_second := s mod 60 |}.

(** [d.isoformat()] of a date: YYYY-MM-DD. *)
Definition isoformat (ordinal : Z) : string :=
  let '(y, m, d) := ord2ymd ordinal in
  pad4 y ++ "-" ++ pad2 m ++ "-" ++ pad2 d.

(** [now.strftime("%Y%m%d")]; the year is written with four digits, as the C
    library writes it from the year 1000 on. *)
Definition strftime_Ymd (now : datetime) : string :=
  let '(y, m, d) := ord2ymd (dt_ordinal now) in
  pad4 y ++ pad2 m ++ pad2 d.

(** [now.strftime("%Y%m%dT%H%M%SZ")]. *)
Definition strftime_YmdTHMSZ (now : datetime) : string :=
  strftime_Ymd now ++ "T" ++ pad2 (dt_hour now) ++ pad2 (dt_minute now)
    ++ pad2 (dt_second now) ++ "Z".

End Calendar.

(** ** Exceptions, the outside world and the effect monad *)

Module Effects.
Import Text Calendar.

(** An exception, by what the handler can observe of it: its class name
    ([type(e).__name__]), its text ([str(e)]) and, for
    [urllib.error.HTTPError], its status code. *)
Inductive Exn :=
| HTTPError (code : Z) (reason : string)
| PyError (class_name : string) (message : string).

Definition type_name (e : Exn) : string :=
  match e with
  | HTTPError _ _ => "HTTPError"
  | PyError c _ => c
  end.

Definition str_exn (e : Exn) : string :=
  match e with
  | HTTPError code reason => "HTTP Error " ++ str_int code ++ ": " ++ reason
  | PyError _ m => m
  end.

Inductive Result (A : Type) :=
| Ok (a : A)
| Raise (e : Exn).
Arguments Ok {A} a.
Arguments Raise {A} e.

(** A DynamoDB item and the S3 metadata are dicts of strings. *)
Abbreviation Item := (gmap string string).

Record S3Object := mk_object {
  Body : bytes;
  ContentType : string;
  Metadata : gmap string string;
  ContentEncoding : option string
}.

(** The calls the handler makes on the outside world, successful or not. *)
Inductive Event :=
| Urlopen (url : string)
| Sleep (seconds : Z)
| GetItem (table dataset : string)
| PutItem (table : string) (item : Item)
| PutObject (bucket key : string) (obj : S3Object).

Record World := mk_world {
  trace : list Event;                       (* most recent call first *)
  ddb : gmap (string * string) Item;        (* (table, dataset) to item *)
  s3 : gmap (string * string) S3Object      (* (bucket, key) to object *)
}.

(** Logical time: the number of calls made so far. *)
Definition clock (w : World) : nat := length (trace w).

Definition log (ev : Event) (w : World) : World :=
  {| trace := ev :: trace w; ddb := ddb w; s3 := s3 w |}.

(** What the outside world answers at each logical time. *)
Record Env := mk_env {
  env_urlopen : nat -> string -> Result bytes;     (* urlopen(req).read() *)
  env_utcnow : nat -> Z;                           (* POSIX seconds *)
  env_get_item : nat -> option Exn;                (* fault of table.get_item *)
  env_put_item : nat -> option Exn;                (* fault of table.put_item *)
  env_put_object : nat -> option Exn;              (* fault of S3.put_object *)
  env_gzip : nat -> bytes -> Result bytes          (* GzipFile write and close *)
}.

Definition M (A : Type) : Type := World -> Result A * World.

Definition ret {A} (a : A) : M A := fun w => (Ok a, w).
Definition raise {A} (e : Exn) : M A := fun w => (Raise e, w).
Definition bind {A B} (m : M A) (k : A -> M B) : M B :=
  fun w =>
    match m w with
    | (Ok a, w') => k a w'
    | (Raise e, w') => (Raise e, w')
    end.

(** [try: m except Exception as e: ...] hands the outcome to the caller. *)
Definition try {A} (m : M A) : M (Result A) :=
  fun w => let '(r, w') := m w in (Ok r, w').

Definition utcnow (env : Env) : M datetime :=
  fun w => (Ok (utc_of_posix (env_utcnow env (clock w))), w).

Definition urlopen_read (env : Env) (url : string) : M bytes :=
  fun w => (env_urlopen env (clock w) url, log (Urlopen url) w).

Definition sleep (seconds : Z) : M unit :=
  fun w => (Ok tt, log (Sleep seconds) w).

(** [table.get_item(Key={"dataset": k}).get("Item")]. *)
Definition get_item (env : Env) (table dataset : string) : M (option Item) :=
  fun w =>
    match env_get_item env (clock w) with
    | Some e => (Raise e, log (GetItem table dataset) w)
    | None => (Ok (ddb w !! (table, dataset)), log (GetItem table dataset) w)
    end.

(** [table.put_item(Item=item)]: a full overwrite of the row of the item's
    partition key. *)
Definition put_item (env : Env) (table : string) (item : Item) : M unit :=
  fun w =>
    match env_put_item env (clock w), item !! "dataset" with
    | Some e, _ => (Raise e, log (PutItem table item) w)
    | None, None =>
        (Raise (PyError "ClientError" "ValidationException: missing key dataset"),
         log (PutItem table item) w)
    | None, Some k =>
        (Ok tt,
         {| trace := PutItem table item :: trace w;
            ddb := <[(table, k) := item]> (ddb w);
            s3 := s3 w |})
    end.

Definition put_object (env : Env) (bucket key : string) (obj : S3Object) : M unit :=
  fun w =>
    match env_put_object env (clock w) with
    | Some e => (Raise e, log (PutObject bucket key obj) w)
    | None =>
        (Ok tt,
         {| trace := PutObject bucket key obj :: trace w;
            ddb := ddb w;
            s3 := <[(bucket, key) := obj]> (s3 w) |})
    end.

Definition gzip (env : Env) (data : bytes) : M bytes :=
  fun w => (env_gzip env (clock w) data, w).

End Effects.

Declare Scope effect_scope.
Delimit Scope effect_scope with eff.
Notation "'let*' x ':=' m 'in' k" :=
  (Effects.bind m (fun x => k))
  (at level 10, x pattern, m at level 100, k at level 200) : effect_scope.
Notation "m ';;' k" :=
  (Effects.bind m (fun _ => k))
  (at level 100, k at level 200, right associativity) : effect_scope.

(** ** handler.py *)

Module Handler.
Import Text Calendar Effects.
Local Open Scope effect_scope.

(** *** OECD fetch *)

Definition MAX_DELTA_DAYS : Z := 999999999.

(** [timedelta(days=d)]: the day count must fit a C int before its
    magnitude is checked. *)
Definition timedelta_days (d : Z) : M Z :=
  if Z.abs d <=? MAX_DELTA_DAYS then ret d
  else if (-2147483648 <=? d) && (d <? 2147483648) then
    raise (PyError "OverflowError"
             ("days=" ++ str_int d ++ "; must have magnitude <= 999999999"))
  else raise (PyError "OverflowError" "Python int too large to convert to C int").

(** [(now - delta).date()], as the ordinal of the resulting date. *)
Definition datetime_sub_date (now : datetime) (delta : Z) : M Z :=
  let o := dt_ordinal now - delta in
  if (MINORDINAL <=? o) && (o <=? MAXORDINAL) then ret o
  else raise (PyError "OverflowError" "date value out of range").

Definition url_base (dataset_id key_path : string) : string :=
  "https://stats.oecd.org/sdmx-json/data/" ++ dataset_id ++ "/" ++ key_path.

Definition params_common (fmt : string) : string :=
  "detail=DataOnly&dimensionAtObservation=AllDimensions"
  ++ (if String.eqb fmt "csv" then "&contentType=csv&separator=comma"
      else "&contentType=json").

Definition build_oecd_urls (env : Env) (dataset_id key_path : string)
    (last_n_obs : Z) (fmt : string) : M (list string) :=
  let base := url_base dataset_id key_path in
  let url_lastN :=
    base ++ "?" ++ params_common fmt ++ "&lastNObservations=" ++ str_int last_n_obs in
  let* now := utcnow env in
  let* delta := timedelta_days (last_n_obs * 2) in
  let* start := datetime_sub_date now delta in
  let url_start :=
    base ++ "?" ++ params_common fmt ++ "&startPeriod=" ++ isoformat start in
  ret [url_lastN; url_start].

Definition TRANSIENT : list Z := [429; 500; 502; 503; 504].

Definition raise_last {A} (last_err : option Exn) : M A :=
  match last_err with
  | Some e => raise e
  | None => raise (PyError "TypeError" "exceptions must derive from BaseException")
  end.

(** The loop [for attempt in range(1, retries + 1)] of [http_get], over the
    attempts still to make. *)
Fixpoint http_get_loop (env : Env) (url : string) (attempts : list Z)
    (last_err : option Exn) : M bytes :=
  match attempts with
  | [] => raise_last last_err
  | attempt :: rest =>
      let* r := try (urlopen_read env url) in
      match r with
      | Ok body => ret body
      | Raise (HTTPError code reason) =>
          if bool_decide (code ∈ TRANSIENT) then
            sleep (2 * attempt) ;;
            http_get_loop env url rest (Some (HTTPError code reason))
          else raise_last (Some (HTTPError code reason))
      | Raise e =>
          sleep (2 * attempt) ;;
          http_get_loop env url rest (Some e)
      end
  end.

Definition http_get (env : Env) (url : string) (retries : Z) : M bytes :=
  http_get_loop env url (seqZ 1 retries) None.

Definition too_short (blob : bytes) : bool :=
  bool_decide (blob = []) || (length blob <? 32)%nat.

(** The loop [for url in urls] of [fetch_oecd]. *)
Fixpoint fetch_loop (env : Env) (dataset_id key_path : string)
    (urls : list string) (err_acc : list string) : M (bytes * string) :=
  match urls with
  | [] =>
      raise (PyError "RuntimeError"
               ("All OECD fetch attempts failed for " ++ dataset_id ++ "/" ++ key_path
                ++ ": " ++ join " | " err_acc))
  | url :: rest =>
      let* r := try (http_get env url 3) in
      match r with
      | Ok blob =>
          if too_short blob then
            fetch_loop env dataset_id key_path rest
              (err_acc ++ [("Empty/short response from " ++ prefix 120 url)%string])%list
          else ret (blob, url)
      | Raise e =>
          fetch_loop env dataset_id key_path rest
            (err_acc ++ [(type_name e ++ ": " ++ str_exn e)%string])%list
      end
  end.

Definition fetch_oecd (env : Env) (dataset_id key_path : string)
    (last_n_obs : Z) (fmt : string) : M (bytes * string) :=
  let* urls := build_oecd_urls env dataset_id key_path last_n_obs fmt in
  fetch_loop env dataset_id key_path urls [].

(** *** Storage and de-duplication *)

Definition sha256 (data : bytes) : string := SHA256.hexdigest data.

Definition maybe_compress (env : Env) (data : bytes) (do_gzip : bool)
    : M (bytes * option string) :=
  if do_gzip then
    let* out := gzip env data in
    ret (out, Some "gzip")
  else ret (data, None).

(** A Python value held in a result dict. *)
Inductive Val :=
| VBool (b : bool)
| VStr (s : string).

#[global] Instance Val_eq_dec : EqDecision Val.
Proof. solve_decision. Defined.

Abbreviation Dict := (gmap string Val).

(** Truthiness of [d.get(k)]. *)
Definition truthy (v : option Val) : bool :=
  match v with
  | Some (VBool b) => b
  | Some (VStr s) => negb (String.eqb s "")
  | None => false
  end.

(** [if ddb_table_name:] *)
Definition table_enabled (ddb_table_name : option string) : option string :=
  match ddb_table_name with
  | Some t => if String.eqb t "" then None else Some t
  | None => None
  end.

(** [item and item.get("last_hash") == content_hash] *)
Definition same_hash (item : option Item) (content_hash : string) : bool :=
  match item with
  | Some it =>
      negb (bool_decide (it = ∅)) && bool_decide (it !! "last_hash" = Some content_hash)
  | None => false
  end.

Definition ledger_item (dataset_id content_hash url_used ts_str : string) : Item :=
  <["dataset" := dataset_id]>
    (<["last_hash" := content_hash]>
       (<["last_url" := url_used]>
          (<["last_run" := ts_str]> ∅))).

Definition ext_of (fmt : string) : string :=
  if String.eqb fmt "csv" then "csv" else "json".

Definition content_type_of (fmt : string) : string :=
  if String.eqb fmt "csv" then "text/csv" else "application/json".

Definition s3_key (s3_prefix dataset_id date_str ts_str content_hash fmt : string)
    : string :=
  rstrip_slash s3_prefix ++ "/" ++ dataset_id ++ "/" ++ date_str ++ "/"
  ++ dataset_id ++ "_" ++ ts_str ++ "_" ++ prefix 12 content_hash ++ "." ++ ext_of fmt.

Definition unchanged_result (content_hash url_used : string) : Dict :=
  <["stored" := VBool false]>
    (<["reason" := VStr "unchanged"]>
       (<["hash" := VStr content_hash]>
          (<["url" := VStr url_used]> ∅))).

Definition stored_result (key content_hash url_used : string) : Dict :=
  <["stored" := VBool true]>
    (<["s3_key" := VStr key]>
       (<["hash" := VStr content_hash]>
          (<["url" := VStr url_used]> ∅))).

Definition put_if_new (env : Env) (dataset_id url_used : string) (raw : bytes)
    (s3_bucket s3_prefix fmt : string) (gzip_output : bool)
    (ddb_table_name : option string) : M Dict :=
  let content_hash := sha256 raw in
  let* now := utcnow env in
  let date_str := strftime_Ymd now in
  let ts_str := strftime_YmdTHMSZ now in
  let* dedup_ok :=
    match table_enabled ddb_table_name with
    | Some table =>
        let* item := get_item env table dataset_id in
        if same_hash item content_hash then ret false
        else
          put_item env table (ledger_item dataset_id content_hash url_used ts_str) ;;
          ret true
    | None => ret true
    end in
  if negb dedup_ok then ret (unchanged_result content_hash url_used)
  else
    let key := s3_key s3_prefix dataset_id date_str ts_str content_hash fmt in
    let* (body, content_encoding) := maybe_compress env raw gzip_output in
    let ct := content_type_of fmt in
    put_object env s3_bucket key
      {| Body := body;
         ContentType := ct;
         Metadata := <["oecd_source_url" := url_used]> (<["sha256" := content_hash]> ∅);
         ContentEncoding := content_encoding |} ;;
    ret (stored_result key content_hash url_used).

(** *** Lambda entry *)

(** The configuration [lambda_handler] reads from its environment variables. *)
Record Config := mk_config {
  cfg_s3_bucket : string;          (* S3_BUCKET *)
  cfg_s3_prefix : string;          (* S3_PREFIX *)
  cfg_fmt : string;                (* FORMAT, lower-cased *)
  cfg_gzip_output : bool;          (* GZIP *)
  cfg_last_n_obs : Z;              (* LAST_N_OBS *)
  cfg_ddb_table : option string;   (* DEDUPE_TABLE *)
  cfg_datasets : list string;      (* OECD_DATASETS, split and stripped *)
  cfg_keys_map : gmap string string (* OECD_KEYS_JSON *)
}.

Definition error_result (ds : string) (e : Exn) : Dict :=
  <["dataset" := VStr ds]> (<["error" := VStr (str_exn e)]> ∅).

(** The body of [for ds in datasets], with its [try ... except Exception]. *)
Definition ingest_one (env : Env) (cfg : Config) (ds : string) (w : World)
    : Dict * World :=
  let key_path := default "all" (cfg_keys_map cfg !! ds) in
  let attempt :=
    let* (raw, url_used) := fetch_oecd env ds key_path (cfg_last_n_obs cfg) (cfg_fmt cfg) in
    let* out :=
      put_if_new env ds url_used raw (cfg_s3_bucket cfg) (cfg_s3_prefix cfg)
        (cfg_fmt cfg) (cfg_gzip_output cfg) (cfg_ddb_table cfg) in
    ret (<["dataset" := VStr ds]> out) in
  match attempt w with
  | (Ok out, w') => (out, w')
  | (Raise e, w') => (error_result ds e, w')
  end.

Fixpoint ingest_all (env : Env) (cfg : Config) (datasets : list string)
    (results : list Dict) (w : World) : list Dict * World :=
  match datasets with
  | [] => (results, w)
  | ds :: rest =>
      let '(r, w') := ingest_one env cfg ds w in
      ingest_all env cfg rest (results ++ [r])%list w'
  end.

Record Summary := mk_summary {
  sum_stored : nat;
  sum_unchanged : nat;
  sum_errors : nat
}.

Record Report := mk_report {
  statusCode : Z;
  summary : Summary;
  results : list Dict
}.

Definition is_stored (r : Dict) : bool := truthy (r !! "stored").
Definition is_unchanged (r : Dict) : bool :=
  bool_decide (r !! "reason" = Some (VStr "unchanged")).
Definition is_ok (r : Dict) : bool := is_stored r || is_unchanged r.
Definition is_err (r : Dict) : bool := truthy (r !! "error").

Definition make_report (rs : list Dict) : Report :=
  let ok := List.filter is_ok rs in
  let errs := List.filter is_err rs in
  {| statusCode := if bool_decide (errs = []) then 200 else 207;
     summary :=
       {| sum_stored := length (List.filter is_stored ok);
          sum_unchanged := length (List.filter is_unchanged ok);
          sum_errors := length errs |};
     results := rs |}.

Definition lambda_handler (env : Env) (cfg : Config) (w : World) : Report * World :=
  let '(rs, w') := ingest_all env cfg (cfg_datasets cfg) [] w in
  (make_report rs, w').

End Handler.

(** * Vocabulary of the properties *)

Module Props.
Import Text Calendar Effects Handler.

(** The world after the calls [evs] (most recent first) that left the
    stores as they were. *)
Definition after (evs : list Event) (w : World) : World :=
  {| trace := (evs ++ trace w)%list; ddb := ddb w; s3 := s3 w |}.

(** The failures [http_get] sleeps on and tries again: the five listed
    status codes and every exception that is not an [HTTPError]. *)
Definition is_transient (e : Exn) : bool :=
  match e with
  | HTTPError code _ => bool_decide (code ∈ TRANSIENT)
  | PyError _ _ => true
  end.

Definition retryable (r : Result bytes) : bool :=
  match r with
  | Ok _ => false
  | Raise e => is_transient e
  end.

(** The same test with the status codes written out: an answer after which
    [http_get] sleeps and asks again. *)
Definition tries_again (r : Result bytes) : bool :=
  match r with
  | Ok _ => false
  | Raise (HTTPError code _) =>
      (code =? 429) || (code =? 500) || (code =? 502) || (code =? 503) || (code =? 504)
  | Raise (PyError _ _) => true
  end.

(** The classes of I/O errors a request can end in: [OSError], which
    [IOError] is another name of, and those of its subclasses and of the
    connection failures of [http.client] that [urlopen] and [read] raise. *)
Definition io_error_classes : list string :=
  ["OSError"; "IOError"; "URLError"; "TimeoutError"; "timeout"; "ConnectionError";
   "ConnectionResetError"; "ConnectionRefusedError"; "ConnectionAbortedError";
   "BrokenPipeError"; "gaierror"; "herror"; "SSLError"; "SSLEOFError";
   "SSLZeroReturnError"; "SSLCertVerificationError"; "IncompleteRead";
   "RemoteDisconnected"; "BadStatusLine"].

(** The transient failures as the specification lists them: HTTP 429, 500,
    502, 503, 504 and generic I/O errors. *)
Definition spec_transient (e : Exn) : bool :=
  match e with
  | HTTPError code _ => bool_decide (code ∈ [429; 500; 502; 503; 504])
  | PyError class_name _ => bool_decide (class_name ∈ io_error_classes)
  end.

Definition is_net (ev : Event) : bool :=
  match ev with
  | Urlopen _ | Sleep _ => true
  | _ => false
  end.

Definition is_urlopen (ev : Event) : bool :=
  match ev with
  | Urlopen _ => true
  | _ => false
  end.

Definition is_put_object (ev : Event) : bool :=
  match ev with
  | PutObject _ _ _ => true
  | _ => false
  end.

Definition is_ledger_call (ev : Event) : bool :=
  match ev with
  | GetItem _ _ | PutItem _ _ => true
  | _ => false
  end.

(** Number of archive writes made so far. *)
Definition archive_writes (w : World) : nat :=
  length (List.filter is_put_object (trace w)).

(** The error summary [fetch_oecd] keeps for a candidate that raised. *)
Definition raised_summary (e : Exn) : string :=
  type_name e ++ ": " ++ str_exn e.

(** The error summary it keeps for a candidate whose body was too short. *)
Definition short_summary (url : string) : string :=
  "Empty/short response from " ++ prefix 120 url.

(** [Tried env urls w errs w']: from world [w], every candidate of [urls]
    was requested in order and failed, by raising after its retries or by
    answering a body under the size threshold, leaving the summaries [errs]
    and the world [w']. *)
Inductive Tried (env : Env) : list string -> World -> list string -> World -> Prop :=
| Tried_nil w : Tried env [] w [] w
| Tried_raised url rest w e w1 errs w2 :
    http_get env url 3 w = (Raise e, w1) ->
    Tried env rest w1 errs w2 ->
    Tried env (url :: rest) w (raised_summary e :: errs) w2
| Tried_short url rest w blob w1 errs w2 :
    http_get env url 3 w = (Ok blob, w1) ->
    too_short blob = true ->
    Tried env rest w1 errs w2 ->
    Tried env (url :: rest) w (short_summary url :: errs) w2.

(** The exception [fetch_oecd] raises when no candidate is left. *)
Definition FetchExhausted (dataset_id key_path : string) (errs : list string) : Exn :=
  PyError "RuntimeError"
    ("All OECD fetch attempts failed for " ++ dataset_id ++ "/" ++ key_path
     ++ ": " ++ join " | " errs).

(** Body and content encoding [maybe_compress] yields at logical time [t]. *)
Definition body_at (env : Env) (t : nat) (raw : bytes) (do_gzip : bool)
    : Result (bytes * option string) :=
  if do_gzip then
    match env_gzip env t raw with
    | Ok out => Ok (out, Some "gzip")
    | Raise e => Raise e
    end
  else Ok (raw, None).

Definition archive_object (body : bytes) (content_encoding : option string)
    (fmt content_hash url_used : string) : S3Object :=
  {| Body := body;
     ContentType := content_type_of fmt;
     Metadata := <["oecd_source_url" := url_used]> (<["sha256" := content_hash]> ∅);
     ContentEncoding := content_encoding |}.

(** The second half of [put_if_new], from the computation of the key on. *)
Definition archive_step (env : Env) (s3_bucket key : string) (raw : bytes)
    (fmt : string) (gzip_output : bool) (content_hash url_used : string)
    (w : World) : Result Dict * World :=
  match body_at env (clock w) raw gzip_output with
  | Raise e => (Raise e, w)
  | Ok (body, ce) =>
      let obj := archive_object body ce fmt content_hash url_used in
      match env_put_object env (clock w) with
      | Some e => (Raise e, after [PutObject s3_bucket key obj] w)
      | None =>
          (Ok (stored_result key content_hash url_used),
           {| trace := PutObject s3_bucket key obj :: trace w;
              ddb := ddb w;
              s3 := <[(s3_bucket, key) := obj]> (s3 w) |})
      end
  end.

(** The key [put_if_new] computes when the clock reads [t] POSIX seconds. *)
Definition key_at (t : Z) (s3_prefix dataset_id fmt : string) (raw : bytes) : string :=
  let now := utc_of_posix t in
  s3_key s3_prefix dataset_id (strftime_Ymd now) (strftime_YmdTHMSZ now) (sha256 raw) fmt.

(** The ledger row [put_if_new] writes when the clock reads [t]. *)
Definition row_at (t : Z) (dataset_id url_used : string) (raw : bytes) : Item :=
  ledger_item dataset_id (sha256 raw) url_used (strftime_YmdTHMSZ (utc_of_posix t)).

(** Month and day of the day number [n] (from 0) of a year, as [ord2ymd]
    finds them from its estimate [(n + 50) >> 5]. *)
Definition month_day (n : Z) (leapyear : bool) : Z * Z :=
  let month := Z.shiftr (n + 50) 5 in
  let preceding := DAYS_BEFORE_MONTH month + (if (2 <? month) && leapyear then 1 else 0) in
  if n <? preceding then
    (month - 1,
     n - (preceding - (nth (Z.to_nat (month - 1 - 1)) DAYS_IN_MONTH 0
                       + (if (month - 1 =? 2) && leapyear then 1 else 0))) + 1)
  else (month, n - preceding + 1).

(** What [month_day] has to satisfy on one day number. *)
Definition month_day_ok (leapyear : bool) (n : Z) : bool :=
  let '(m, d) := month_day n leapyear in
  (1 <=? m) && (m <=? 12) && (1 <=? d)
  && (d <=? nth (Z.to_nat (m - 1)) DAYS_IN_MONTH 0 + (if (m =? 2) && leapyear then 1 else 0))
  && (DAYS_BEFORE_MONTH m + (if (2 <? m) && leapyear then 1 else 0) + d =? n + 1).

(** The period granularity of a dataset. *)
Inductive Granularity := Annual | Quarterly | Monthly | Daily.

(** The start period as the specification words it: now minus 2 N, counted
    in the units of the granularity (years, quarters, months or days), for
    the day of ordinal [today]. *)
Definition spec_start_period (g : Granularity) (today : Z) (n : Z) : string :=
  let '(y, m, _) := ord2ymd today in
  match g with
  | Annual => pad4 (y - 2 * n)
  | Quarterly =>
      let q := 4 * y + (m - 1) / 3 - 2 * n in
      pad4 (q / 4) ++ "-Q" ++ str_int (q mod 4 + 1)
  | Monthly =>
      let k := 12 * y + (m - 1) - 2 * n in
      pad4 (k / 12) ++ "-" ++ pad2 (k mod 12 + 1)
  | Daily => isoformat (today - 2 * n)
  end.

(** DynamoDB answers every call. *)
Definition ledger_up (env : Env) : Prop :=
  forall t, env_get_item env t = None /\ env_put_item env t = None.

(** The ledger row of [dataset] in [table] carries the digest of [raw]. *)
Definition holds_digest (w : World) (table dataset : string) (raw : bytes) : Prop :=
  exists it, ddb w !! (table, dataset) = Some it /\ it !! "last_hash" = Some (sha256 raw).

Definition key_path_of (cfg : Config) (ds : string) : string :=
  default "all" (cfg_keys_map cfg !! ds).

(** The payloads the loop of [lambda_handler] fetches, dataset by dataset,
    when it starts from [w]; [None] where the fetch raised. *)
Fixpoint fetched_payloads (env : Env) (cfg : Config) (datasets : list string)
    (w : World) : list (option bytes) :=
  match datasets with
  | [] => []
  | ds :: rest =>
      (match fetch_oecd env ds (key_path_of cfg ds) (cfg_last_n_obs cfg) (cfg_fmt cfg) w with
       | (Ok (raw, _), _) => Some raw
       | (Raise _, _) => None
       end)
      :: fetched_payloads env cfg rest (ingest_one env cfg ds w).2
  end.

(** The three shapes of a per-dataset result. *)
Definition stored_shape (r : Dict) : Prop :=
  r !! "stored" = Some (VBool true) /\ r !! "reason" = None /\ r !! "error" = None.

Definition unchanged_shape (r : Dict) : Prop :=
  r !! "stored" = Some (VBool false) /\ r !! "reason" = Some (VStr "unchanged")
  /\ r !! "error" = None.

Definition error_shape (r : Dict) : Prop :=
  r !! "stored" = None /\ r !! "reason" = None /\ exists m, r !! "error" = Some (VStr m).

Definition shaped (r : Dict) : Prop := stored_shape r \/ unchanged_shape r \/ error_shape r.

(** A result of a dataset whose processing raised. *)
Definition has_error (r : Dict) : bool := bool_decide (is_Some (r !! "error")).

Definition errored (rs : list Dict) : nat := length (List.filter has_error rs).
Definition succeeded (rs : list Dict) : nat :=
  length (List.filter (fun r => negb (has_error r)) rs).

(** The three cases a caller wants to tell apart. *)
Inductive Outcome := TotalSuccess | PartialFailure | TotalFailure.

Definition outcome_of (rs : list Dict) : Outcome :=
  if (errored rs =? 0)%nat then TotalSuccess
  else if (succeeded rs =? 0)%nat then TotalFailure
  else PartialFailure.

(** The same three cases, read off a report. *)
Definition outcome_of_report (rep : Report) : Outcome :=
  if statusCode rep =? 200 then TotalSuccess
  else if (sum_stored (summary rep) + sum_unchanged (summary rep) =? 0)%nat
       then TotalFailure
       else PartialFailure.

(** The key as the specification words it, with the prefix as configured. *)
Definition spec_key (s3_prefix dataset_id date_str ts_str content_hash ext : string)
    : string :=
  s3_prefix ++ "/" ++ dataset_id ++ "/" ++ date_str ++ "/"
  ++ dataset_id ++ "_" ++ ts_str ++ "_" ++ prefix 12 content_hash ++ "." ++ ext.

(** A result whose error text is empty. *)
Definition is_silent_error (r : Dict) : bool :=
  bool_decide (r !! "error" = Some (VStr "")).

(** Every exception the storage side can raise has a non-empty text. *)
Definition faults_described (env : Env) : Prop :=
  (forall t e, env_get_item env t = Some e -> str_exn e <> "")
  /\ (forall t e, env_put_item env t = Some e -> str_exn e <> "")
  /\ (forall t e, env_put_object env t = Some e -> str_exn e <> "")
  /\ (forall t b e, env_gzip env t b = Raise e -> str_exn e <> "").

(** Every error text of the results is non-empty. *)
Definition errors_described (rs : list Dict) : Prop :=
  forall r, r ∈ rs -> r !! "error" <> Some (VStr "").

End Props.

(** * Concrete scenarios *)

Module Scenarios.
Import Text Calendar Effects Handler Props.

(** Two CSV payloads of 38 bytes. *)
Definition P1 : bytes := encode "LOCATION,TIME,Value
AUS,2020,18743956
".

Definition P2 : bytes := encode "LOCATION,TIME,Value
AUS,2020,52854636
".

(** 2024-06-15T12:30:45Z. *)
Definition T0 : Z := 1718454645.

Definition w0 : World := {| trace := []; ddb := ∅; s3 := ∅ |}.

(** Everything works and the API serves [P1]. *)
Definition env_ok : Env :=
  {| env_urlopen := fun _ _ => Ok P1;
     env_utcnow := fun _ => T0;
     env_get_item := fun _ => None;
     env_put_item := fun _ => None;
     env_put_object := fun _ => None;
     env_gzip := fun _ b => Ok b |}.

(** The first request is answered 404, the following ones with [P1]. *)
Definition env_404 : Env :=
  {| env_urlopen := fun t _ =>
       match t with
       | O => Raise (HTTPError 404 "Not Found")
       | _ => Ok P1
       end;
     env_utcnow := fun _ => T0;
     env_get_item := fun _ => None;
     env_put_item := fun _ => None;
     env_put_object := fun _ => None;
     env_gzip := fun _ b => Ok b |}.

(** The first request is answered with five bytes, the following ones with
    [P1]. *)
Definition env_short : Env :=
  {| env_urlopen := fun t _ =>
       match t with
       | O => Ok (encode "null
")
       | _ => Ok P1
       end;
     env_utcnow := fun _ => T0;
     env_get_item := fun _ => None;
     env_put_item := fun _ => None;
     env_put_object := fun _ => None;
     env_gzip := fun _ b => Ok b |}.

(** The archive refuses every write. *)
Definition env_s3_down : Env :=
  {| env_urlopen := fun _ _ => Ok P1;
     env_utcnow := fun _ => T0;
     env_get_item := fun _ => None;
     env_put_item := fun _ => None;
     env_put_object := fun _ => Some (PyError "ClientError" "An error occurred (AccessDenied) when calling the PutObject operation: Access Denied");
     env_gzip := fun _ b => Ok b |}.

(** A ledger whose row for MEI records the digest of [P2]. *)
Definition w_seen_P2 : World :=
  {| trace := [];
     ddb := {[ ("T", "MEI") := ledger_item "MEI" (sha256 P2) "u" "20240601T000000Z" ]};
     s3 := ∅ |}.

(** A ledger whose row for MEI records the digest of [P1]. *)
Definition w_seen_P1 : World :=
  {| trace := [];
     ddb := {[ ("T", "MEI") := ledger_item "MEI" (sha256 P1) "u" "20240601T000000Z" ]};
     s3 := ∅ |}.

(** One dataset, CSV, no compression, no ledger. *)
Definition cfg_plain : Config :=
  {| cfg_s3_bucket := "bkt";
     cfg_s3_prefix := "oecd/raw";
     cfg_fmt := "csv";
     cfg_gzip_output := false;
     cfg_last_n_obs := 60;
     cfg_ddb_table := None;
     cfg_datasets := ["MEI"];
     cfg_keys_map := ∅ |}.

(** The same with the ledger table T. *)
Definition cfg_ledger : Config :=
  {| cfg_s3_bucket := "bkt";
     cfg_s3_prefix := "oecd/raw";
     cfg_fmt := "csv";
     cfg_gzip_output := false;
     cfg_last_n_obs := 60;
     cfg_ddb_table := Some "T";
     cfg_datasets := ["MEI"];
     cfg_keys_map := ∅ |}.

(** The world after a first run without ledger has archived [P1]. *)
Definition w_archived_P1 : World := (ingest_one env_ok cfg_plain "MEI" w0).2.

(** Compression runs out of memory; [str(MemoryError())] is empty. *)
Definition env_oom : Env :=
  {| env_urlopen := fun _ _ => Ok P1;
     env_utcnow := fun _ => T0;
     env_get_item := fun _ => None;
     env_put_item := fun _ => None;
     env_put_object := fun _ => None;
     env_gzip := fun _ _ => Raise (PyError "MemoryError" "") |}.

(** One dataset, CSV, compressed, no ledger. *)
Definition cfg_gzip : Config :=
  {| cfg_s3_bucket := "bkt";
     cfg_s3_prefix := "oecd/raw";
     cfg_fmt := "csv";
     cfg_gzip_output := true;
     cfg_last_n_obs := 60;
     cfg_ddb_table := None;
     cfg_datasets := ["MEI"];
     cfg_keys_map := ∅ |}.

(** Two datasets, CSV, no compression, no ledger. *)
Definition cfg_two : Config :=
  {| cfg_s3_bucket := "bkt";
     cfg_s3_prefix := "oecd/raw";
     cfg_fmt := "csv";
     cfg_gzip_output := false;
     cfg_last_n_obs := 60;
     cfg_ddb_table := None;
     cfg_datasets := ["MEI"; "EO"];
     cfg_keys_map := ∅ |}.

(** The API answers the first request and then only 500. *)
Definition env_then_500 : Env :=
  {| env_urlopen := fun t _ =>
       match t with
       | O => Ok P1
       | _ => Raise (HTTPError 500 "Internal Server Error")
       end;
     env_utcnow := fun _ => T0;
     env_get_item := fun _ => None;
     env_put_item := fun _ => None;
     env_put_object := fun _ => None;
     env_gzip := fun _ b => Ok b |}.

(** The API answers only 500. *)
Definition env_500 : Env :=
  {| env_urlopen := fun _ _ => Raise (HTTPError 500 "Internal Server Error");
     env_utcnow := fun _ => T0;
     env_get_item := fun _ => None;
     env_put_item := fun _ => None;
     env_put_object := fun _ => None;
     env_gzip := fun _ b => Ok b |}.

(** A dataset code with a blank in it: [urlopen] refuses the URL before it
    opens any connection, on every attempt. *)
Definition url_blank : string :=
  "https://stats.oecd.org/sdmx-json/data/M EI/all?detail=DataOnly&dimensionAtObservation=AllDimensions&contentType=csv&separator=comma&lastNObservations=60".

Definition invalid_url : Exn :=
  PyError "InvalidURL"
    "URL can't contain control characters. '/sdmx-json/data/M EI/all?detail=DataOnly&dimensionAtObservation=AllDimensions&contentType=csv&separator=comma&lastNObservations=60' (found at least ' ')".

Definition env_invalid_url : Env :=
  {| env_urlopen := fun _ _ => Raise invalid_url;
     env_utcnow := fun _ => T0;
     env_get_item := fun _ => None;
     env_put_item := fun _ => None;
     env_put_object := fun _ => None;
     env_gzip := fun _ b => Ok b |}.

(** The first request is answered 503, the second 404, the following ones
    with [P1]. *)
Definition env_503_404 : Env :=
  {| env_urlopen := fun t _ =>
       match t with
       | O => Raise (HTTPError 503 "Service Unavailable")
       | 2%nat => Raise (HTTPError 404 "Not Found")
       | _ => Ok P1
       end;
     env_utcnow := fun _ => T0;
     env_get_item := fun _ => None;
     env_put_item := fun _ => None;
     env_put_object := fun _ => None;
     env_gzip := fun _ b => Ok b |}.

Definition url_A : string :=
  "https://stats.oecd.org/sdmx-json/data/MEI/all?detail=DataOnly&dimensionAtObservation=AllDimensions&contentType=csv&separator=comma&lastNObservations=60".

Definition url_B : string :=
  "https://stats.oecd.org/sdmx-json/data/MEI/all?detail=DataOnly&dimensionAtObservation=AllDimensions&contentType=csv&separator=comma&startPeriod=2024-02-16".

End Scenarios.

(** * The entry point: configuration from the environment *)

(** [str] methods used on the configuration. A character of a [string] is
    read as a code point below 256. *)
Module PyStr.

Definition code (c : Ascii.ascii) : N := Ascii.N_of_ascii c.

(** [c.isspace()]: the characters [str.strip()] removes. *)
Definition is_space (c : Ascii.ascii) : bool :=
  let n := code c in
  ((9 <=? n) && (n <=? 13))%N || ((28 <=? n) && (n <=? 32))%N
  || (n =? 133)%N || (n =? 160)%N.

Definition lower_char (c : Ascii.ascii) : Ascii.ascii :=
  let n := code c in
  if (((65 <=? n) && (n <=? 90)) || ((192 <=? n) && (n <=? 222) && negb (n =? 215)))%N
  then Ascii.ascii_of_N (n + 32)
  else c.

(** [s.lower()]. *)
Fixpoint lower (s : string) : string :=
  match s with
  | EmptyString => EmptyString
  | String c rest => String (lower_char c) (lower rest)
  end.

Fixpoint lstrip (s : string) : string :=
  match s with
  | EmptyString => EmptyString
  | String c rest => if is_space c then lstrip rest else s
  end.

Fixpoint rstrip (s : string) : string :=
  match s with
  | EmptyString => EmptyString
  | String c rest =>
      match rstrip rest with
      | EmptyString => if is_space c then EmptyString else String c EmptyString
      | r => String c r
      end
  end.

(** [s.strip()]. *)
Definition strip (s : string) : string := rstrip (lstrip s).

Definition comma : Ascii.ascii := Ascii.ascii_of_nat 44.

(** [s.split(",")]. *)
Fixpoint split_comma (s : string) : list string :=
  match s with
  | EmptyString => [EmptyString]
  | String c rest =>
      if Ascii.eqb c comma then EmptyString :: split_comma rest
      else
        match split_comma rest with
        | first :: others => String c first :: others
        | [] => [String c EmptyString]
        end
  end.

End PyStr.

Module Entry.
Import Text Calendar Effects Handler PyStr.
Local Open Scope effect_scope.

(** [os.getenv(name, default)]. *)
Definition os_getenv (environ : gmap string string) (name : string)
    (default : option string) : option string :=
  match environ !! name with
  | Some v => Some v
  | None => default
  end.

Definition getenv (environ : gmap string string) (name : string)
    (default : option string) (required : bool) : Result (option string) :=
  let val := os_getenv environ name default in
  if required && (bool_decide (val = None) || bool_decide (val = Some ""))
  then Raise (PyError "RuntimeError" ("Missing required env var: " ++ name))
  else Ok val.

(** What [json.loads] made of OECD_KEYS_JSON: a dict, each value by the text
    an f-string renders it as, or a value of another type. *)
Inductive KeysJson :=
| KeysDict (m : gmap string string)
| KeysOther (type_name : string).

(** The process environment, with the two library parsers the handler
    applies to it. *)
Record Host := mk_host {
  host_environ : gmap string string;
  host_int : string -> Result Z;               (* int(s) *)
  host_json_loads : string -> Result KeysJson  (* json.loads(s) *)
}.

Definition lift {A} (r : Result A) : M A := fun w => (r, w).

(** The text of a variable that is set or has a default. [getenv] returns
    [None] only for a variable that is neither, which is none of those read
    through [str_of]. *)
Definition str_of (v : option string) : M string :=
  match v with
  | Some s => ret s
  | None => raise (PyError "TypeError" "expected str, got NoneType")
  end.

(** [[d.strip() for d in s.split(",") if d.strip()]]. *)
Definition parse_datasets (s : string) : list string :=
  List.filter (fun d => negb (String.eqb d "")) (strip <$> split_comma s).

Definition load_keys_map (host : Host) (text : string) : M KeysJson :=
  match host_json_loads host text with
  | Ok v => ret v
  | Raise e =>
      if String.eqb (type_name e) "JSONDecodeError" then
        raise (PyError "RuntimeError"
                 ("OECD_KEYS_JSON must be valid JSON mapping: " ++ str_exn e))
      else raise e
  end.

(** [lambda_handler(event, context)], from the reading of the environment
    on; the loop and the report are [Handler.lambda_handler]. *)
Definition lambda_handler_entry (host : Host) (env : Env) : M Report :=
  let environ := host_environ host in
  let* s3_bucket_val := lift (getenv environ "S3_BUCKET" None true) in
  let* s3_bucket := str_of s3_bucket_val in
  let* s3_prefix_val := lift (getenv environ "S3_PREFIX" (Some "oecd/raw") false) in
  let* s3_prefix := str_of s3_prefix_val in
  let* fmt_val := lift (getenv environ "FORMAT" (Some "csv") false) in
  let* fmt_text := str_of fmt_val in
  let fmt := lower fmt_text in
  let* gzip_val := lift (getenv environ "GZIP" (Some "true") false) in
  let* gzip_text := str_of gzip_val in
  let gzip_output := String.eqb (lower gzip_text) "true" in
  let* last_val := lift (getenv environ "LAST_N_OBS" (Some "60") false) in
  let* last_text := str_of last_val in
  let* last_n_obs := lift (host_int host last_text) in
  let* ddb_table := lift (getenv environ "DEDUPE_TABLE" None false) in
  let* datasets_val := lift (getenv environ "OECD_DATASETS" None true) in
  let* datasets_text := str_of datasets_val in
  let datasets := parse_datasets datasets_text in
  let* keys_val := lift (getenv environ "OECD_KEYS_JSON" (Some "{}") false) in
  let* keys_text := str_of keys_val in
  let* keys := load_keys_map host keys_text in
  match keys, datasets with
  | KeysDict keys_map, _ =>
      fun w =>
        let '(report, w') :=
          lambda_handler env
            {| cfg_s3_bucket := s3_bucket;
               cfg_s3_prefix := s3_prefix;
               cfg_fmt := fmt;
               cfg_gzip_output := gzip_output;
               cfg_last_n_obs := last_n_obs;
               cfg_ddb_table := ddb_table;
               cfg_datasets := datasets;
               cfg_keys_map := keys_map |} w in
        (Ok report, w')
  | KeysOther ty, [] => ret (make_report [])
  | KeysOther ty, _ :: _ =>
      raise (PyError "AttributeError" ("'" ++ ty ++ "' object has no attribute 'get'"))
  end.

End Entry.

(** * Further vocabulary *)

Module Budget.
Import Text Calendar Effects Handler Props.

Definition sleep_seconds (ev : Event) : Z :=
  match ev with
  | Sleep s => s
  | _ => 0
  end.

(** Seconds slept over the calls [evs]. *)
Definition total_sleep (evs : list Event) : Z :=
  foldr (fun ev acc => sleep_seconds ev + acc) 0 evs.

(** Number of GETs among the calls [evs]. *)
Definition requests (evs : list Event) : nat := length (List.filter is_urlopen evs).

Definition is_get_item (ev : Event) : bool :=
  match ev with
  | GetItem _ _ => true
  | _ => false
  end.

Definition is_put_item (ev : Event) : bool :=
  match ev with
  | PutItem _ _ => true
  | _ => false
  end.

Definition count (p : Event -> bool) (evs : list Event) : nat := length (List.filter p evs).

(** The start date of the window cannot be computed: [timedelta] or the
    subtraction overflows. *)
Definition window_overflows (t : Z) (n : Z) : bool :=
  negb ((Z.abs (n * 2) <=? 999999999)
        && (MINORDINAL <=? EPOCH_ORDINAL + t / 86400 - n * 2)
        && (EPOCH_ORDINAL + t / 86400 - n * 2 <=? MAXORDINAL)).

(** DynamoDB, S3 and gzip answer every call. *)
Definition storage_up (env : Env) : Prop :=
  ledger_up env
  /\ (forall t, env_put_object env t = None)
  /\ (forall t b, exists z, env_gzip env t b = Ok z).

(** The configuration [cfg] with another list of datasets. *)
Definition with_datasets (cfg : Config) (datasets : list string) : Config :=
  {| cfg_s3_bucket := cfg_s3_bucket cfg;
     cfg_s3_prefix := cfg_s3_prefix cfg;
     cfg_fmt := cfg_fmt cfg;
     cfg_gzip_output := cfg_gzip_output cfg;
     cfg_last_n_obs := cfg_last_n_obs cfg;
     cfg_ddb_table := cfg_ddb_table cfg;
     cfg_datasets := datasets;
     cfg_keys_map := cfg_keys_map cfg |}.

(** A result is of exactly one of the three shapes. *)
Definition one_shape (r : Dict) : Prop :=
  (stored_shape r /\ ~ unchanged_shape r /\ ~ error_shape r)
  \/ (unchanged_shape r /\ ~ stored_shape r /\ ~ error_shape r)
  \/ (error_shape r /\ ~ stored_shape r /\ ~ unchanged_shape r).

Definition is_hex_char (c : Ascii.ascii) : bool :=
  let n := Ascii.N_of_ascii c in
  (((48 <=? n) && (n <=? 57)) || ((97 <=? n) && (n <=? 102)))%N.

Fixpoint all_chars (p : Ascii.ascii -> bool) (s : string) : bool :=
  match s with
  | EmptyString => true
  | String c rest => p c && all_chars p rest
  end.

Definition no_comma (c : Ascii.ascii) : bool := negb (Ascii.eqb c PyStr.comma).

(** A dataset name as [parse_datasets] yields them: not empty, without
    comma, without white space at either end. *)
Definition clean_name (d : string) : Prop :=
  d <> "" /\ PyStr.strip d = d /\ all_chars no_comma d = true.

(** The configuration the entry point builds from the environment, given
    the bucket, the parsed window, the text of the dataset list and the
    parsed key map. *)
Definition entry_config (host : Entry.Host) (s3_bucket : string) (last_n_obs : Z)
    (datasets_text : string) (keys_map : gmap string string) : Config :=
  let environ := Entry.host_environ host in
  {| cfg_s3_bucket := s3_bucket;
     cfg_s3_prefix := default "oecd/raw" (environ !! "S3_PREFIX");
     cfg_fmt := PyStr.lower (default "csv" (environ !! "FORMAT"));
     cfg_gzip_output := String.eqb (PyStr.lower (default "true" (environ !! "GZIP"))) "true";
     cfg_last_n_obs := last_n_obs;
     cfg_ddb_table := environ !! "DEDUPE_TABLE";
     cfg_datasets := Entry.parse_datasets datasets_text;
     cfg_keys_map := keys_map |}.

Definition missing_var (name : string) : Exn :=
  PyError "RuntimeError" ("Missing required env var: " ++ name).

(** A variable is unset or set to the empty string. *)
Definition unset (environ : gmap string string) (name : string) : Prop :=
  environ !! name = None \/ environ !! name = Some "".

(** An archive write as the configuration prescribes it. *)
Definition write_conforms (cfg : Config) (ev : Event) : Prop :=
  match ev with
  | PutObject bucket key obj =>
      bucket = cfg_s3_bucket cfg
      /\ ContentType obj = (if String.eqb (cfg_fmt cfg) "csv" then "text/csv"
                           else "application/json")
      /\ ContentEncoding obj = (if cfg_gzip_output cfg then Some "gzip" else None)
  | _ => True
  end.

End Budget.

(** * Further scenarios *)

Module Cases.
Import Text Calendar Effects Handler Props Entry.


(** DynamoDB refuses every read. *)
Definition env_read_down : Env :=
  {| env_urlopen := fun _ _ => Ok Scenarios.P1;
     env_utcnow := fun _ => Scenarios.T0;
     env_get_item := fun _ => Some (PyError "ClientError" "ProvisionedThroughputExceededException");
     env_put_item := fun _ => None;
     env_put_object := fun _ => None;
     env_gzip := fun _ b => Ok b |}.

(** DynamoDB refuses every write. *)
Definition env_write_down : Env :=
  {| env_urlopen := fun _ _ => Ok Scenarios.P1;
     env_utcnow := fun _ => Scenarios.T0;
     env_get_item := fun _ => None;
     env_put_item := fun _ => Some (PyError "ClientError" "AccessDeniedException");
     env_put_object := fun _ => None;
     env_gzip := fun _ b => Ok b |}.

(** Two datasets, the second with its own SDMX key, and the ledger table T. *)
Definition cfg_keys : Config :=
  {| cfg_s3_bucket := "bkt";
     cfg_s3_prefix := "oecd/raw";
     cfg_fmt := "json";
     cfg_gzip_output := true;
     cfg_last_n_obs := 60;
     cfg_ddb_table := Some "T";
     cfg_datasets := ["EO"; "MEI"];
     cfg_keys_map := {[ "MEI" := "AUS.M.BLF.N.PT" ]} |}.

(** An environment as the docstring of [lambda_handler] gives it. *)
Definition host_doc : Host :=
  {| host_environ :=
       <["S3_BUCKET" := "your-bucket"]>
         (<["S3_PREFIX" := "oecd/raw"]>
            (<["OECD_DATASETS" := "HEALTH_STAT,EO,MEI"]>
               (<["FORMAT" := "csv"]>
                  (<["GZIP" := "true"]>
                     (<["LAST_N_OBS" := "60"]>
                        (<["DEDUPE_TABLE" := "OECDIngestState"]> ∅))))));
     host_int := fun s =>
       if String.eqb s "60" then Ok 60
       else Raise (PyError "ValueError" ("invalid literal for int() with base 10: '" ++ s ++ "'"));
     host_json_loads := fun s =>
       if String.eqb s "{}" then Ok (KeysDict ∅)
       else Raise (PyError "JSONDecodeError" "Expecting value: line 1 column 1 (char 0)") |}.

(** The same without S3_BUCKET. *)
Definition host_no_bucket : Host :=
  {| host_environ := delete "S3_BUCKET" (host_environ host_doc);
     host_int := host_int host_doc;
     host_json_loads := host_json_loads host_doc |}.

(** The same without OECD_DATASETS. *)
Definition host_no_datasets : Host :=
  {| host_environ := delete "OECD_DATASETS" (host_environ host_doc);
     host_int := host_int host_doc;
     host_json_loads := host_json_loads host_doc |}.

(** The same with GZIP=1 and FORMAT=JSON. *)
Definition host_gzip_one : Host :=
  {| host_environ := <["GZIP" := "1"]> (<["FORMAT" := "JSON"]> (host_environ host_doc));
     host_int := host_int host_doc;
     host_json_loads := host_json_loads host_doc |}.

(** The same with a list of datasets made of commas and blanks. *)
Definition host_blank_datasets : Host :=
  {| host_environ := <["OECD_DATASETS" := " , ,"]> (host_environ host_doc);
     host_int := host_int host_doc;
     host_json_loads := host_json_loads host_doc |}.

End Cases.

(** * Properties of the handler *)

Import Text Calendar Effects Handler Props.
Local Open Scope effect_scope.

(** ** Checks of the library models against known values *)

Example sha256_abc :
  sha256 (encode "abc")
  = "ba7816bf8f01cfea414140de5dae2223b00361a396177a9cb410ff61f20015ad".
Proof. vm_compute. reflexivity. Qed.

Example sha256_empty :
  sha256 []
  = "e3b0c44298fc1c149afbf4c8996fb92427ae41e4649b934ca495991b7852b855".
Proof. vm_compute. reflexivity. Qed.

Example sha256_two_blocks :
  sha256 (encode "abcdbcdecdefdefgefghfghighijhijkijkljklmklmnlmnomnopnopq")
  = "248d6a61d20638b8e5c026930c3e6039a33ce45964ff2167f6ecedd419db06c1".
Proof. vm_compute. reflexivity. Qed.

Example calendar_epoch : ord2ymd EPOCH_ORDINAL = (1970, 1, 1) /\ ymd2ord 9999 12 31 = MAXORDINAL.
Proof. split; vm_compute; reflexivity. Qed.

Example strftime_T0 :
  strftime_YmdTHMSZ (utc_of_posix Scenarios.T0) = "20240615T123045Z"
  /\ strftime_Ymd (utc_of_posix Scenarios.T0) = "20240615".
Proof. split; vm_compute; reflexivity. Qed.

Example rstrip_slash_examples :
  rstrip_slash "oecd/raw//" = "oecd/raw" /\ rstrip_slash "a/b" = "a/b" /\ rstrip_slash "//" = "".
Proof. repeat apply conj; reflexivity. Qed.

(** ** The fetcher *)

Section Fetcher.
Variable env : Env.

Lemma clock_after evs w : clock (after evs w) = (length evs + clock w)%nat.
Proof. unfold clock, after; cbn. by rewrite length_app. Qed.

Lemma after_after evs1 evs2 w : after evs1 (after evs2 w) = after (evs1 ++ evs2) w.
Proof. unfold after; cbn. by rewrite app_assoc. Qed.

(** One turn of the retry loop: a GET, then either the answer goes to the
    caller or the loop sleeps [2 * attempt] seconds and goes on. *)
Lemma http_get_loop_step url attempt rest last w :
  http_get_loop env url (attempt :: rest) last w =
    if retryable (env_urlopen env (clock w) url) then
      http_get_loop env url rest
        (match env_urlopen env (clock w) url with Raise e => Some e | Ok _ => last end)
        (after [Sleep (2 * attempt); Urlopen url] w)
    else (env_urlopen env (clock w) url, after [Urlopen url] w).
Proof.
  cbn [http_get_loop]. unfold bind, try, urlopen_read.
  destruct (env_urlopen env (clock w) url) as [body|[code reason|cls msg]]; cbn.
  - reflexivity.
  - destruct (bool_decide (code ∈ TRANSIENT)); reflexivity.
  - reflexivity.
Qed.

(** The three attempts of [http_get(url)], spelled out. *)
Lemma http_get_three url w :
  http_get env url 3 w =
    if negb (retryable (env_urlopen env (clock w) url)) then
      (env_urlopen env (clock w) url, after [Urlopen url] w)
    else if negb (retryable (env_urlopen env (2 + clock w)%nat url)) then
      (env_urlopen env (2 + clock w)%nat url,
       after [Urlopen url; Sleep 2; Urlopen url] w)
    else if negb (retryable (env_urlopen env (4 + clock w)%nat url)) then
      (env_urlopen env (4 + clock w)%nat url,
       after [Urlopen url; Sleep 4; Urlopen url; Sleep 2; Urlopen url] w)
    else
      (env_urlopen env (4 + clock w)%nat url,
       after [Sleep 6; Urlopen url; Sleep 4; Urlopen url; Sleep 2; Urlopen url] w).
Proof.
  unfold http_get. change (seqZ 1 3) with [1; 2; 3].
  rewrite http_get_loop_step.
  destruct (retryable (env_urlopen env (clock w) url)); cbn [negb]; [|reflexivity].
  rewrite http_get_loop_step.
  change (clock (after [Sleep (2 * 1); Urlopen url] w)) with (2 + clock w)%nat.
  destruct (retryable (env_urlopen env (2 + clock w)%nat url)); cbn [negb]; [|reflexivity].
  rewrite http_get_loop_step.
  change (clock (after [Sleep (2 * 2); Urlopen url]
            (after [Sleep (2 * 1); Urlopen url] w))) with (4 + clock w)%nat.
  destruct (env_urlopen env (4 + clock w)%nat url) as [b|e] eqn:E3; cbn [retryable negb].
  - reflexivity.
  - destruct (is_transient e); reflexivity.
Qed.

(** Whatever the retry loop does, it only issues GETs of its URL and sleeps,
    at most one GET per attempt, and it leaves the stores alone. *)
Lemma http_get_loop_frame url attempts : forall last w,
  exists evs,
    (http_get_loop env url attempts last w).2 = after evs w
    /\ Forall (fun ev => ev = Urlopen url \/ exists a, a ∈ attempts /\ ev = Sleep (2 * a)) evs
    /\ (length (List.filter is_urlopen evs) <= length attempts)%nat.
Proof.
  induction attempts as [|a rest IH]; intros last w.
  - exists []. split; [|split; [constructor | cbn; lia]].
    destruct last; cbn; unfold after; destruct w; reflexivity.
  - rewrite http_get_loop_step.
    destruct (retryable (env_urlopen env (clock w) url)).
    + destruct (IH (match env_urlopen env (clock w) url with
                    | Raise e => Some e | Ok _ => last end)
                  (after [Sleep (2 * a); Urlopen url] w)) as (evs & Hw & Hall & Hcnt).
      exists (evs ++ [Sleep (2 * a); Urlopen url])%list.
      rewrite Hw, after_after. split; [reflexivity|]. split.
      * apply Forall_app. split.
        -- eapply Forall_impl; [exact Hall|]. intros ev [->|(a' & Ha' & ->)]; [by left|].
           right. exists a'. split; [by apply elem_of_cons; right | done].
        -- constructor; [|constructor; [by left|constructor]].
           right. exists a. split; [apply elem_of_cons; by left | done].
      * rewrite List.filter_app, length_app. cbn. lia.
    + exists [Urlopen url]. cbn [snd]. split; [reflexivity|]. split.
      * constructor; [by left|constructor].
      * cbn. lia.
Qed.

Lemma http_get_frame url w :
  exists evs, (http_get env url 3 w).2 = after evs w /\ Forall (fun ev => is_net ev = true) evs.
Proof.
  destruct (http_get_loop_frame url (seqZ 1 3) None w) as (evs & Hw & Hall & _).
  exists evs. split; [exact Hw|].
  eapply Forall_impl; [exact Hall|]. by intros ev [->|(a & _ & ->)].
Qed.

(** The first thing [http_get] does is a GET of its URL. *)
Lemma http_get_first_event url w :
  exists later, trace (http_get env url 3 w).2 = (later ++ Urlopen url :: trace w)%list.
Proof.
  rewrite http_get_three.
  repeat match goal with |- context [if negb ?b then _ else _] => destruct b; cbn [negb] end;
    cbn [snd after trace].
  - by exists [Sleep 6; Urlopen url; Sleep 4; Urlopen url; Sleep 2].
  - by exists [Urlopen url; Sleep 4; Urlopen url; Sleep 2].
  - by exists [Urlopen url; Sleep 2].
  - by exists [].
Qed.

Lemma build_oecd_urls_world ds kp n fmt w : (build_oecd_urls env ds kp n fmt w).2 = w.
Proof.
  unfold build_oecd_urls, bind, utcnow, timedelta_days, datetime_sub_date, ret, raise.
  repeat match goal with |- context [if ?b then _ else _] => destruct b end; reflexivity.
Qed.

Lemma fetch_loop_step ds kp url rest acc w :
  fetch_loop env ds kp (url :: rest) acc w =
    match http_get env url 3 w with
    | (Ok blob, w1) =>
        if too_short blob then
          fetch_loop env ds kp rest (acc ++ [short_summary url])%list w1
        else (Ok (blob, url), w1)
    | (Raise e, w1) => fetch_loop env ds kp rest (acc ++ [raised_summary e])%list w1
    end.
Proof.
  cbn [fetch_loop]. unfold bind, try.
  destruct (http_get env url 3 w) as [[blob|e] w1]; [|reflexivity].
  destruct (too_short blob); reflexivity.
Qed.

Lemma fetch_loop_exhausted ds kp urls : forall w errs w' acc,
  Tried env urls w errs w' ->
  fetch_loop env ds kp urls acc w = (Raise (FetchExhausted ds kp (acc ++ errs)), w').
Proof.
  intros w errs w' acc H. revert acc.
  induction H as [w|url rest w e w1 errs w2 Hget _ IH|url rest w blob w1 errs w2 Hget Hshort _ IH];
    intros acc.
  - by rewrite app_nil_r.
  - rewrite fetch_loop_step, Hget, IH. by rewrite <- app_assoc.
  - rewrite fetch_loop_step, Hget, Hshort, IH. by rewrite <- app_assoc.
Qed.

Lemma Tried_length urls w errs w' : Tried env urls w errs w' -> length errs = length urls.
Proof. induction 1; cbn; congruence. Qed.

Lemma fetch_loop_accepts ds kp pre : forall w errs w1 url post blob w2 acc,
  Tried env pre w errs w1 ->
  http_get env url 3 w1 = (Ok blob, w2) ->
  too_short blob = false ->
  fetch_loop env ds kp (pre ++ url :: post) acc w = (Ok (blob, url), w2).
Proof.
  intros w errs w1 url post blob w2 acc H. revert acc.
  induction H as [w|u rest w e w1 errs w3 Hget _ IH|u rest w b w1 errs w3 Hget Hshort _ IH];
    intros acc Hok Hlong; cbn [app].
  - by rewrite fetch_loop_step, Hok, Hlong.
  - rewrite fetch_loop_step, Hget. by apply IH.
  - rewrite fetch_loop_step, Hget, Hshort. by apply IH.
Qed.

(** Every run of the loop over the candidates ends in one of the two ways. *)
Lemma fetch_loop_cases ds kp urls : forall acc w,
  (exists pre url post errs w1 blob w2,
      urls = (pre ++ url :: post)%list /\ Tried env pre w errs w1
      /\ http_get env url 3 w1 = (Ok blob, w2) /\ too_short blob = false
      /\ fetch_loop env ds kp urls acc w = (Ok (blob, url), w2))
  \/ (exists errs w',
      Tried env urls w errs w'
      /\ fetch_loop env ds kp urls acc w = (Raise (FetchExhausted ds kp (acc ++ errs)), w')).
Proof.
  induction urls as [|url rest IH]; intros acc w.
  - right. exists [], w. split; [constructor|]. by rewrite app_nil_r.
  - rewrite fetch_loop_step.
    destruct (http_get env url 3 w) as [[blob|e] w1] eqn:Hget.
    + destruct (too_short blob) eqn:Hshort.
      * destruct (IH (acc ++ [short_summary url])%list w1)
          as [(pre & u & post & errs & w2 & b & w3 & -> & Ht & Hg & Hl & Hf)
             |(errs & w' & Ht & Hf)].
        -- left. exists (url :: pre), u, post, (short_summary url :: errs), w2, b, w3.
           repeat split; try done. by eapply Tried_short.
        -- right. exists (short_summary url :: errs), w'. split; [by eapply Tried_short|].
           by rewrite Hf, <- app_assoc.
      * left. exists [], url, rest, [], w, blob, w1. repeat split; try done. constructor.
    + destruct (IH (acc ++ [raised_summary e])%list w1)
        as [(pre & u & post & errs & w2 & b & w3 & -> & Ht & Hg & Hl & Hf)
           |(errs & w' & Ht & Hf)].
      * left. exists (url :: pre), u, post, (raised_summary e :: errs), w2, b, w3.
        repeat split; try done. by eapply Tried_raised.
      * right. exists (raised_summary e :: errs), w'. split; [by eapply Tried_raised|].
        by rewrite Hf, <- app_assoc.
Qed.

Lemma too_short_false blob : too_short blob = false <-> (32 <= length blob)%nat.
Proof.
  unfold too_short. rewrite orb_false_iff, bool_decide_eq_false, Nat.ltb_ge.
  split; [tauto|]. intros H. split; [|done]. intros ->. cbn in H. lia.
Qed.

(** The fetch touches neither the ledger nor the archive. *)
Lemma fetch_loop_frame ds kp urls : forall acc w,
  exists evs, (fetch_loop env ds kp urls acc w).2 = after evs w
              /\ Forall (fun ev => is_net ev = true) evs.
Proof.
  induction urls as [|url rest IH]; intros acc w.
  - exists []. split; [|constructor]. destruct w; reflexivity.
  - rewrite fetch_loop_step.
    destruct (http_get_frame url w) as (evs & Hw & Hall).
    destruct (http_get env url 3 w) as [[blob|e] w1]; cbn [snd] in Hw; subst w1.
    + destruct (too_short blob); [|by exists evs].
      destruct (IH (acc ++ [short_summary url])%list (after evs w)) as (evs' & Hw' & Hall').
      exists (evs' ++ evs)%list. rewrite Hw', after_after. split; [done|by apply Forall_app].
    + destruct (IH (acc ++ [raised_summary e])%list (after evs w)) as (evs' & Hw' & Hall').
      exists (evs' ++ evs)%list. rewrite Hw', after_after. split; [done|by apply Forall_app].
Qed.

Lemma fetch_oecd_unfold ds kp n fmt w :
  fetch_oecd env ds kp n fmt w =
    match build_oecd_urls env ds kp n fmt w with
    | (Ok urls, _) => fetch_loop env ds kp urls [] w
    | (Raise e, _) => (Raise e, w)
    end.
Proof.
  unfold fetch_oecd, bind.
  pose proof (build_oecd_urls_world ds kp n fmt w) as Hw.
  destruct (build_oecd_urls env ds kp n fmt w) as [[urls|e] w1]; cbn in Hw; by subst.
Qed.

Lemma fetch_oecd_frame ds kp n fmt w :
  exists evs, (fetch_oecd env ds kp n fmt w).2 = after evs w
              /\ Forall (fun ev => is_net ev = true) evs.
Proof.
  rewrite fetch_oecd_unfold.
  destruct (build_oecd_urls env ds kp n fmt w) as [[urls|e] w1].
  - apply fetch_loop_frame.
  - exists []. split; [|constructor]. destruct w; reflexivity.
Qed.

End Fetcher.

Lemma tries_again_retryable (r : Result bytes) : tries_again r = retryable r.
Proof.
  destruct r as [blob|[code reason|class_name message]]; [reflexivity| |reflexivity].
  cbn [tries_again retryable is_transient]. unfold TRANSIENT.
  destruct (Z.eqb_spec code 429) as [->|H1]; [reflexivity|].
  destruct (Z.eqb_spec code 500) as [->|H2]; [reflexivity|].
  destruct (Z.eqb_spec code 502) as [->|H3]; [reflexivity|].
  destruct (Z.eqb_spec code 503) as [->|H4]; [reflexivity|].
  destruct (Z.eqb_spec code 504) as [->|H5]; [reflexivity|].
  symmetry. apply bool_decide_eq_false_2.
  rewrite !elem_of_cons, elem_of_nil. tauto.
Qed.

Lemma build_oecd_urls_two env ds kp n fmt w urls w' :
  build_oecd_urls env ds kp n fmt w = (Ok urls, w') -> length urls = 2%nat.
Proof.
  unfold build_oecd_urls, bind, utcnow, timedelta_days, datetime_sub_date, ret, raise.
  repeat match goal with |- context [if ?b then _ else _] => destruct b end;
    intros [= <- _]; reflexivity.
Qed.

Lemma too_short_true (blob : bytes) : (length blob < 32)%nat -> too_short blob = true.
Proof.
  intros H. destruct (too_short blob) eqn:E; [reflexivity|].
  apply too_short_false in E. lia.
Qed.

(** C5, as the code has it. Each candidate URL gets at most three GETs. A
    further GET is made after an HTTP 429, 500, 502, 503 or 504 and after
    any exception that is not an HTTP error, whether it is an I/O error or
    not; the k-th such failure is followed by a sleep of 2*k seconds, the
    third one too. Any other HTTP error, such as 400 or 404, ends the loop
    at once with that error, and when it comes from the incremental URL the
    very next call is a GET of the windowed URL. *)
Theorem http_get_retry_and_fallback (env : Env) (w : World) :
  (forall url,
      http_get env url 3 w =
        if negb (tries_again (env_urlopen env (clock w) url)) then
          (env_urlopen env (clock w) url, after [Urlopen url] w)
        else if negb (tries_again (env_urlopen env (2 + clock w)%nat url)) then
          (env_urlopen env (2 + clock w)%nat url,
           after [Urlopen url; Sleep 2; Urlopen url] w)
        else if negb (tries_again (env_urlopen env (4 + clock w)%nat url)) then
          (env_urlopen env (4 + clock w)%nat url,
           after [Urlopen url; Sleep 4; Urlopen url; Sleep 2; Urlopen url] w)
        else
          (env_urlopen env (4 + clock w)%nat url,
           after [Sleep 6; Urlopen url; Sleep 4; Urlopen url; Sleep 2; Urlopen url] w))
  /\ (forall ds kp n fmt uA uB code reason,
         build_oecd_urls env ds kp n fmt w = (Ok [uA; uB], w) ->
         code ∉ [429; 500; 502; 503; 504] ->
         env_urlopen env (clock w) uA = Raise (HTTPError code reason) ->
         http_get env uA 3 w = (Raise (HTTPError code reason), after [Urlopen uA] w)
         /\ exists later,
             trace (fetch_oecd env ds kp n fmt w).2
             = (later ++ [Urlopen uB; Urlopen uA] ++ trace w)%list).
Proof.
  split; [intros url; rewrite !tries_again_retryable; apply http_get_three|].
  intros ds kp n fmt uA uB code reason Hurls Hcode Hresp.
  assert (Hget : http_get env uA 3 w = (Raise (HTTPError code reason), after [Urlopen uA] w)).
  { rewrite http_get_three, Hresp. cbn [retryable is_transient].
    by rewrite bool_decide_eq_false_2. }
  split; [exact Hget|].
  rewrite fetch_oecd_unfold, Hurls, fetch_loop_step, Hget, fetch_loop_step.
  destruct (http_get_first_event env uB (after [Urlopen uA] w)) as (later & Hlater).
  exists later.
  destruct (http_get env uB 3 (after [Urlopen uA] w)) as [[blob|e] w1]; cbn [snd] in Hlater.
  - destruct (too_short blob); cbn [fetch_loop raise snd]; rewrite Hlater; reflexivity.
  - cbn [fetch_loop raise snd]. rewrite Hlater. reflexivity.
Qed.

Lemma http_get_retry_and_fallback_witness :
  http_get Scenarios.env_503_404 Scenarios.url_A 3 Scenarios.w0
  = (Raise (HTTPError 404 "Not Found"),
     after [Urlopen Scenarios.url_A; Sleep 2; Urlopen Scenarios.url_A] Scenarios.w0)
  /\ http_get Scenarios.env_500 Scenarios.url_A 3 Scenarios.w0
     = (Raise (HTTPError 500 "Internal Server Error"),
        after [Sleep 6; Urlopen Scenarios.url_A; Sleep 4; Urlopen Scenarios.url_A;
               Sleep 2; Urlopen Scenarios.url_A] Scenarios.w0)
  /\ http_get Scenarios.env_404 Scenarios.url_A 3 Scenarios.w0
     = (Raise (HTTPError 404 "Not Found"), after [Urlopen Scenarios.url_A] Scenarios.w0)
  /\ exists later,
      trace (fetch_oecd Scenarios.env_404 "MEI" "all" 60 "csv" Scenarios.w0).2
      = (later ++ [Urlopen Scenarios.url_B; Urlopen Scenarios.url_A] ++ [])%list.
Proof.
  split; [|split].
  - exact (proj1 (http_get_retry_and_fallback Scenarios.env_503_404 Scenarios.w0)
             Scenarios.url_A).
  - exact (proj1 (http_get_retry_and_fallback Scenarios.env_500 Scenarios.w0)
             Scenarios.url_A).
  - apply (proj2 (http_get_retry_and_fallback Scenarios.env_404 Scenarios.w0)
             "MEI" "all" 60 "csv" Scenarios.url_A Scenarios.url_B 404 "Not Found").
    + vm_compute. reflexivity.
    + intros H. apply (bool_decide_pack _) in H. vm_compute in H. exact H.
    + reflexivity.
Defined.

(** C5 as worded fails: the retries are not kept to the five status codes
    and I/O errors. A dataset code with a blank in it makes [urlopen] raise
    [InvalidURL] before any connection is opened; it is no I/O error, and it
    is the same at every attempt, yet the URL is requested three times and
    twelve seconds are slept before the error is passed on. *)
Lemma retry_scope_counterexample :
  spec_transient Scenarios.invalid_url = false
  /\ (exists uB,
        build_oecd_urls Scenarios.env_invalid_url "M EI" "all" 60 "csv" Scenarios.w0
        = (Ok [Scenarios.url_blank; uB], Scenarios.w0))
  /\ http_get Scenarios.env_invalid_url Scenarios.url_blank 3 Scenarios.w0
     = (Raise Scenarios.invalid_url,
        after [Sleep 6; Urlopen Scenarios.url_blank; Sleep 4; Urlopen Scenarios.url_blank;
               Sleep 2; Urlopen Scenarios.url_blank] Scenarios.w0).
Proof.
  split; [vm_compute; reflexivity|]. split; [|vm_compute; reflexivity].
  eexists. vm_compute. reflexivity.
Qed.

(** C6. The fetcher returns the body and URL of the first candidate, in
    order, whose GET succeeds with at least 32 bytes; a candidate that raises
    or answers fewer bytes leaves an error summary and the next one is tried;
    when both candidates have failed, the fetcher raises the RuntimeError
    whose text is "All OECD fetch attempts failed for dataset/key: " followed
    by the summary of the first candidate, " | " and the summary of the
    second, a summary being "Empty/short response from " and the first 120
    characters of the URL for a short body, and the class name, ": " and the
    text of the exception otherwise. *)
Theorem fetch_oecd_first_plausible_or_exhausted
    (env : Env) (ds kp : string) (n : Z) (fmt : string) (urls : list string) (w : World) :
  build_oecd_urls env ds kp n fmt w = (Ok urls, w) ->
  let rejected (r : Result bytes) :=
    match r with
    | Ok blob => (length blob < 32)%nat
    | Raise _ => True
    end in
  let summary (url : string) (r : Result bytes) :=
    match r with
    | Ok _ => "Empty/short response from " ++ prefix 120 url
    | Raise e => type_name e ++ ": " ++ str_exn e
    end in
  let exhausted (sA sB : string) :=
    PyError "RuntimeError"
      ("All OECD fetch attempts failed for " ++ ds ++ "/" ++ kp ++ ": "
       ++ sA ++ " | " ++ sB) in
  (forall pre url post errs w1 blob w2,
      urls = (pre ++ url :: post)%list ->
      Tried env pre w errs w1 ->
      http_get env url 3 w1 = (Ok blob, w2) ->
      (32 <= length blob)%nat ->
      fetch_oecd env ds kp n fmt w = (Ok (blob, url), w2))
  /\ (exists uA uB,
         urls = [uA; uB]
         /\ forall rA wA rB wB,
              http_get env uA 3 w = (rA, wA) -> rejected rA ->
              http_get env uB 3 wA = (rB, wB) -> rejected rB ->
              Tried env urls w [summary uA rA; summary uB rB] wB
              /\ fetch_oecd env ds kp n fmt w
                 = (Raise (exhausted (summary uA rA) (summary uB rB)), wB))
  /\ (forall errs w',
         Tried env urls w errs w' ->
         exists sA sB,
           errs = [sA; sB]
           /\ fetch_oecd env ds kp n fmt w = (Raise (exhausted sA sB), w'))
  /\ ((exists blob url w',
          fetch_oecd env ds kp n fmt w = (Ok (blob, url), w')
          /\ url ∈ urls /\ (32 <= length blob)%nat)
      \/ (exists sA sB w',
             Tried env urls w [sA; sB] w'
             /\ fetch_oecd env ds kp n fmt w = (Raise (exhausted sA sB), w'))).
Proof.
  intros Hurls rejected summary exhausted.
  pose proof (build_oecd_urls_two _ _ _ _ _ _ _ _ Hurls) as Htwo.
  destruct urls as [|uA [|uB [|uC rest]]]; try discriminate Htwo. clear Htwo.
  assert (Hex : forall errs w',
             Tried env [uA; uB] w errs w' ->
             exists sA sB,
               errs = [sA; sB]
               /\ fetch_oecd env ds kp n fmt w = (Raise (exhausted sA sB), w')).
  { intros errs w' Ht. pose proof (Tried_length _ _ _ _ _ Ht) as Hlen.
    destruct errs as [|sA [|sB [|sC more]]]; try discriminate Hlen.
    exists sA, sB. split; [reflexivity|].
    rewrite fetch_oecd_unfold, Hurls.
    exact (fetch_loop_exhausted env ds kp [uA; uB] w [sA; sB] w' [] Ht). }
  split; [|split; [|split]].
  - intros pre url post errs w1 blob w2 Heq Htried Hget Hlen.
    rewrite fetch_oecd_unfold, Hurls, Heq.
    eapply fetch_loop_accepts; eauto. by apply too_short_false.
  - exists uA, uB. split; [reflexivity|].
    intros rA wA rB wB HgA HrA HgB HrB.
    assert (Ht : Tried env [uA; uB] w [summary uA rA; summary uB rB] wB).
    { destruct rA as [blobA|eA], rB as [blobB|eB]; cbn in HrA, HrB.
      - eapply Tried_short; [exact HgA|by apply too_short_true|].
        eapply Tried_short; [exact HgB|by apply too_short_true|constructor].
      - eapply Tried_short; [exact HgA|by apply too_short_true|].
        eapply Tried_raised; [exact HgB|constructor].
      - eapply Tried_raised; [exact HgA|].
        eapply Tried_short; [exact HgB|by apply too_short_true|constructor].
      - eapply Tried_raised; [exact HgA|].
        eapply Tried_raised; [exact HgB|constructor]. }
    split; [exact Ht|].
    destruct (Hex _ _ Ht) as (sA & sB & [= <- <-] & Hf). exact Hf.
  - exact Hex.
  - rewrite fetch_oecd_unfold, Hurls.
    destruct (fetch_loop_cases env ds kp [uA; uB] [] w)
      as [(pre & url & post & errs & w1 & blob & w2 & Heq & _ & _ & Hlong & Hf)
         |(errs & w' & Ht & Hf)].
    + left. exists blob, url, w2. split; [exact Hf|]. split.
      * rewrite Heq. apply elem_of_app. right. apply elem_of_cons. by left.
      * by apply too_short_false.
    + right. destruct (Hex _ _ Ht) as (sA & sB & -> & Hraise).
      exists sA, sB, w'. split; [exact Ht|].
      rewrite fetch_oecd_unfold, Hurls in Hraise. exact Hraise.
Qed.

Lemma fetch_oecd_first_plausible_or_exhausted_witness :
  fetch_oecd Scenarios.env_short "MEI" "all" 60 "csv" Scenarios.w0
  = (Ok (Scenarios.P1, Scenarios.url_B),
     after [Urlopen Scenarios.url_B; Urlopen Scenarios.url_A] Scenarios.w0)
  /\ fetch_oecd Scenarios.env_500 "MEI" "all" 60 "csv" Scenarios.w0
     = (Raise (PyError "RuntimeError"
                 "All OECD fetch attempts failed for MEI/all: HTTPError: HTTP Error 500: Internal Server Error | HTTPError: HTTP Error 500: Internal Server Error"),
        after [Sleep 6; Urlopen Scenarios.url_B; Sleep 4; Urlopen Scenarios.url_B;
               Sleep 2; Urlopen Scenarios.url_B;
               Sleep 6; Urlopen Scenarios.url_A; Sleep 4; Urlopen Scenarios.url_A;
               Sleep 2; Urlopen Scenarios.url_A] Scenarios.w0).
Proof.
  split.
  - refine (proj1 (fetch_oecd_first_plausible_or_exhausted Scenarios.env_short
                     "MEI" "all" 60 "csv" [Scenarios.url_A; Scenarios.url_B] Scenarios.w0 _)
              [Scenarios.url_A] Scenarios.url_B [] [short_summary Scenarios.url_A]
              (after [Urlopen Scenarios.url_A] Scenarios.w0) Scenarios.P1 _ _ _ _ _).
    + vm_compute. reflexivity.
    + reflexivity.
    + eapply Tried_short; [reflexivity|reflexivity|constructor].
    + reflexivity.
    + vm_compute. lia.
  - destruct (proj1 (proj2 (fetch_oecd_first_plausible_or_exhausted Scenarios.env_500
                              "MEI" "all" 60 "csv" [Scenarios.url_A; Scenarios.url_B]
                              Scenarios.w0 ltac:(vm_compute; reflexivity))))
      as (uA & uB & [= <- <-] & Hboth).
    exact (proj2 (Hboth (Raise (HTTPError 500 "Internal Server Error"))
                    (after [Sleep 6; Urlopen Scenarios.url_A; Sleep 4; Urlopen Scenarios.url_A;
                            Sleep 2; Urlopen Scenarios.url_A] Scenarios.w0)
                    (Raise (HTTPError 500 "Internal Server Error"))
                    (after [Sleep 6; Urlopen Scenarios.url_B; Sleep 4; Urlopen Scenarios.url_B;
                            Sleep 2; Urlopen Scenarios.url_B;
                            Sleep 6; Urlopen Scenarios.url_A; Sleep 4; Urlopen Scenarios.url_A;
                            Sleep 2; Urlopen Scenarios.url_A] Scenarios.w0)
                    ltac:(vm_compute; reflexivity) I
                    ltac:(vm_compute; reflexivity) I)).
Defined.

(** ** Storage and de-duplication *)

Section Storage.
Variable env : Env.

Lemma ledger_item_dataset ds h u ts : ledger_item ds h u ts !! "dataset" = Some ds.
Proof. unfold ledger_item. apply lookup_insert_eq. Qed.

Lemma ledger_item_last_hash ds h u ts : ledger_item ds h u ts !! "last_hash" = Some h.
Proof.
  unfold ledger_item. rewrite lookup_insert_ne by discriminate. apply lookup_insert_eq.
Qed.

Lemma ledger_item_last_run ds h u ts : ledger_item ds h u ts !! "last_run" = Some ts.
Proof.
  unfold ledger_item. rewrite !lookup_insert_ne by discriminate. apply lookup_insert_eq.
Qed.

Lemma maybe_compress_at raw gz w :
  maybe_compress env raw gz w = (body_at env (clock w) raw gz, w).
Proof.
  unfold maybe_compress, body_at, bind, gzip, ret.
  destruct gz; [|reflexivity]. by destruct (env_gzip env (clock w) raw).
Qed.

(** [put_if_new], path by path. *)
Lemma put_if_new_unfold ds url raw bucket pfx fmt gz tbl w :
  put_if_new env ds url raw bucket pfx fmt gz tbl w =
    match table_enabled tbl with
    | None =>
        archive_step env bucket (key_at (env_utcnow env (clock w)) pfx ds fmt raw)
          raw fmt gz (sha256 raw) url w
    | Some table =>
        match env_get_item env (clock w) with
        | Some e => (Raise e, after [GetItem table ds] w)
        | None =>
            if same_hash (ddb w !! (table, ds)) (sha256 raw) then
              (Ok (unchanged_result (sha256 raw) url), after [GetItem table ds] w)
            else
              match env_put_item env (S (clock w)) with
              | Some e =>
                  (Raise e,
                   after [PutItem table (row_at (env_utcnow env (clock w)) ds url raw);
                          GetItem table ds] w)
              | None =>
                  archive_step env bucket (key_at (env_utcnow env (clock w)) pfx ds fmt raw)
                    raw fmt gz (sha256 raw) url
                    {| trace := PutItem table (row_at (env_utcnow env (clock w)) ds url raw)
                                :: GetItem table ds :: trace w;
                       ddb := <[(table, ds) := row_at (env_utcnow env (clock w)) ds url raw]>
                                (ddb w);
                       s3 := s3 w |}
              end
        end
    end.
Proof.
  assert (Harch : forall key w1,
    (if negb true then ret (unchanged_result (sha256 raw) url)
     else
       bind (maybe_compress env raw gz)
         (fun '(body, content_encoding) =>
            bind (put_object env bucket key
                    {| Body := body; ContentType := content_type_of fmt;
                       Metadata := <["oecd_source_url" := url]> (<["sha256" := sha256 raw]> ∅);
                       ContentEncoding := content_encoding |})
              (fun _ => ret (stored_result key (sha256 raw) url)))) w1
    = archive_step env bucket key raw fmt gz (sha256 raw) url w1).
  { intros key w1. cbn [negb]. unfold bind, archive_step. rewrite maybe_compress_at.
    destruct (body_at env (clock w1) raw gz) as [[body ce]|e]; [|reflexivity].
    unfold put_object, archive_object, after, log, ret.
    destruct (env_put_object env (clock w1)); reflexivity. }
  unfold put_if_new, key_at, row_at.
  unfold bind at 1. unfold utcnow at 1. cbv beta iota.
  unfold bind at 1.
  destruct (table_enabled tbl) as [table|].
  - unfold bind at 1. unfold get_item at 1.
    destruct (env_get_item env (clock w)) as [e|]; [reflexivity|].
    destruct (same_hash (ddb w !! (table, ds)) (sha256 raw)); [reflexivity|].
    unfold bind at 1. unfold put_item at 1. rewrite ledger_item_dataset.
    change (clock (log (GetItem table ds) w)) with (S (clock w)).
    destruct (env_put_item env (S (clock w))) as [e|]; [reflexivity|].
    unfold ret at 1. cbv beta iota. apply Harch.
  - unfold ret at 1. cbv beta iota. apply Harch.
Qed.

Lemma same_hash_holds w table ds raw :
  holds_digest w table ds raw -> same_hash (ddb w !! (table, ds)) (sha256 raw) = true.
Proof.
  intros (it & Hit & Hh). rewrite Hit. unfold same_hash.
  rewrite (bool_decide_eq_true_2 _ Hh), andb_true_r.
  apply negb_true_iff, bool_decide_eq_false_2. intros ->.
  by rewrite lookup_empty in Hh.
Qed.

Lemma same_hash_other w table ds raw :
  ddb w !! (table, ds) = None
  \/ (exists it, ddb w !! (table, ds) = Some it /\ it !! "last_hash" <> Some (sha256 raw)) ->
  same_hash (ddb w !! (table, ds)) (sha256 raw) = false.
Proof.
  intros [->|(it & -> & Hne)]; [reflexivity|]. unfold same_hash.
  by rewrite (bool_decide_eq_false_2 _ Hne), andb_false_r.
Qed.

Lemma table_enabled_some table : table <> "" -> table_enabled (Some table) = Some table.
Proof. intros H. unfold table_enabled. by apply String.eqb_neq in H as ->. Qed.

End Storage.

(** C4. With the ledger enabled and answering: when the row of the dataset
    carries the digest of the fetched payload, the only call made is the
    ledger read, so nothing is archived, no row is written and the recorded
    timestamp stays; when there is no row or its digest differs, and the
    ledger and the archive accept their writes, exactly one archive write is
    made and the row then carries the new digest. *)
Theorem put_if_new_novelty
    (env : Env) (ds url : string) (raw : bytes) (bucket pfx fmt : string)
    (gz : bool) (table : string) (w : World) :
  table <> "" ->
  env_get_item env (clock w) = None ->
  (holds_digest w table ds raw ->
     put_if_new env ds url raw bucket pfx fmt gz (Some table) w
     = (Ok (unchanged_result (sha256 raw) url), after [GetItem table ds] w))
  /\ (ddb w !! (table, ds) = None
       \/ (exists it, ddb w !! (table, ds) = Some it
                      /\ it !! "last_hash" <> Some (sha256 raw)) ->
       env_put_item env (1 + clock w)%nat = None ->
       env_put_object env (2 + clock w)%nat = None ->
       forall body ce,
         body_at env (2 + clock w)%nat raw gz = Ok (body, ce) ->
         let t := env_utcnow env (clock w) in
         let key := key_at t pfx ds fmt raw in
         let obj := archive_object body ce fmt (sha256 raw) url in
         let row := row_at t ds url raw in
         put_if_new env ds url raw bucket pfx fmt gz (Some table) w
         = (Ok (stored_result key (sha256 raw) url),
            {| trace := PutObject bucket key obj :: PutItem table row
                        :: GetItem table ds :: trace w;
               ddb := <[(table, ds) := row]> (ddb w);
               s3 := <[(bucket, key) := obj]> (s3 w) |})
         /\ row !! "last_hash" = Some (sha256 raw)).
Proof.
  intros Htable Hget. rewrite put_if_new_unfold, (table_enabled_some _ Htable), Hget.
  split.
  - intros Hsame. by rewrite (same_hash_holds _ _ _ _ Hsame).
  - intros Hnew Hput Hobj body ce Hbody t key obj row.
    rewrite (same_hash_other _ _ _ _ Hnew). change (S (clock w)) with (1 + clock w)%nat.
    rewrite Hput. unfold archive_step.
    change (clock {| trace := _ :: _ :: trace w; ddb := _; s3 := _ |})
      with (2 + clock w)%nat.
    rewrite Hbody, Hobj.
    split; [reflexivity|]. apply ledger_item_last_hash.
Qed.

Lemma put_if_new_novelty_witness :
  put_if_new Scenarios.env_ok "MEI" Scenarios.url_A Scenarios.P1 "bkt" "oecd/raw" "csv"
    false (Some "T") Scenarios.w_seen_P1
  = (Ok (unchanged_result (sha256 Scenarios.P1) Scenarios.url_A),
     after [GetItem "T" "MEI"] Scenarios.w_seen_P1)
  /\ (put_if_new Scenarios.env_ok "MEI" Scenarios.url_A Scenarios.P1 "bkt" "oecd/raw" "csv"
        false (Some "T") Scenarios.w_seen_P2).1
     = Ok (stored_result "oecd/raw/MEI/20240615/MEI_20240615T123045Z_45c331a07835.csv"
             (sha256 Scenarios.P1) Scenarios.url_A).
Proof.
  split.
  - refine (proj1 (put_if_new_novelty Scenarios.env_ok "MEI" Scenarios.url_A Scenarios.P1
                     "bkt" "oecd/raw" "csv" false "T" Scenarios.w_seen_P1 _ _) _).
    + discriminate.
    + reflexivity.
    + eexists. split; vm_compute; reflexivity.
  - refine (let H := proj2 (put_if_new_novelty Scenarios.env_ok "MEI" Scenarios.url_A
                              Scenarios.P1 "bkt" "oecd/raw" "csv" false "T"
                              Scenarios.w_seen_P2 _ _) _ _ _ Scenarios.P1 None _ in _).
    + rewrite (proj1 H). vm_compute. reflexivity.
    Unshelve.
    * discriminate.
    * reflexivity.
    * right. eexists. split; [vm_compute; reflexivity|]. vm_compute. discriminate.
    * vm_compute. reflexivity.
    * vm_compute. reflexivity.
    * vm_compute. reflexivity.
Defined.

(** ** The loop body *)

Section LoopBody.
Variable env : Env.
Variable cfg : Config.

Lemma ingest_one_unfold ds w :
  ingest_one env cfg ds w =
    match fetch_oecd env ds (key_path_of cfg ds) (cfg_last_n_obs cfg) (cfg_fmt cfg) w with
    | (Ok (raw, url), w1) =>
        match put_if_new env ds url raw (cfg_s3_bucket cfg) (cfg_s3_prefix cfg)
                (cfg_fmt cfg) (cfg_gzip_output cfg) (cfg_ddb_table cfg) w1 with
        | (Ok out, w2) => (<["dataset" := VStr ds]> out, w2)
        | (Raise e, w2) => (error_result ds e, w2)
        end
    | (Raise e, w1) => (error_result ds e, w1)
    end.
Proof.
  unfold ingest_one, key_path_of, bind, ret.
  destruct (fetch_oecd env ds _ _ _ w) as [[[raw url]|e] w1]; [|reflexivity].
  destruct (put_if_new env ds url raw _ _ _ _ _ w1) as [[out|e] w2]; reflexivity.
Qed.

End LoopBody.

(** C9. With no ledger table configured, a fetched payload is archived and
    reported with stored = true whatever was archived or recorded before,
    provided the archive accepts the write; and whatever the outcome, no call
    is made on the ledger and its content stays as it was. *)
Theorem ledger_disabled_always_stores
    (env : Env) (cfg : Config) (ds : string) (w : World) :
  table_enabled (cfg_ddb_table cfg) = None ->
  (List.filter is_ledger_call (trace (ingest_one env cfg ds w).2)
   = List.filter is_ledger_call (trace w)
   /\ ddb (ingest_one env cfg ds w).2 = ddb w)
  /\ (forall raw url w1 body ce,
        fetch_oecd env ds (key_path_of cfg ds) (cfg_last_n_obs cfg) (cfg_fmt cfg) w
        = (Ok (raw, url), w1) ->
        body_at env (clock w1) raw (cfg_gzip_output cfg) = Ok (body, ce) ->
        env_put_object env (clock w1) = None ->
        let key := key_at (env_utcnow env (clock w1)) (cfg_s3_prefix cfg) ds (cfg_fmt cfg) raw in
        let obj := archive_object body ce (cfg_fmt cfg) (sha256 raw) url in
        ingest_one env cfg ds w
        = (<["dataset" := VStr ds]> (stored_result key (sha256 raw) url),
           {| trace := PutObject (cfg_s3_bucket cfg) key obj :: trace w1;
              ddb := ddb w;
              s3 := <[(cfg_s3_bucket cfg, key) := obj]> (s3 w) |})
        /\ (<["dataset" := VStr ds]> (stored_result key (sha256 raw) url)) !! "stored"
           = Some (VBool true)).
Proof.
  intros Hoff.
  pose proof (fetch_oecd_frame env ds (key_path_of cfg ds) (cfg_last_n_obs cfg)
                (cfg_fmt cfg) w) as (evs & Hw1 & Hnet).
  assert (Hfilter : List.filter is_ledger_call (evs ++ trace w)
                    = List.filter is_ledger_call (trace w)).
  { rewrite List.filter_app. replace (List.filter is_ledger_call evs) with (@nil Event); [done|].
    clear Hw1. induction Hnet as [|ev evs Hev _ IH]; [done|].
    cbn. destruct ev; try discriminate; exact IH. }
  rewrite ingest_one_unfold. split.
  - destruct (fetch_oecd env ds _ _ _ w) as [[[raw url]|e] w1]; cbn [snd] in Hw1; subst w1;
      [|by split].
    rewrite put_if_new_unfold, Hoff. unfold archive_step.
    destruct (body_at env _ raw _) as [[body ce]|e]; [|by split].
    destruct (env_put_object env _); by split.
  - intros raw url w1 body ce Hfetch Hbody Hobj key obj.
    rewrite Hfetch in Hw1 |- *. cbn [snd] in Hw1. subst w1.
    rewrite put_if_new_unfold, Hoff. unfold archive_step. rewrite Hbody, Hobj.
    split; [reflexivity|].
    rewrite lookup_insert_ne by discriminate. apply lookup_insert_eq.
Qed.

Lemma ledger_disabled_always_stores_witness :
  (ingest_one Scenarios.env_ok Scenarios.cfg_plain "MEI" Scenarios.w_archived_P1).1
  !! "stored" = Some (VBool true)
  /\ archive_writes Scenarios.w_archived_P1 = 1%nat
  /\ archive_writes
       (ingest_one Scenarios.env_ok Scenarios.cfg_plain "MEI" Scenarios.w_archived_P1).2
     = 2%nat.
Proof.
  refine (let H := proj2 (ledger_disabled_always_stores Scenarios.env_ok Scenarios.cfg_plain
                            "MEI" Scenarios.w_archived_P1 eq_refl)
                     Scenarios.P1 Scenarios.url_A
                     (after [Urlopen Scenarios.url_A] Scenarios.w_archived_P1)
                     Scenarios.P1 None _ eq_refl eq_refl in _).
  destruct H as [Hrun Hstored]. rewrite Hrun. cbn [fst snd].
  split; [exact Hstored|]. split; vm_compute; reflexivity.
  Unshelve. vm_compute. reflexivity.
Defined.

(** Whenever a novel payload meets an archive that refuses the write, the
    call raises with the ledger row already overwritten and the archive as it
    was. *)
Lemma put_if_new_archive_fault
    (env : Env) (ds url : string) (raw : bytes) (bucket pfx fmt : string)
    (gz : bool) (table : string) (w : World) (e : Exn) (body : bytes) (ce : option string) :
  table <> "" ->
  env_get_item env (clock w) = None ->
  same_hash (ddb w !! (table, ds)) (sha256 raw) = false ->
  env_put_item env (1 + clock w)%nat = None ->
  body_at env (2 + clock w)%nat raw gz = Ok (body, ce) ->
  env_put_object env (2 + clock w)%nat = Some e ->
  let t := env_utcnow env (clock w) in
  put_if_new env ds url raw bucket pfx fmt gz (Some table) w
  = (Raise e,
     {| trace := PutObject bucket (key_at t pfx ds fmt raw)
                   (archive_object body ce fmt (sha256 raw) url)
                 :: PutItem table (row_at t ds url raw) :: GetItem table ds :: trace w;
        ddb := <[(table, ds) := row_at t ds url raw]> (ddb w);
        s3 := s3 w |}).
Proof.
  intros Htable Hget Hnew Hput Hbody Hobj t.
  rewrite put_if_new_unfold, (table_enabled_some _ Htable), Hget, Hnew.
  change (S (clock w)) with (1 + clock w)%nat. rewrite Hput. unfold archive_step.
  change (clock {| trace := _ :: _ :: trace w; ddb := _; s3 := _ |})
    with (2 + clock w)%nat.
  by rewrite Hbody, Hobj.
Qed.

(** C1. The ledger row is written before the archive write, not after it.
    Here the row of MEI records an older digest, [P1] is fetched and the
    archive refuses the write: the call raises, nothing is archived, and yet
    the row already carries the digest of [P1]; the next run, with the
    archive back, finds that digest, reports the payload unchanged and
    archives nothing. *)
Theorem archive_failure_leaves_ledger_updated :
  let first :=
    put_if_new Scenarios.env_s3_down "MEI" Scenarios.url_A Scenarios.P1
      "bkt" "oecd/raw" "csv" false (Some "T") Scenarios.w_seen_P2 in
  let second :=
    put_if_new Scenarios.env_ok "MEI" Scenarios.url_A Scenarios.P1
      "bkt" "oecd/raw" "csv" false (Some "T") first.2 in
  (ddb Scenarios.w_seen_P2 !! ("T", "MEI")) ≫= (fun it => it !! "last_hash")
  = Some (sha256 Scenarios.P2)
  /\ (exists e, first.1 = Raise e)
  /\ s3 first.2 = ∅
  /\ (ddb first.2 !! ("T", "MEI")) ≫= (fun it => it !! "last_hash")
     = Some (sha256 Scenarios.P1)
  /\ is_ledger_call <$> trace first.2 = [false; true; true]
  /\ is_put_object <$> trace first.2 = [true; false; false]
  /\ second.1 = Ok (unchanged_result (sha256 Scenarios.P1) Scenarios.url_A)
  /\ s3 second.2 = ∅.
Proof.
  cbv zeta. repeat apply conj; try (vm_compute; reflexivity).
  eexists. vm_compute. reflexivity.
Qed.

(** ** Archive keys *)

Lemma string_append_cons (c : Ascii.ascii) (a b : string) :
  (String c a ++ b)%string = String c (a ++ b).
Proof. reflexivity. Qed.

Lemma string_length_append (a b : string) :
  String.length (a ++ b) = (String.length a + String.length b)%nat.
Proof.
  induction a as [|c a IH]; [reflexivity|].
  rewrite string_append_cons. cbn [String.length]. by rewrite IH.
Qed.

Lemma string_append_inv_tail (b : string) : forall x y : string,
  (x ++ b = y ++ b)%string -> x = y.
Proof.
  induction x as [|c x IH]; intros [|d y] H.
  - reflexivity.
  - apply (f_equal String.length) in H.
    rewrite !string_length_append in H. cbn [String.length] in H. lia.
  - apply (f_equal String.length) in H.
    rewrite !string_length_append in H. cbn [String.length] in H. lia.
  - rewrite !string_append_cons in H. injection H as -> H. f_equal. by apply IH.
Qed.

(** With the prefix, dataset, second and format fixed, two digests give the
    same key exactly when their first twelve characters agree. *)
Lemma s3_key_same_iff pfx ds date ts h1 h2 fmt :
  s3_key pfx ds date ts h1 fmt = s3_key pfx ds date ts h2 fmt
  <-> prefix 12 h1 = prefix 12 h2.
Proof.
  unfold s3_key. split; [|by intros ->].
  intros H.
  repeat match type of H with
         | (?a ++ _ = ?a ++ _)%string => apply (String.app_inj a) in H
         end.
  by apply string_append_inv_tail in H.
Qed.

Lemma stored_result_stored key h u : stored_result key h u !! "stored" = Some (VBool true).
Proof. apply lookup_insert_eq. Qed.

Lemma stored_result_s3_key key h u : stored_result key h u !! "s3_key" = Some (VStr key).
Proof. unfold stored_result. rewrite lookup_insert_ne by discriminate. apply lookup_insert_eq. Qed.

Lemma unchanged_result_stored h u : unchanged_result h u !! "stored" = Some (VBool false).
Proof. apply lookup_insert_eq. Qed.

(** Whenever [put_if_new] returns, it returned one of its two result dicts,
    and a stored result comes with the archive write of its key. *)
Lemma put_if_new_returns env ds url raw bucket pfx fmt gz tbl w r w' :
  put_if_new env ds url raw bucket pfx fmt gz tbl w = (Ok r, w') ->
  (r = unchanged_result (sha256 raw) url /\ s3 w' = s3 w)
  \/ (exists obj rest,
        r = stored_result (key_at (env_utcnow env (clock w)) pfx ds fmt raw) (sha256 raw) url
        /\ trace w' = PutObject bucket (key_at (env_utcnow env (clock w)) pfx ds fmt raw) obj
                      :: rest
        /\ s3 w' = <[(bucket, key_at (env_utcnow env (clock w)) pfx ds fmt raw) := obj]> (s3 w)
        /\ Metadata obj !! "sha256" = Some (sha256 raw)).
Proof.
  assert (Hmeta : forall body ce,
            Metadata (archive_object body ce fmt (sha256 raw) url) !! "sha256"
            = Some (sha256 raw)).
  { intros. cbn [archive_object Metadata].
    rewrite lookup_insert_ne by discriminate. apply lookup_insert_eq. }
  rewrite put_if_new_unfold. unfold archive_step.
  destruct (table_enabled tbl) as [table|].
  - destruct (env_get_item env (clock w)); [discriminate|].
    destruct (same_hash _ _); [intros [= <- <-]; by left|].
    destruct (env_put_item env _); [discriminate|].
    destruct (body_at env _ raw gz) as [[body ce]|e]; [|discriminate].
    destruct (env_put_object env _); [discriminate|].
    intros [= <- <-]. right. eexists _, _. repeat split; apply Hmeta.
  - destruct (body_at env _ raw gz) as [[body ce]|e]; [|discriminate].
    destruct (env_put_object env _); [discriminate|].
    intros [= <- <-]. right. eexists _, _. repeat split; apply Hmeta.
Qed.

(** C8, as the code has it. Every archive write uses the key
    rstrip(prefix,'/')/dataset/YYYYMMDD/dataset_YYYYMMDDTHHMMSSZ_digest[:12].ext,
    with the date and time of the UTC clock read at the start of the call
    and ext csv for format csv and json otherwise; two payloads of one
    dataset archived in the same second get distinct keys exactly when the
    first twelve characters of their digests differ. *)
Theorem archive_key_format
    (env : Env) (ds url : string) (raw : bytes) (bucket pfx fmt : string)
    (gz : bool) (tbl : option string) (w : World) (r : Dict) (w' : World) :
  put_if_new env ds url raw bucket pfx fmt gz tbl w = (Ok r, w') ->
  r !! "stored" = Some (VBool true) ->
  let t := env_utcnow env (clock w) in
  let ymd := ord2ymd (EPOCH_ORDINAL + t / 86400) in
  let date := pad4 ymd.1.1 ++ pad2 ymd.1.2 ++ pad2 ymd.2 in
  let hh := pad2 (t mod 86400 / 3600) in
  let mm := pad2 ((t mod 86400) mod 3600 / 60) in
  let ss := pad2 ((t mod 86400) mod 60) in
  let key := rstrip_slash pfx ++ "/" ++ ds ++ "/" ++ date ++ "/"
             ++ ds ++ "_" ++ (date ++ "T" ++ hh ++ mm ++ ss ++ "Z") ++ "_"
             ++ prefix 12 (sha256 raw) ++ "."
             ++ (if String.eqb fmt "csv" then "csv" else "json") in
  r !! "s3_key" = Some (VStr key)
  /\ (exists obj rest,
        trace w' = PutObject bucket key obj :: rest
        /\ s3 w' !! (bucket, key) = Some obj
        /\ Metadata obj !! "sha256" = Some (sha256 raw))
  /\ (forall raw', key_at t pfx ds fmt raw' = key
                   <-> prefix 12 (sha256 raw') = prefix 12 (sha256 raw)).
Proof.
  intros Hrun Hstored t ymd date hh mm ss key.
  assert (Hkey : forall raw', key_at t pfx ds fmt raw' =
            (rstrip_slash pfx ++ "/" ++ ds ++ "/" ++ date ++ "/"
             ++ ds ++ "_" ++ (date ++ "T" ++ hh ++ mm ++ ss ++ "Z") ++ "_"
             ++ prefix 12 (sha256 raw') ++ "."
             ++ (if String.eqb fmt "csv" then "csv" else "json"))%string).
  { intros raw'. unfold key_at, s3_key, strftime_YmdTHMSZ, strftime_Ymd, ext_of, utc_of_posix.
    cbn [dt_ordinal dt_hour dt_minute dt_second]. subst date hh mm ss ymd.
    destruct (ord2ymd (EPOCH_ORDINAL + t / 86400)) as [[y m] d]. reflexivity. }
  apply put_if_new_returns in Hrun as [[-> _]|(obj & rest & -> & Htrace & Hs3 & Hmeta)].
  { rewrite unchanged_result_stored in Hstored. discriminate. }
  fold t in Htrace, Hs3 |- *. rewrite (Hkey raw) in Htrace, Hs3 |- *. fold key in Htrace, Hs3 |- *.
  split; [apply stored_result_s3_key|]. split.
  - exists obj, rest. split; [exact Htrace|]. split; [by rewrite Hs3, lookup_insert_eq|].
    exact Hmeta.
  - intros raw'. unfold key. rewrite <- (Hkey raw).
    unfold key_at. apply s3_key_same_iff.
Qed.

Lemma archive_key_format_witness :
  (put_if_new Scenarios.env_ok "MEI" Scenarios.url_A Scenarios.P1 "bkt" "oecd/raw/" "csv"
     false None Scenarios.w0).1
  = Ok (stored_result "oecd/raw/MEI/20240615/MEI_20240615T123045Z_45c331a07835.csv"
          (sha256 Scenarios.P1) Scenarios.url_A)
  /\ stored_result "oecd/raw/MEI/20240615/MEI_20240615T123045Z_45c331a07835.csv"
       (sha256 Scenarios.P1) Scenarios.url_A !! "s3_key"
     = Some (VStr "oecd/raw/MEI/20240615/MEI_20240615T123045Z_45c331a07835.csv").
Proof.
  split; [vm_compute; reflexivity|].
  pose proof (proj1 (archive_key_format Scenarios.env_ok "MEI" Scenarios.url_A Scenarios.P1
                       "bkt" "oecd/raw/" "csv" false None Scenarios.w0
                       (stored_result
                          "oecd/raw/MEI/20240615/MEI_20240615T123045Z_45c331a07835.csv"
                          (sha256 Scenarios.P1) Scenarios.url_A)
                       (put_if_new Scenarios.env_ok "MEI" Scenarios.url_A Scenarios.P1 "bkt"
                          "oecd/raw/" "csv" false None Scenarios.w0).2
                       ltac:(vm_compute; reflexivity) ltac:(vm_compute; reflexivity))) as H.
  vm_compute in H. vm_compute. exact H.
Defined.

(** C8 as worded fails twice. The configured prefix is not used verbatim:
    its trailing slashes are dropped. And two distinct payloads of one
    dataset, with distinct digests, archived in the same second can get the
    same key: the digests of [P1] and [P2] share their first twelve
    characters, so the second write replaces the first object. *)
Lemma archive_key_counterexample :
  key_at Scenarios.T0 "oecd/raw/" "MEI" "csv" Scenarios.P1
  <> spec_key "oecd/raw/" "MEI" "20240615" "20240615T123045Z" (sha256 Scenarios.P1) "csv"
  /\ Scenarios.P1 <> Scenarios.P2
  /\ sha256 Scenarios.P1 <> sha256 Scenarios.P2
  /\ key_at Scenarios.T0 "oecd/raw" "MEI" "csv" Scenarios.P1
     = key_at Scenarios.T0 "oecd/raw" "MEI" "csv" Scenarios.P2
  /\ (let w1 := (put_if_new Scenarios.env_ok "MEI" Scenarios.url_A Scenarios.P1 "bkt"
                   "oecd/raw" "csv" false None Scenarios.w0).2 in
      let w2 := (put_if_new Scenarios.env_ok "MEI" Scenarios.url_A Scenarios.P2 "bkt"
                   "oecd/raw" "csv" false None w1).2 in
      archive_writes w2 = 2%nat /\ size (s3 w2) = 1%nat).
Proof.
  cbv zeta. repeat apply conj; try (vm_compute; reflexivity); vm_compute; discriminate.
Qed.

(** ** The report *)

Lemma stored_dict_shape ds key h u : stored_shape (<["dataset" := VStr ds]> (stored_result key h u)).
Proof.
  unfold stored_shape, stored_result. split; [|split].
  - rewrite lookup_insert_ne by discriminate. apply lookup_insert_eq.
  - rewrite !lookup_insert_ne by discriminate. apply lookup_empty.
  - rewrite !lookup_insert_ne by discriminate. apply lookup_empty.
Qed.

Lemma unchanged_dict_shape ds h u :
  unchanged_shape (<["dataset" := VStr ds]> (unchanged_result h u)).
Proof.
  unfold unchanged_shape, unchanged_result. split; [|split].
  - rewrite lookup_insert_ne by discriminate. apply lookup_insert_eq.
  - rewrite !lookup_insert_ne by discriminate. apply lookup_insert_eq.
  - rewrite !lookup_insert_ne by discriminate. apply lookup_empty.
Qed.

Lemma error_result_error ds e : error_result ds e !! "error" = Some (VStr (str_exn e)).
Proof. unfold error_result. rewrite lookup_insert_ne by discriminate. apply lookup_insert_eq. Qed.

Lemma error_dict_shape ds e : error_shape (error_result ds e).
Proof.
  unfold error_shape. split; [|split].
  - unfold error_result. rewrite !lookup_insert_ne by discriminate. apply lookup_empty.
  - unfold error_result. rewrite !lookup_insert_ne by discriminate. apply lookup_empty.
  - eexists. apply error_result_error.
Qed.

(** The three shapes exclude one another. *)
Lemma shapes_exclusive (r : Dict) :
  ~ (stored_shape r /\ unchanged_shape r)
  /\ ~ (stored_shape r /\ error_shape r)
  /\ ~ (unchanged_shape r /\ error_shape r).
Proof.
  unfold stored_shape, unchanged_shape, error_shape.
  repeat split; intros [(H1 & _) (H2 & _)]; congruence.
Qed.

(** What the loop body appends for a dataset. *)
Lemma ingest_one_result env cfg ds w :
  (ingest_one env cfg ds w).1 !! "dataset" = Some (VStr ds)
  /\ ((exists raw url w1 w2 key,
         fetch_oecd env ds (key_path_of cfg ds) (cfg_last_n_obs cfg) (cfg_fmt cfg) w
         = (Ok (raw, url), w1)
         /\ ingest_one env cfg ds w
            = (<["dataset" := VStr ds]> (stored_result key (sha256 raw) url), w2))
      \/ (exists raw url w1 w2,
            fetch_oecd env ds (key_path_of cfg ds) (cfg_last_n_obs cfg) (cfg_fmt cfg) w
            = (Ok (raw, url), w1)
            /\ ingest_one env cfg ds w
               = (<["dataset" := VStr ds]> (unchanged_result (sha256 raw) url), w2))
      \/ (exists e w2, ingest_one env cfg ds w = (error_result ds e, w2))).
Proof.
  rewrite ingest_one_unfold.
  destruct (fetch_oecd env ds _ _ _ w) as [[[raw url]|e] w1].
  - destruct (put_if_new env ds url raw _ _ _ _ _ w1) as [[out|e] w2] eqn:Hput.
    + split; [apply lookup_insert_eq|].
      apply put_if_new_returns in Hput as [[-> _]|(obj & rest & -> & _)].
      * right. left. by eexists _, _, _, _.
      * left. by eexists _, _, _, _, _.
    + split; [apply lookup_insert_eq|]. right. right. by eexists _, _.
  - split; [apply lookup_insert_eq|]. right. right. by eexists _, _.
Qed.

Lemma ingest_one_shaped env cfg ds w : shaped (ingest_one env cfg ds w).1.
Proof.
  destruct (ingest_one_result env cfg ds w)
    as [_ [(raw & url & w1 & w2 & key & _ & ->)|[(raw & url & w1 & w2 & _ & ->)|(e & w2 & ->)]]].
  - left. apply stored_dict_shape.
  - right. left. apply unchanged_dict_shape.
  - right. right. apply error_dict_shape.
Qed.

Lemma ingest_all_acc env cfg dss : forall acc w,
  ingest_all env cfg dss acc w
  = ((acc ++ (ingest_all env cfg dss [] w).1)%list, (ingest_all env cfg dss [] w).2).
Proof.
  induction dss as [|ds rest IH]; intros acc w; cbn [ingest_all].
  - by rewrite app_nil_r.
  - destruct (ingest_one env cfg ds w) as [r w1].
    rewrite (IH (acc ++ [r])%list), (IH ([] ++ [r])%list). cbn [fst snd app].
    by rewrite <- app_assoc.
Qed.

Lemma ingest_all_cons env cfg ds rest w :
  ingest_all env cfg (ds :: rest) [] w
  = ((ingest_one env cfg ds w).1 :: (ingest_all env cfg rest [] (ingest_one env cfg ds w).2).1,
     (ingest_all env cfg rest [] (ingest_one env cfg ds w).2).2).
Proof.
  cbn [ingest_all]. destruct (ingest_one env cfg ds w) as [r w1].
  by rewrite ingest_all_acc.
Qed.

(** One result per configured dataset, in order, each of one of the shapes. *)
Lemma ingest_all_results env cfg dss : forall w,
  Forall2 (fun ds r => r !! "dataset" = Some (VStr ds) /\ shaped r)
    dss (ingest_all env cfg dss [] w).1.
Proof.
  induction dss as [|ds rest IH]; intros w.
  - constructor.
  - rewrite ingest_all_cons. cbn [fst]. constructor; [|apply IH].
    split; [apply ingest_one_result | apply ingest_one_shaped].
Qed.

Lemma lambda_handler_results env cfg w :
  results (lambda_handler env cfg w).1 = (ingest_all env cfg (cfg_datasets cfg) [] w).1
  /\ (lambda_handler env cfg w).1 = make_report (ingest_all env cfg (cfg_datasets cfg) [] w).1
  /\ (lambda_handler env cfg w).2 = (ingest_all env cfg (cfg_datasets cfg) [] w).2.
Proof.
  unfold lambda_handler. by destruct (ingest_all env cfg (cfg_datasets cfg) [] w).
Qed.

Lemma filter_filter_implied {A} (p q : A -> bool) (l : list A) :
  (forall x, p x = true -> q x = true) ->
  List.filter p (List.filter q l) = List.filter p l.
Proof.
  intros Himp. induction l as [|x l IH]; [done|]. cbn.
  destruct (q x) eqn:Hq; cbn.
  - by rewrite IH.
  - destruct (p x) eqn:Hp; [|exact IH]. apply Himp in Hp. congruence.
Qed.

Lemma shaped_flags (r : Dict) :
  shaped r ->
  (is_stored r = true /\ is_unchanged r = false /\ is_err r = false
   /\ has_error r = false /\ is_silent_error r = false)
  \/ (is_stored r = false /\ is_unchanged r = true /\ is_err r = false
      /\ has_error r = false /\ is_silent_error r = false)
  \/ (is_stored r = false /\ is_unchanged r = false /\ has_error r = true
      /\ is_err r = negb (is_silent_error r)).
Proof.
  unfold is_stored, is_unchanged, is_err, has_error, is_silent_error.
  intros [(Hs & Hr & He)|[(Hs & Hr & He)|(Hs & Hr & m & He)]]; rewrite Hs, Hr, He; cbn.
  - left. repeat split; by apply bool_decide_eq_false_2; first [intros [? ?]|idtac].
  - right. left. repeat split; by apply bool_decide_eq_false_2; first [intros [? ?]|idtac].
  - right. right. split; [done|]. split; [done|].
    split; [done|].
    destruct (String.eqb_spec m "") as [->|Hne]; cbn.
    + by rewrite bool_decide_eq_true_2.
    + rewrite bool_decide_eq_false_2; [done|]. congruence.
Qed.

(** The summary counts of shaped results: stored and unchanged results are
    all counted, an error result is counted unless its text is empty. *)
Lemma make_report_counts (rs : list Dict) :
  Forall shaped rs ->
  let s := summary (make_report rs) in
  (sum_stored s + sum_unchanged s = succeeded rs)%nat
  /\ (sum_errors s + length (List.filter is_silent_error rs) = errored rs)%nat
  /\ (succeeded rs + errored rs = length rs)%nat.
Proof.
  intros Hall. cbn [make_report summary sum_stored sum_unchanged sum_errors].
  rewrite !filter_filter_implied
    by (unfold is_ok; intros x ->; by rewrite ?orb_true_r).
  unfold succeeded, errored.
  induction Hall as [|r rs Hr _ IH]; [done|].
  cbn [List.filter].
  destruct (shaped_flags r Hr) as [(-> & -> & -> & -> & ->)|[(-> & -> & -> & -> & ->)
                                  |(-> & -> & -> & ->)]];
    cbn [negb length]; [lia|lia|].
  destruct (is_silent_error r); cbn [negb length]; lia.
Qed.

Lemma string_literal_append_nonempty (c : Ascii.ascii) (a b : string) :
  (String c a ++ b)%string <> "".
Proof. rewrite string_append_cons. discriminate. Qed.

(** A failed fetch always carries a text. *)
Lemma fetch_oecd_error_described env ds kp n fmt w e w' :
  fetch_oecd env ds kp n fmt w = (Raise e, w') -> str_exn e <> "".
Proof.
  rewrite fetch_oecd_unfold.
  destruct (build_oecd_urls env ds kp n fmt w) as [[urls|e0] w1] eqn:Hb.
  - destruct (fetch_loop_cases env ds kp urls [] w)
      as [(pre & url & post & errs & w1' & blob & w2 & _ & _ & _ & _ & ->)
         |(errs & w2 & _ & ->)]; [discriminate|].
    intros [= <- _]. cbn [FetchExhausted str_exn]. apply string_literal_append_nonempty.
  - intros [= <- _]. revert Hb.
    unfold build_oecd_urls, bind, utcnow, timedelta_days, datetime_sub_date, ret, raise.
    repeat match goal with |- context [if ?b then _ else _] => destruct b end;
      intros [= <-]; cbn [str_exn]; first [apply string_literal_append_nonempty | discriminate].
Qed.

Lemma put_if_new_error_described env ds url raw bucket pfx fmt gz tbl w e w' :
  faults_described env ->
  put_if_new env ds url raw bucket pfx fmt gz tbl w = (Raise e, w') -> str_exn e <> "".
Proof.
  intros (Hget & Hput & Hobj & Hgz). rewrite put_if_new_unfold.
  assert (Harch : forall key w1,
    archive_step env bucket key raw fmt gz (sha256 raw) url w1 = (Raise e, w') ->
    str_exn e <> "").
  { intros key w1. unfold archive_step, body_at.
    destruct gz.
    - destruct (env_gzip env (clock w1) raw) as [out|e0] eqn:Hz.
      + destruct (env_put_object env (clock w1)) as [e0|] eqn:Ho; [|discriminate].
        intros [= <- _]. by eapply Hobj.
      + intros [= <- _]. by eapply Hgz.
    - destruct (env_put_object env (clock w1)) as [e0|] eqn:Ho; [|discriminate].
      intros [= <- _]. by eapply Hobj. }
  destruct (table_enabled tbl) as [table|]; [|apply Harch].
  destruct (env_get_item env (clock w)) as [e0|] eqn:Hg.
  { intros [= <- _]. by eapply Hget. }
  destruct (same_hash _ _); [discriminate|].
  destruct (env_put_item env (S (clock w))) as [e0|] eqn:Hp.
  { intros [= <- _]. by eapply Hput. }
  apply Harch.
Qed.

Lemma ingest_one_error_described env cfg ds w :
  faults_described env -> (ingest_one env cfg ds w).1 !! "error" <> Some (VStr "").
Proof.
  intros Henv. rewrite ingest_one_unfold.
  destruct (fetch_oecd env ds _ _ _ w) as [[[raw url]|e] w1] eqn:Hf.
  - destruct (put_if_new env ds url raw _ _ _ _ _ w1) as [[out|e] w2] eqn:Hput; cbn [fst].
    + apply put_if_new_returns in Hput as [[-> _]|(obj & rest & -> & _)].
      * destruct (unchanged_dict_shape ds (sha256 raw) url) as (_ & _ & ->). discriminate.
      * destruct (stored_dict_shape ds
                    (key_at (env_utcnow env (clock w1)) (cfg_s3_prefix cfg) ds (cfg_fmt cfg) raw)
                    (sha256 raw) url) as (_ & _ & ->). discriminate.
    + rewrite error_result_error. intros [= H].
      by eapply put_if_new_error_described.
  - cbn [fst]. rewrite error_result_error. intros [= H].
    by eapply fetch_oecd_error_described.
Qed.

(** When the storage side describes its faults, every error of a run is
    described. *)
Lemma ingest_all_errors_described env cfg dss : forall w,
  faults_described env -> errors_described (ingest_all env cfg dss [] w).1.
Proof.
  induction dss as [|ds rest IH]; intros w Henv r Hr.
  - by apply elem_of_nil in Hr.
  - rewrite ingest_all_cons in Hr. cbn [fst] in Hr.
    apply elem_of_cons in Hr as [->|Hr].
    + by apply ingest_one_error_described.
    + by eapply IH.
Qed.

Lemma no_silent_errors (rs : list Dict) :
  errors_described rs -> List.filter is_silent_error rs = [].
Proof.
  induction rs as [|r rs IH]; intros H; [done|]. cbn.
  unfold is_silent_error at 1. rewrite bool_decide_eq_false_2.
  - apply IH. intros r' Hr'. apply H. by apply elem_of_cons; right.
  - apply H. apply elem_of_cons. by left.
Qed.

(** C10, the failing run. One dataset is configured, its payload is fetched
    and the compression raises MemoryError, whose text is empty: the report
    holds the one error result of that dataset, yet counts no stored, no
    unchanged and no error, and carries status 200. *)
Theorem empty_error_text_is_not_counted :
  let rep := (lambda_handler Scenarios.env_oom Scenarios.cfg_gzip Scenarios.w0).1 in
  results rep = [error_result "MEI" (PyError "MemoryError" "")]
  /\ length (cfg_datasets Scenarios.cfg_gzip) = 1%nat
  /\ summary rep = {| sum_stored := 0; sum_unchanged := 0; sum_errors := 0 |}
  /\ statusCode rep = 200.
Proof. cbv zeta. repeat apply conj; vm_compute; reflexivity. Qed.

(** What does hold of every report: one result per configured dataset, in
    order and naming it, each of exactly one of the three shapes; every
    stored and unchanged result is counted, and every error result whose text
    is not empty. *)
Lemma report_invariants env cfg w :
  let rep := (lambda_handler env cfg w).1 in
  Forall2 (fun ds r => r !! "dataset" = Some (VStr ds) /\ shaped r)
    (cfg_datasets cfg) (results rep)
  /\ (sum_stored (summary rep) + sum_unchanged (summary rep) + sum_errors (summary rep)
      + length (List.filter is_silent_error (results rep))
      = length (cfg_datasets cfg))%nat
  /\ (faults_described env ->
      (sum_stored (summary rep) + sum_unchanged (summary rep) + sum_errors (summary rep)
       = length (cfg_datasets cfg))%nat).
Proof.
  cbv zeta. destruct (lambda_handler_results env cfg w) as (Hres & Hrep & _).
  pose proof (ingest_all_results env cfg (cfg_datasets cfg) w) as Hall.
  rewrite Hres. split; [exact Hall|].
  assert (Hshaped : Forall shaped (ingest_all env cfg (cfg_datasets cfg) [] w).1).
  { clear -Hall. induction Hall as [|? ? ? ? [_ ?]]; by constructor. }
  pose proof (make_report_counts _ Hshaped) as (H1 & H2 & H3).
  rewrite (Forall2_length _ _ _ Hall).
  rewrite Hrep. cbv zeta in H1, H2. split; [lia|].
  intros Henv.
  pose proof (no_silent_errors _ (ingest_all_errors_described env cfg (cfg_datasets cfg) w Henv))
    as Hsilent.
  rewrite Hsilent in H2. cbn [length] in H2. lia.
Qed.

(** C3 as worded fails: the status code takes two values only. A run in
    which one dataset of two fails and a run in which both fail return the
    same status 207, so no reading of the status code alone tells partial
    failure from total failure. *)
Lemma status_code_counterexample :
  let partial := (lambda_handler Scenarios.env_then_500 Scenarios.cfg_two Scenarios.w0).1 in
  let total := (lambda_handler Scenarios.env_500 Scenarios.cfg_two Scenarios.w0).1 in
  outcome_of (results partial) = PartialFailure
  /\ outcome_of (results total) = TotalFailure
  /\ statusCode partial = 207
  /\ statusCode total = 207
  /\ ~ (exists classify : Z -> Outcome,
          forall env cfg w,
            classify (statusCode (lambda_handler env cfg w).1)
            = outcome_of (results (lambda_handler env cfg w).1)).
Proof.
  cbv zeta.
  assert (Hp : outcome_of (results (lambda_handler Scenarios.env_then_500 Scenarios.cfg_two
                                      Scenarios.w0).1) = PartialFailure)
    by (vm_compute; reflexivity).
  assert (Ht : outcome_of (results (lambda_handler Scenarios.env_500 Scenarios.cfg_two
                                      Scenarios.w0).1) = TotalFailure)
    by (vm_compute; reflexivity).
  assert (Hsp : statusCode (lambda_handler Scenarios.env_then_500 Scenarios.cfg_two
                              Scenarios.w0).1 = 207) by (vm_compute; reflexivity).
  assert (Hst : statusCode (lambda_handler Scenarios.env_500 Scenarios.cfg_two
                              Scenarios.w0).1 = 207) by (vm_compute; reflexivity).
  repeat split; try assumption.
  intros [classify Hc].
  pose proof (Hc Scenarios.env_then_500 Scenarios.cfg_two Scenarios.w0) as H1.
  pose proof (Hc Scenarios.env_500 Scenarios.cfg_two Scenarios.w0) as H2.
  rewrite Hp, Hsp in H1. rewrite Ht, Hst in H2. congruence.
Qed.

(** C3, as the code has it. The status code is 200 when no error was counted
    and 207 otherwise, so it separates total success from the two kinds of
    failure; partial and total failure share 207 and differ in the summary:
    stored + unchanged is positive in the first and zero in the second. With
    every error text non-empty, status and summary together give the outcome
    of the run. *)
Theorem status_and_summary_tell_outcome (env : Env) (cfg : Config) (w : World) :
  let rep := (lambda_handler env cfg w).1 in
  (statusCode rep = 200 \/ statusCode rep = 207)
  /\ (statusCode rep = 200 <-> sum_errors (summary rep) = 0%nat)
  /\ (errors_described (results rep) ->
      outcome_of_report rep = outcome_of (results rep)
      /\ (statusCode rep = 200 <-> outcome_of (results rep) = TotalSuccess)
      /\ (outcome_of (results rep) = PartialFailure ->
          statusCode rep = 207
          /\ (0 < sum_stored (summary rep) + sum_unchanged (summary rep))%nat)
      /\ (outcome_of (results rep) = TotalFailure ->
          statusCode rep = 207
          /\ (sum_stored (summary rep) + sum_unchanged (summary rep) = 0)%nat)).
Proof.
  cbv zeta. destruct (lambda_handler_results env cfg w) as (Hres & Hrep & _).
  pose proof (ingest_all_results env cfg (cfg_datasets cfg) w) as Hall.
  assert (Hshaped : Forall shaped (ingest_all env cfg (cfg_datasets cfg) [] w).1).
  { clear -Hall. induction Hall as [|? ? ? ? [_ ?]]; by constructor. }
  pose proof (make_report_counts _ Hshaped) as (H1 & H2 & H3). cbv zeta in H1, H2.
  rewrite Hres, Hrep. clear Hres Hrep Hall Hshaped.
  set (rs := (ingest_all env cfg (cfg_datasets cfg) [] w).1) in *.
  assert (Hstatus : statusCode (make_report rs)
                    = if (sum_errors (summary (make_report rs)) =? 0)%nat then 200 else 207).
  { cbn [make_report statusCode summary sum_errors].
    destruct (List.filter is_err rs) as [|r l]; [done|].
    by rewrite bool_decide_eq_false_2. }
  split.
  { rewrite Hstatus. destruct (_ =? _)%nat; auto. }
  split.
  { rewrite Hstatus. destruct (Nat.eqb_spec (sum_errors (summary (make_report rs))) 0);
      split; (done || lia). }
  intros Hdesc. rewrite (no_silent_errors _ Hdesc) in H2. cbn [length] in H2.
  unfold outcome_of_report, outcome_of. rewrite Hstatus.
  change (results (make_report rs)) with rs.
  replace (errored rs) with (sum_errors (summary (make_report rs))) by lia.
  replace (succeeded rs)
    with (sum_stored (summary (make_report rs)) + sum_unchanged (summary (make_report rs)))%nat
    by lia.
  destruct (Nat.eqb_spec (sum_errors (summary (make_report rs))) 0) as [He|He];
    change (200 =? 200) with true; change (207 =? 200) with false; cbv iota.
  - repeat split; done.
  - destruct (Nat.eqb_spec (sum_stored (summary (make_report rs))
                            + sum_unchanged (summary (make_report rs))) 0) as [Hs|Hs];
      repeat split; try done; lia.
Qed.

Lemma status_and_summary_tell_outcome_witness :
  outcome_of_report (lambda_handler Scenarios.env_then_500 Scenarios.cfg_two Scenarios.w0).1
  = outcome_of (results (lambda_handler Scenarios.env_then_500 Scenarios.cfg_two
                           Scenarios.w0).1).
Proof.
  refine (proj1 (proj2 (proj2 (status_and_summary_tell_outcome Scenarios.env_then_500
                                 Scenarios.cfg_two Scenarios.w0)) _)).
  rewrite (proj1 (lambda_handler_results _ _ _)).
  apply ingest_all_errors_described.
  repeat split; intros; discriminate.
Defined.

(** ** Two runs in a row *)

Section TwoRuns.
Variable env : Env.
Variable cfg : Config.
Variable table : string.
Hypothesis Henabled : table_enabled (cfg_ddb_table cfg) = Some table.
Hypothesis Hup : ledger_up env.

Lemma same_hash_true_holds w ds raw :
  same_hash (ddb w !! (table, ds)) (sha256 raw) = true -> holds_digest w table ds raw.
Proof.
  unfold same_hash, holds_digest. destruct (ddb w !! (table, ds)) as [it|]; [|discriminate].
  intros [_ H]%andb_true_iff. apply bool_decide_eq_true_1 in H. by exists it.
Qed.

Lemma archive_step_ddb bucket key raw fmt gz h url w :
  ddb (archive_step env bucket key raw fmt gz h url w).2 = ddb w.
Proof.
  unfold archive_step. destruct (body_at env _ raw gz) as [[body ce]|e]; [|done].
  by destruct (env_put_object env _).
Qed.

(** After the loop body has fetched [raw] for a dataset, the row of that
    dataset carries the digest of [raw], whether the archive write succeeded
    or not, and the rows of the other datasets are as before. *)
Lemma ingest_one_ledger ds w raw url w1 :
  fetch_oecd env ds (key_path_of cfg ds) (cfg_last_n_obs cfg) (cfg_fmt cfg) w
  = (Ok (raw, url), w1) ->
  holds_digest (ingest_one env cfg ds w).2 table ds raw
  /\ (forall ds', ds' <> ds ->
        ddb (ingest_one env cfg ds w).2 !! (table, ds') = ddb w !! (table, ds')).
Proof.
  intros Hfetch.
  destruct (fetch_oecd_frame env ds (key_path_of cfg ds) (cfg_last_n_obs cfg) (cfg_fmt cfg) w)
    as (evs & Hw1 & _).
  rewrite Hfetch in Hw1. cbn [snd] in Hw1.
  assert (Hddb1 : ddb w1 = ddb w) by (by subst w1).
  rewrite ingest_one_unfold, Hfetch.
  assert (Hgoal :
    holds_digest (put_if_new env ds url raw (cfg_s3_bucket cfg) (cfg_s3_prefix cfg)
                    (cfg_fmt cfg) (cfg_gzip_output cfg) (cfg_ddb_table cfg) w1).2 table ds raw
    /\ (forall ds', ds' <> ds ->
          ddb (put_if_new env ds url raw (cfg_s3_bucket cfg) (cfg_s3_prefix cfg)
                 (cfg_fmt cfg) (cfg_gzip_output cfg) (cfg_ddb_table cfg) w1).2 !! (table, ds')
          = ddb w !! (table, ds'))).
  { rewrite put_if_new_unfold, Henabled.
    rewrite (proj1 (Hup (clock w1))), (proj2 (Hup (S (clock w1)))).
    destruct (same_hash (ddb w1 !! (table, ds)) (sha256 raw)) eqn:Hsame.
    - cbn [snd]. split.
      + apply same_hash_true_holds in Hsame as (it & Hit & Hh). by exists it.
      + intros ds' _. cbn [after ddb]. by rewrite Hddb1.
    - unfold holds_digest. rewrite archive_step_ddb. cbn [ddb]. split.
      + eexists. split; [apply lookup_insert_eq|]. apply ledger_item_last_hash.
      + intros ds' Hne. rewrite lookup_insert_ne by congruence. by rewrite Hddb1. }
  destruct (put_if_new env ds url raw _ _ _ _ _ w1) as [[out|e] w2]; exact Hgoal.
Qed.

(** When the row already carries the digest of the fetched payload, the
    loop body reports it unchanged and only reads the ledger. *)
Lemma ingest_one_unchanged ds w raw url w1 :
  fetch_oecd env ds (key_path_of cfg ds) (cfg_last_n_obs cfg) (cfg_fmt cfg) w
  = (Ok (raw, url), w1) ->
  holds_digest w table ds raw ->
  ingest_one env cfg ds w
  = (<["dataset" := VStr ds]> (unchanged_result (sha256 raw) url),
     after [GetItem table ds] w1).
Proof.
  intros Hfetch Hholds.
  destruct (fetch_oecd_frame env ds (key_path_of cfg ds) (cfg_last_n_obs cfg) (cfg_fmt cfg) w)
    as (evs & Hw1 & _).
  rewrite Hfetch in Hw1. cbn [snd] in Hw1.
  assert (Hholds1 : holds_digest w1 table ds raw) by (by subst w1).
  rewrite ingest_one_unfold, Hfetch, put_if_new_unfold, Henabled.
  rewrite (proj1 (Hup (clock w1))). by rewrite (same_hash_holds _ _ _ _ Hholds1).
Qed.

Lemma fetched_cons_inv ds rest w o l :
  fetched_payloads env cfg (ds :: rest) w = Some o :: l ->
  (exists url w1,
      fetch_oecd env ds (key_path_of cfg ds) (cfg_last_n_obs cfg) (cfg_fmt cfg) w
      = (Ok (o, url), w1))
  /\ fetched_payloads env cfg rest (ingest_one env cfg ds w).2 = l.
Proof.
  cbn [fetched_payloads].
  destruct (fetch_oecd env ds _ _ _ w) as [[[raw url]|e] w1]; intros [= <- <-].
  split; [by eexists _, _|reflexivity].
Qed.

Variable upstream : string -> bytes.

(** After a run that fetched [upstream ds] for every dataset, every row the
    run went through carries the digest of [upstream], and so does every row
    that did before. *)
Lemma first_run_syncs dss : forall w,
  fetched_payloads env cfg dss w = (fun ds => Some (upstream ds)) <$> dss ->
  forall ds,
    ds ∈ dss \/ holds_digest w table ds (upstream ds) ->
    holds_digest (ingest_all env cfg dss [] w).2 table ds (upstream ds).
Proof.
  induction dss as [|d rest IH]; intros w Hf ds Hds.
  - destruct Hds as [Hin|H]; [by apply elem_of_nil in Hin|exact H].
  - rewrite fmap_cons in Hf. apply fetched_cons_inv in Hf as [(url & w1 & Hfetch) Hrest].
    rewrite ingest_all_cons. cbn [snd].
    destruct (ingest_one_ledger d w (upstream d) url w1 Hfetch) as [Hd Hothers].
    apply (IH _ Hrest).
    destruct (decide (ds = d)) as [->|Hne]; [by right|].
    destruct Hds as [Hin|(it & Hit & Hh)].
    + apply elem_of_cons in Hin as [?|Hin]; [done|by left].
    + right. exists it. by rewrite Hothers.
Qed.

Lemma archive_writes_after evs w :
  Forall (fun ev => is_put_object ev = false) evs ->
  archive_writes (after evs w) = archive_writes w.
Proof.
  intros H. unfold archive_writes, after. cbn [trace]. rewrite List.filter_app, length_app.
  replace (List.filter is_put_object evs) with (@nil Event); [done|].
  induction H as [|ev evs Hev _ IH]; [done|]. cbn. by rewrite Hev.
Qed.

(** A run that starts with every row in step with [upstream], and fetches
    [upstream] again, reports every dataset unchanged and writes nothing. *)
Lemma second_run_unchanged dss : forall w,
  fetched_payloads env cfg dss w = (fun ds => Some (upstream ds)) <$> dss ->
  (forall ds, ds ∈ dss -> holds_digest w table ds (upstream ds)) ->
  Forall unchanged_shape (ingest_all env cfg dss [] w).1
  /\ ddb (ingest_all env cfg dss [] w).2 = ddb w
  /\ s3 (ingest_all env cfg dss [] w).2 = s3 w
  /\ archive_writes (ingest_all env cfg dss [] w).2 = archive_writes w.
Proof.
  induction dss as [|d rest IH]; intros w Hf Hsync.
  - repeat split. constructor.
  - rewrite fmap_cons in Hf. apply fetched_cons_inv in Hf as [(url & w1 & Hfetch) Hrest].
    assert (Hd : holds_digest w table d (upstream d)) by (apply Hsync, elem_of_cons; by left).
    pose proof (ingest_one_unchanged d w (upstream d) url w1 Hfetch Hd) as Hone.
    destruct (fetch_oecd_frame env d (key_path_of cfg d) (cfg_last_n_obs cfg) (cfg_fmt cfg) w)
      as (evs & Hw1 & Hnet).
    rewrite Hfetch in Hw1. cbn [snd] in Hw1. subst w1.
    rewrite ingest_all_cons, Hone in *. cbn [fst snd] in *.
    destruct (IH (after [GetItem table d] (after evs w)) Hrest) as (Hshapes & Hddb & Hs3 & Hcnt).
    { intros ds Hin. destruct (Hsync ds) as (it & Hit & Hh); [apply elem_of_cons; by right|].
      by exists it. }
    split; [constructor; [apply unchanged_dict_shape|exact Hshapes]|].
    rewrite Hddb, Hs3, Hcnt, after_after. repeat split.
    apply archive_writes_after. constructor; [done|].
    eapply Forall_impl; [exact Hnet|]. by intros [] .
Qed.

End TwoRuns.

Lemma all_unchanged_report (rs : list Dict) :
  Forall unchanged_shape rs ->
  summary (make_report rs)
  = {| sum_stored := 0; sum_unchanged := length rs; sum_errors := 0 |}
  /\ statusCode (make_report rs) = 200.
Proof.
  intros H. cbn [make_report summary statusCode].
  rewrite !filter_filter_implied by (unfold is_ok; intros x ->; by rewrite ?orb_true_r).
  assert (Hall : List.filter is_stored rs = [] /\ List.filter is_unchanged rs = rs
                 /\ List.filter is_err rs = []).
  { induction H as [|r rs (Hs & Hr & He) _ (IHs & IHu & IHe)]; [done|].
    cbn [List.filter]. unfold is_stored at 1, is_unchanged at 1, is_err at 1.
    rewrite Hs, He, (bool_decide_eq_true_2 _ Hr). cbn [truthy].
    by rewrite IHs, IHu, IHe. }
  destruct Hall as (Hs & Hu & He).
  by rewrite Hs, Hu, He.
Qed.

(** C7 as worded fails when no ledger table is configured: the second of
    two runs that fetch the same bytes stores them again. *)
Lemma idempotence_counterexample :
  let first := lambda_handler Scenarios.env_ok Scenarios.cfg_plain Scenarios.w0 in
  let second := lambda_handler Scenarios.env_ok Scenarios.cfg_plain first.2 in
  fetched_payloads Scenarios.env_ok Scenarios.cfg_plain ["MEI"] Scenarios.w0
  = [Some Scenarios.P1]
  /\ fetched_payloads Scenarios.env_ok Scenarios.cfg_plain ["MEI"] first.2
     = [Some Scenarios.P1]
  /\ is_unchanged <$> results second.1 = [false]
  /\ is_stored <$> results second.1 = [true]
  /\ archive_writes first.2 = 1%nat
  /\ archive_writes second.2 = 2%nat.
Proof. cbv zeta. repeat apply conj; vm_compute; reflexivity. Qed.

(** C7, as the code has it. With a ledger table configured and the ledger
    answering, when both of two runs in a row fetch the same bytes for every
    dataset, the second run reports every dataset unchanged, with status 200,
    makes no archive write, and leaves the archive and the ledger as the
    first run left them. *)
Theorem second_run_reports_unchanged
    (env : Env) (cfg : Config) (table : string) (upstream : string -> bytes) (w : World) :
  table_enabled (cfg_ddb_table cfg) = Some table ->
  ledger_up env ->
  let first := lambda_handler env cfg w in
  let second := lambda_handler env cfg first.2 in
  fetched_payloads env cfg (cfg_datasets cfg) w
  = (fun ds => Some (upstream ds)) <$> cfg_datasets cfg ->
  fetched_payloads env cfg (cfg_datasets cfg) first.2
  = (fun ds => Some (upstream ds)) <$> cfg_datasets cfg ->
  Forall unchanged_shape (results second.1)
  /\ length (results second.1) = length (cfg_datasets cfg)
  /\ summary second.1
     = {| sum_stored := 0; sum_unchanged := length (cfg_datasets cfg); sum_errors := 0 |}
  /\ statusCode second.1 = 200
  /\ archive_writes second.2 = archive_writes first.2
  /\ s3 second.2 = s3 first.2
  /\ ddb second.2 = ddb first.2.
Proof.
  intros Henabled Hup first second Hf1 Hf2. subst first second.
  destruct (lambda_handler_results env cfg w) as (_ & _ & Hw1).
  destruct (lambda_handler_results env cfg (lambda_handler env cfg w).2) as (Hres & Hrep & Hw2).
  rewrite Hres, Hrep, Hw2.
  set (w1 := (lambda_handler env cfg w).2) in *.
  assert (Hsync : forall ds, ds ∈ cfg_datasets cfg -> holds_digest w1 table ds (upstream ds)).
  { intros ds Hin. rewrite Hw1.
    apply (first_run_syncs env cfg table Henabled Hup upstream _ _ Hf1). by left. }
  destruct (second_run_unchanged env cfg table Henabled Hup upstream _ _ Hf2 Hsync)
    as (Hshapes & Hddb & Hs3 & Hcnt).
  destruct (all_unchanged_report _ Hshapes) as (Hsum & Hstatus).
  pose proof (Forall2_length _ _ _ (ingest_all_results env cfg (cfg_datasets cfg) w1)) as Hlen.
  rewrite Hsum, Hstatus, Hlen. by repeat split.
Qed.

Lemma second_run_reports_unchanged_witness :
  let first := lambda_handler Scenarios.env_ok Scenarios.cfg_ledger Scenarios.w0 in
  let second := lambda_handler Scenarios.env_ok Scenarios.cfg_ledger first.2 in
  is_stored <$> results first.1 = [true]
  /\ summary second.1 = {| sum_stored := 0; sum_unchanged := 1; sum_errors := 0 |}
  /\ archive_writes second.2 = archive_writes first.2.
Proof.
  cbv zeta. split; [vm_compute; reflexivity|].
  pose proof (second_run_reports_unchanged Scenarios.env_ok Scenarios.cfg_ledger "T"
                (fun _ => Scenarios.P1) Scenarios.w0 eq_refl
                (fun _ => conj eq_refl eq_refl)
                ltac:(vm_compute; reflexivity) ltac:(vm_compute; reflexivity))
    as (_ & _ & Hsum & _ & Hcnt & _).
  split; [exact Hsum|exact Hcnt].
Defined.

(** ** The start period of the windowed URL *)

Lemma month_day_checked (leapyear : bool) :
  forallb (month_day_ok leapyear) (seqZ 0 (if leapyear then 366 else 365)) = true.
Proof. destruct leapyear; vm_compute; reflexivity. Qed.

Lemma month_day_spec (n : Z) (leapyear : bool) :
  0 <= n < (if leapyear then 366 else 365) ->
  1 <= (month_day n leapyear).1 <= 12
  /\ 1 <= (month_day n leapyear).2
     <= nth (Z.to_nat ((month_day n leapyear).1 - 1)) DAYS_IN_MONTH 0
        + (if ((month_day n leapyear).1 =? 2) && leapyear then 1 else 0)
  /\ DAYS_BEFORE_MONTH (month_day n leapyear).1
     + (if (2 <? (month_day n leapyear).1) && leapyear then 1 else 0)
     + (month_day n leapyear).2 = n + 1.
Proof.
  intros Hn.
  pose proof (proj1 (forallb_forall _ _) (month_day_checked leapyear) n) as H.
  assert (Hin : In n (seqZ 0 (if leapyear then 366 else 365))).
  { apply list_elem_of_In, elem_of_seqZ. lia. }
  specialize (H Hin). unfold month_day_ok in H.
  destruct (month_day n leapyear) as [m d]. cbn [fst snd].
  rewrite !andb_true_iff, !Z.leb_le, Z.eqb_eq in H. lia.
Qed.

Lemma is_leap_decomposed (n400 n100 n4 n1 : Z) :
  0 <= n100 <= 3 -> 0 <= n4 <= 24 -> 0 <= n1 <= 3 ->
  is_leap (n400 * 400 + 1 + n100 * 100 + n4 * 4 + n1)
  = (n1 =? 3) && (negb (n4 =? 24) || (n100 =? 3)).
Proof.
  intros H100 H4 H1. unfold is_leap.
  destruct (Z.eqb_spec n1 3) as [E1|E1], (Z.eqb_spec n4 24) as [E4|E4],
    (Z.eqb_spec n100 3) as [E100|E100]; cbn [negb andb orb];
    repeat match goal with
           | |- context [?a mod ?b =? 0] => destruct (Z.eqb_spec (a mod b) 0)
           end; cbn [negb andb orb]; try reflexivity;
    exfalso; Z.to_euclidean_division_equations; lia.
Qed.

Lemma days_before_year_decomposed (n400 n100 n4 n1 : Z) :
  0 <= n100 <= 3 -> 0 <= n4 <= 24 -> 0 <= n1 <= 3 ->
  days_before_year (n400 * 400 + 1 + n100 * 100 + n4 * 4 + n1)
  = 146097 * n400 + 36524 * n100 + 1461 * n4 + 365 * n1.
Proof.
  intros H100 H4 H1. unfold days_before_year. cbv zeta.
  Z.to_euclidean_division_equations. lia.
Qed.

(** [ord2ymd] inverts [ymd2ord] and yields a date of the calendar. *)
Lemma ymd2ord_ord2ymd (o : Z) :
  ymd2ord (ord2ymd o).1.1 (ord2ymd o).1.2 (ord2ymd o).2 = o
  /\ 1 <= (ord2ymd o).1.2 <= 12
  /\ 1 <= (ord2ymd o).2 <= days_in_month (ord2ymd o).1.1 (ord2ymd o).1.2.
Proof.
  unfold ord2ymd. cbv zeta.
  pose proof (Z.div_mod (o - 1) DI400Y ltac:(done)) as E400.
  pose proof (Z.mod_pos_bound (o - 1) DI400Y ltac:(done)) as B400.
  set (n400 := (o - 1) / DI400Y) in *. set (r1 := (o - 1) mod DI400Y) in *.
  pose proof (Z.div_mod r1 DI100Y ltac:(done)) as E100.
  pose proof (Z.mod_pos_bound r1 DI100Y ltac:(done)) as B100.
  set (n100 := r1 / DI100Y) in *. set (r2 := r1 mod DI100Y) in *.
  pose proof (Z.div_mod r2 DI4Y ltac:(done)) as E4.
  pose proof (Z.mod_pos_bound r2 DI4Y ltac:(done)) as B4.
  set (n4 := r2 / DI4Y) in *. set (r3 := r2 mod DI4Y) in *.
  pose proof (Z.div_mod r3 365 ltac:(done)) as E1.
  pose proof (Z.mod_pos_bound r3 365 ltac:(done)) as B1.
  set (n1 := r3 / 365) in *. set (r4 := r3 mod 365) in *.
  unfold DI400Y, DI100Y, DI4Y in *.
  assert (Hn100 : 0 <= n100 <= 4) by lia.
  assert (Hn4 : 0 <= n4 <= 24) by lia.
  assert (Hn1 : 0 <= n1 <= 4) by lia.
  destruct (Z.eqb_spec n1 4) as [En1|En1]; [|destruct (Z.eqb_spec n100 4) as [En100|En100]];
    cbn [orb fst snd].
  - (* the last day of a leap year that does not end a century *)
    assert (n4 <= 23) by lia. assert (n100 <= 3) by lia.
    replace (n400 * 400 + 1 + n100 * 100 + n4 * 4 + n1 - 1)
      with (n400 * 400 + 1 + n100 * 100 + n4 * 4 + 3) by lia.
    unfold ymd2ord, days_before_month, days_in_month.
    rewrite is_leap_decomposed, days_before_year_decomposed by lia.
    replace (n4 =? 24) with false by (symmetry; apply Z.eqb_neq; lia).
    vm_compute (DAYS_BEFORE_MONTH 12). vm_compute (nth _ DAYS_IN_MONTH 0).
    cbn. lia.
  - (* the last day of a year that ends four centuries *)
    replace (n400 * 400 + 1 + n100 * 100 + n4 * 4 + n1 - 1)
      with (n400 * 400 + 1 + 3 * 100 + 24 * 4 + 3) by lia.
    unfold ymd2ord, days_before_month, days_in_month.
    rewrite is_leap_decomposed, days_before_year_decomposed by lia.
    vm_compute (DAYS_BEFORE_MONTH 12). vm_compute (nth _ DAYS_IN_MONTH 0).
    cbn. lia.
  - set (leapyear := (n1 =? 3) && (negb (n4 =? 24) || (n100 =? 3))).
    assert (Hr4 : 0 <= r4 < (if leapyear then 366 else 365)) by (destruct leapyear; lia).
    pose proof (month_day_spec r4 leapyear Hr4) as (Hm & Hd & Hsum).
    set (year := n400 * 400 + 1 + n100 * 100 + n4 * 4 + n1) in *.
    assert (Hleap : is_leap year = leapyear)
      by (subst year leapyear; apply is_leap_decomposed; lia).
    assert (Hdby : days_before_year year = 146097 * n400 + 36524 * n100 + 1461 * n4 + 365 * n1)
      by (subst year; apply days_before_year_decomposed; lia).
    assert (Hmd : (if r4 <? DAYS_BEFORE_MONTH (Z.shiftr (r4 + 50) 5)
                           + (if (2 <? Z.shiftr (r4 + 50) 5) && leapyear then 1 else 0)
                   then (year, Z.shiftr (r4 + 50) 5 - 1,
                         r4 - (DAYS_BEFORE_MONTH (Z.shiftr (r4 + 50) 5)
                               + (if (2 <? Z.shiftr (r4 + 50) 5) && leapyear then 1 else 0)
                               - (nth (Z.to_nat (Z.shiftr (r4 + 50) 5 - 1 - 1)) DAYS_IN_MONTH 0
                                  + (if (Z.shiftr (r4 + 50) 5 - 1 =? 2) && leapyear
                                     then 1 else 0))) + 1)
                   else (year, Z.shiftr (r4 + 50) 5,
                         r4 - (DAYS_BEFORE_MONTH (Z.shiftr (r4 + 50) 5)
                               + (if (2 <? Z.shiftr (r4 + 50) 5) && leapyear then 1 else 0)) + 1))
                  = (year, (month_day r4 leapyear).1, (month_day r4 leapyear).2)).
    { unfold month_day. cbv zeta. by destruct (r4 <? _). }
    rewrite Hmd. cbn [fst snd].
    unfold ymd2ord, days_before_month, days_in_month. rewrite Hleap, Hdby.
    split; [lia|]. split; [lia|].
    destruct (Z.eqb_spec (month_day r4 leapyear).1 2) as [E2|E2]; cbn [andb] in *.
    + rewrite E2 in Hd |- *. change (nth (Z.to_nat (2 - 1)) DAYS_IN_MONTH 0) with 28 in *.
      destruct leapyear; cbn [andb] in *; lia.
    + lia.
Qed.

(** C2 as worded fails: the window is counted in days whatever the period
    granularity of the dataset. For the monthly dataset MEI with N = 60 on
    2024-06-15 the windowed URL starts at 2024-02-16, 120 days back, not 120
    months back (2014-06); nor is it 120 years or 120 quarters back for an
    annual or a quarterly dataset. *)
Lemma windowed_start_counterexample :
  let today := EPOCH_ORDINAL + Scenarios.T0 / 86400 in
  let windowed (period : string) :=
    url_base "MEI" "all" ++ "?" ++ params_common "csv" ++ "&startPeriod=" ++ period in
  isoformat today = "2024-06-15"
  /\ (build_oecd_urls Scenarios.env_ok "MEI" "all" 60 "csv" Scenarios.w0).1
     = Ok [Scenarios.url_A; windowed "2024-02-16"]
  /\ spec_start_period Monthly today 60 = "2014-06"
  /\ windowed "2024-02-16" <> windowed (spec_start_period Monthly today 60)
  /\ windowed "2024-02-16" <> windowed (spec_start_period Quarterly today 60)
  /\ windowed "2024-02-16" <> windowed (spec_start_period Annual today 60).
Proof.
  cbv zeta. repeat apply conj; try (vm_compute; reflexivity); vm_compute; discriminate.
Qed.

(** C2, as the code has it. For every dataset, the windowed URL asks for the
    observations since the calendar date that lies 2 N days before the
    current UTC date, written YYYY-MM-DD; the period granularity of the
    dataset plays no part. *)
Theorem windowed_url_start_period
    (env : Env) (ds kp : string) (n : Z) (fmt : string) (w : World) :
  let today := EPOCH_ORDINAL + env_utcnow env (clock w) / 86400 in
  let start := ord2ymd (today - n * 2) in
  Z.abs (n * 2) <= MAX_DELTA_DAYS ->
  MINORDINAL <= today - n * 2 <= MAXORDINAL ->
  build_oecd_urls env ds kp n fmt w
  = (Ok [url_base ds kp ++ "?" ++ params_common fmt ++ "&lastNObservations=" ++ str_int n;
         url_base ds kp ++ "?" ++ params_common fmt ++ "&startPeriod="
         ++ pad4 start.1.1 ++ "-" ++ pad2 start.1.2 ++ "-" ++ pad2 start.2],
     w)
  /\ ymd2ord start.1.1 start.1.2 start.2 + 2 * n = today
  /\ 1 <= start.1.2 <= 12
  /\ 1 <= start.2 <= days_in_month start.1.1 start.1.2.
Proof.
  intros today start Hdelta Hrange.
  destruct (ymd2ord_ord2ymd (today - n * 2)) as (Hord & Hm & Hd). fold start in Hord, Hm, Hd.
  split; [|split; [lia|by split]].
  unfold build_oecd_urls, bind, utcnow, timedelta_days, datetime_sub_date, ret.
  cbn [utc_of_posix dt_ordinal]. fold today.
  rewrite (proj2 (Z.leb_le _ _) Hdelta).
  rewrite (proj2 (Z.leb_le _ _) (proj1 Hrange)), (proj2 (Z.leb_le _ _) (proj2 Hrange)).
  cbn [andb]. unfold isoformat. fold start.
  by destruct start as [[y m] d].
Qed.

Lemma windowed_url_start_period_witness :
  (build_oecd_urls Scenarios.env_ok "MEI" "all" 60 "csv" Scenarios.w0).1
  = Ok [Scenarios.url_A; Scenarios.url_B]
  /\ ymd2ord 2024 2 16 + 2 * 60 = ymd2ord 2024 6 15.
Proof.
  pose proof (windowed_url_start_period Scenarios.env_ok "MEI" "all" 60 "csv" Scenarios.w0
                ltac:(vm_compute; discriminate)
                ltac:(split; vm_compute; discriminate)) as (Hurls & Hord & _).
  split.
  - rewrite Hurls. vm_compute. reflexivity.
  - vm_compute in Hord. vm_compute. exact Hord.
Defined.

(** * Further properties *)

Import PyStr Entry Budget.

(** ** Cost of a fetch *)

Lemma requests_app evs1 evs2 : requests (evs1 ++ evs2) = (requests evs1 + requests evs2)%nat.
Proof. unfold requests. by rewrite List.filter_app, length_app. Qed.

Lemma total_sleep_app evs1 evs2 :
  total_sleep (evs1 ++ evs2) = total_sleep evs1 + total_sleep evs2.
Proof.
  unfold total_sleep. induction evs1 as [|ev evs1 IH]; cbn [app foldr]; [lia|].
  rewrite IH. lia.
Qed.

(** X1. For any number of attempts, [http_get] leaves the ledger and the
    archive alone, issues at most [retries] GETs, all of its URL, and every
    sleep lasts twice the number of an attempt between 1 and [retries]; with
    no attempt at all it makes no call and raises the TypeError of
    [raise None]. *)
Theorem http_get_bounded (env : Env) (url : string) (retries : Z) (w : World) :
  (exists evs,
      (http_get env url retries w).2 = after evs w
      /\ (requests evs <= Z.to_nat retries)%nat
      /\ Forall (fun ev => ev = Urlopen url
                           \/ exists a, 1 <= a <= retries /\ ev = Sleep (2 * a)) evs)
  /\ (forall k : nat,
        http_get env url (- Z.of_nat k) w
        = (Raise (PyError "TypeError" "exceptions must derive from BaseException"), w)).
Proof.
  split.
  - destruct (http_get_loop_frame env url (seqZ 1 retries) None w) as (evs & Hw & Hall & Hcnt).
    exists evs. split; [exact Hw|]. split.
    + unfold requests. rewrite length_seqZ in Hcnt. exact Hcnt.
    + eapply Forall_impl; [exact Hall|]. intros ev [->|(a & Ha & ->)]; [by left|].
      right. exists a. split; [|done]. apply elem_of_seqZ in Ha. lia.
  - intros k. unfold http_get.
    replace (seqZ 1 (- Z.of_nat k)) with (@nil Z); [reflexivity|].
    symmetry. apply length_zero_iff_nil. rewrite length_seqZ. lia.
Qed.

(** The loop of [http_get] when every answer is a transient failure. *)
Lemma http_get_loop_all_transient env url :
  (forall t, retryable (env_urlopen env t url) = true) ->
  forall attempts last w,
  exists evs,
    http_get_loop env url attempts last w
    = (match attempts with
       | [] => (raise_last last w).1
       | _ :: _ => env_urlopen env (2 * (length attempts - 1) + clock w)%nat url
       end,
       after evs w)
    /\ requests evs = length attempts
    /\ length evs = (2 * length attempts)%nat
    /\ total_sleep evs = 2 * foldr Z.add 0 attempts.
Proof.
  intros Hall attempts. induction attempts as [|a rest IH]; intros last w.
  - exists []. cbn [http_get_loop]. split; [|done].
    unfold raise_last. destruct last; cbn; unfold after; by destruct w.
  - rewrite http_get_loop_step, Hall.
    destruct (IH (match env_urlopen env (clock w) url with
                  | Raise e => Some e | Ok _ => last end)
                (after [Sleep (2 * a); Urlopen url] w)) as (evs & Hrun & Hreq & Hlen & Hsleep).
    exists (evs ++ [Sleep (2 * a); Urlopen url])%list.
    rewrite Hrun, after_after. split; [f_equal|].
    + destruct rest as [|b rest'].
      * cbn [length]. replace (2 * (1 - 1) + clock w)%nat with (clock w) by lia.
        pose proof (Hall (clock w)) as Hr.
        destruct (env_urlopen env (clock w) url) as [body|e]; [discriminate|]. reflexivity.
      * rewrite clock_after. cbn [length]. f_equal. lia.
    + rewrite requests_app, length_app, total_sleep_app, Hreq, Hlen, Hsleep.
      cbn. lia.
Qed.

(** X2. When every answer is a transient failure, [http_get] with n >= 1
    attempts makes exactly n GETs, raises the error of the last one, and has
    slept n(n+1) seconds by then, the 2n seconds after the last attempt
    included. *)
Theorem http_get_all_transient (env : Env) (url : string) (n : nat) (w : World) :
  (forall t, retryable (env_urlopen env t url) = true) ->
  (1 <= n)%nat ->
  exists evs,
    http_get env url (Z.of_nat n) w
    = (env_urlopen env (2 * (n - 1) + clock w)%nat url, after evs w)
    /\ requests evs = n
    /\ total_sleep evs = Z.of_nat n * (Z.of_nat n + 1).
Proof.
  intros Hall Hn. unfold http_get.
  destruct (http_get_loop_all_transient env url Hall (seqZ 1 (Z.of_nat n)) None w)
    as (evs & Hrun & Hreq & _ & Hsleep).
  exists evs. rewrite Hrun, length_seqZ, Nat2Z.id in *.
  assert (Hsum : forall k m, 2 * foldr Z.add 0 (seqZ m (Z.of_nat k))
                             = Z.of_nat k * (2 * m + Z.of_nat k - 1)).
  { clear. induction k as [|k IH]; intros m; [done|].
    rewrite Nat2Z.inj_succ, seqZ_cons by lia. cbn [foldr].
    replace (Z.pred (Z.succ (Z.of_nat k))) with (Z.of_nat k) by lia.
    specialize (IH (Z.succ m)). lia. }
  split; [|split; [exact Hreq|]].
  - destruct (seqZ 1 (Z.of_nat n)) eqn:Hseq; [|reflexivity].
    apply (f_equal length) in Hseq. rewrite length_seqZ in Hseq. cbn in Hseq. lia.
  - rewrite Hsleep, Hsum. lia.
Qed.

Lemma http_get_all_transient_witness :
  exists evs,
    http_get Scenarios.env_500 Scenarios.url_A 3 Scenarios.w0
    = (Raise (HTTPError 500 "Internal Server Error"), after evs Scenarios.w0)
    /\ requests evs = 3%nat
    /\ total_sleep evs = 12.
Proof.
  exact (http_get_all_transient Scenarios.env_500 Scenarios.url_A 3 Scenarios.w0
           (fun _ => eq_refl) (le_S _ _ (le_S _ _ (le_n 1)))).
Defined.

Lemma http_get_cost env url w :
  exists evs,
    (http_get env url 3 w).2 = after evs w
    /\ (1 <= requests evs <= 3)%nat
    /\ 0 <= total_sleep evs <= 12
    /\ Forall (fun ev => is_net ev = true) evs.
Proof.
  rewrite http_get_three.
  repeat match goal with |- context [if negb ?b then _ else _] => destruct b; cbn [negb] end;
    cbn [snd]; eexists; (split; [reflexivity|]); cbn;
    (split; [lia|]); (split; [lia|]); repeat constructor.
Qed.

Lemma fetch_loop_cost env ds kp urls : forall acc w,
  exists evs,
    (fetch_loop env ds kp urls acc w).2 = after evs w
    /\ (requests evs <= 3 * length urls)%nat
    /\ 0 <= total_sleep evs <= 12 * Z.of_nat (length urls)
    /\ Forall (fun ev => is_net ev = true) evs.
Proof.
  induction urls as [|url rest IH]; intros acc w.
  - exists []. cbn. split; [by destruct w|]. repeat split; (lia || constructor).
  - rewrite fetch_loop_step.
    destruct (http_get_cost env url w) as (evs & Hw & Hreq & Hsleep & Hnet).
    assert (Hmore : forall acc', exists evs',
               (fetch_loop env ds kp rest acc' (after evs w)).2 = after evs' w
               /\ (requests evs' <= 3 * length (url :: rest))%nat
               /\ 0 <= total_sleep evs' <= 12 * Z.of_nat (length (url :: rest))
               /\ Forall (fun ev => is_net ev = true) evs').
    { intros acc'. destruct (IH acc' (after evs w)) as (evs' & Hw' & Hreq' & Hsleep' & Hnet').
      exists (evs' ++ evs)%list. rewrite Hw', after_after, requests_app, total_sleep_app.
      cbn [length]. split; [done|]. split; [lia|]. split; [lia|]. by apply Forall_app. }
    destruct (http_get env url 3 w) as [[blob|e] w1]; cbn [snd] in Hw; subst w1.
    + destruct (too_short blob); [apply Hmore|].
      exists evs. cbn [snd length]. split; [done|]. split; [lia|]. split; [lia|done].
    + apply Hmore.
Qed.

(** X3. Fetching one dataset costs at most six GETs and at most 24 seconds
    of sleep, and it makes no call on the ledger or the archive, whose
    contents it leaves as they were. *)
Theorem fetch_oecd_cost (env : Env) (ds kp : string) (n : Z) (fmt : string) (w : World) :
  exists evs,
    (fetch_oecd env ds kp n fmt w).2 = after evs w
    /\ (requests evs <= 6)%nat
    /\ 0 <= total_sleep evs <= 24
    /\ Forall (fun ev => is_net ev = true) evs.
Proof.
  rewrite fetch_oecd_unfold.
  destruct (build_oecd_urls env ds kp n fmt w) as [[urls|e] w1] eqn:Hb.
  - apply build_oecd_urls_two in Hb.
    destruct (fetch_loop_cost env ds kp urls [] w) as (evs & Hw & Hreq & Hsleep & Hnet).
    exists evs. rewrite Hb in *. split; [done|]. split; [lia|]. split; [lia|done].
  - exists []. cbn. split; [by destruct w|]. repeat split; (lia || constructor).
Qed.

(** ** An observation window too large for the calendar *)





(** ** Calls and effects of [put_if_new] *)

Lemma trace_after evs w : trace (after evs w) = (evs ++ trace w)%list.
Proof. reflexivity. Qed.

(** X5. One call of [put_if_new] makes at most one ledger read, at most one
    ledger write and at most one archive write, no network call, and no
    ledger call at all when no table is configured. *)
Theorem put_if_new_call_budget
    (env : Env) (ds url : string) (raw : bytes) (bucket pfx fmt : string)
    (gz : bool) (tbl : option string) (w : World) :
  exists evs,
    trace (put_if_new env ds url raw bucket pfx fmt gz tbl w).2 = (evs ++ trace w)%list
    /\ (count is_get_item evs <= 1)%nat
    /\ (count is_put_item evs <= 1)%nat
    /\ (count is_put_object evs <= 1)%nat
    /\ count is_net evs = 0%nat
    /\ (count is_ledger_call evs
        <= match table_enabled tbl with Some _ => 2 | None => 0 end)%nat.
Proof.
  rewrite put_if_new_unfold. unfold archive_step.
  destruct (table_enabled tbl) as [table|].
  - destruct (env_get_item env (clock w)) as [e|].
    { exists [GetItem table ds]. cbn. repeat split; lia. }
    destruct (same_hash _ _).
    { exists [GetItem table ds]. cbn. repeat split; lia. }
    destruct (env_put_item env _) as [e|].
    { eexists [PutItem table _; GetItem table ds]. cbn. repeat split; lia. }
    destruct (body_at env _ raw gz) as [[body ce]|e].
    + destruct (env_put_object env _) as [e|].
      * eexists [PutObject _ _ _; PutItem table _; GetItem table ds]. cbn. repeat split; lia.
      * eexists [PutObject _ _ _; PutItem table _; GetItem table ds]. cbn. repeat split; lia.
    + eexists [PutItem table _; GetItem table ds]. cbn. repeat split; lia.
  - destruct (body_at env _ raw gz) as [[body ce]|e].
    + destruct (env_put_object env _) as [e|].
      * eexists [PutObject _ _ _]. cbn. repeat split; lia.
      * eexists [PutObject _ _ _]. cbn. repeat split; lia.
    + exists []. cbn. repeat split; lia.
Qed.

(** X6. When the ledger read raises, or the read succeeds on a novel payload
    and the ledger write raises, [put_if_new] raises that exception without
    any archive write; ledger and archive are as before. *)
Theorem put_if_new_ledger_fault
    (env : Env) (ds url : string) (raw : bytes) (bucket pfx fmt : string)
    (gz : bool) (table : string) (w : World) (e : Exn) :
  table <> "" ->
  (env_get_item env (clock w) = Some e ->
   put_if_new env ds url raw bucket pfx fmt gz (Some table) w
   = (Raise e, after [GetItem table ds] w))
  /\ (env_get_item env (clock w) = None ->
      same_hash (ddb w !! (table, ds)) (sha256 raw) = false ->
      env_put_item env (1 + clock w)%nat = Some e ->
      put_if_new env ds url raw bucket pfx fmt gz (Some table) w
      = (Raise e,
         after [PutItem table (row_at (env_utcnow env (clock w)) ds url raw);
                GetItem table ds] w)).
Proof.
  intros Htable. rewrite put_if_new_unfold, (table_enabled_some _ Htable). split.
  - by intros ->.
  - intros -> -> Hput. change (S (clock w)) with (1 + clock w)%nat. by rewrite Hput.
Qed.

Lemma put_if_new_ledger_fault_witness :
  put_if_new Cases.env_read_down "MEI" Scenarios.url_A Scenarios.P1 "bkt" "oecd/raw" "csv"
    false (Some "T") Scenarios.w0
  = (Raise (PyError "ClientError" "ProvisionedThroughputExceededException"),
     after [GetItem "T" "MEI"] Scenarios.w0)
  /\ (put_if_new Cases.env_write_down "MEI" Scenarios.url_A Scenarios.P1 "bkt" "oecd/raw"
        "csv" false (Some "T") Scenarios.w0).1
     = Raise (PyError "ClientError" "AccessDeniedException").
Proof.
  split.
  - apply (proj1 (put_if_new_ledger_fault Cases.env_read_down "MEI" Scenarios.url_A
                    Scenarios.P1 "bkt" "oecd/raw" "csv" false "T" Scenarios.w0 _
                    ltac:(discriminate))).
    reflexivity.
  - rewrite (proj2 (put_if_new_ledger_fault Cases.env_write_down "MEI" Scenarios.url_A
                      Scenarios.P1 "bkt" "oecd/raw" "csv" false "T" Scenarios.w0
                      (PyError "ClientError" "AccessDeniedException")
                      ltac:(discriminate)) eq_refl eq_refl eq_refl).
    reflexivity.
Defined.

(** A stored result, with the object it stands for. *)
Lemma put_if_new_stored env ds url raw bucket pfx fmt gz tbl w r w' :
  put_if_new env ds url raw bucket pfx fmt gz tbl w = (Ok r, w') ->
  r !! "stored" = Some (VBool true) ->
  exists body ce t w1,
    body_at env t raw gz = Ok (body, ce)
    /\ r = stored_result (key_at (env_utcnow env (clock w)) pfx ds fmt raw) (sha256 raw) url
    /\ s3 w' = <[(bucket, key_at (env_utcnow env (clock w)) pfx ds fmt raw)
                 := archive_object body ce fmt (sha256 raw) url]> (s3 w)
    /\ w' = {| trace := PutObject bucket (key_at (env_utcnow env (clock w)) pfx ds fmt raw)
                          (archive_object body ce fmt (sha256 raw) url) :: trace w1;
               ddb := ddb w1;
               s3 := <[(bucket, key_at (env_utcnow env (clock w)) pfx ds fmt raw)
                       := archive_object body ce fmt (sha256 raw) url]> (s3 w) |}
    /\ (w1 = w /\ table_enabled tbl = None
        \/ exists table,
            table_enabled tbl = Some table
            /\ w1 = {| trace := PutItem table (row_at (env_utcnow env (clock w)) ds url raw)
                                :: GetItem table ds :: trace w;
                       ddb := <[(table, ds) := row_at (env_utcnow env (clock w)) ds url raw]>
                                (ddb w);
                       s3 := s3 w |}).
Proof.
  rewrite put_if_new_unfold. unfold archive_step.
  destruct (table_enabled tbl) as [table|].
  - destruct (env_get_item env (clock w)); [discriminate|].
    destruct (same_hash _ _).
    { intros [= <- <-]. by rewrite unchanged_result_stored. }
    destruct (env_put_item env _); [discriminate|].
    destruct (body_at env _ raw gz) as [[body ce]|e] eqn:Hbody; [|discriminate].
    destruct (env_put_object env _); [discriminate|].
    intros [= <- <-] _.
    eexists body, ce, _,
      {| trace := PutItem table (row_at (env_utcnow env (clock w)) ds url raw)
                  :: GetItem table ds :: trace w;
         ddb := <[(table, ds) := row_at (env_utcnow env (clock w)) ds url raw]> (ddb w);
         s3 := s3 w |}.
    split; [exact Hbody|].
    split; [reflexivity|]. split; [reflexivity|]. split; [reflexivity|].
    right. by exists table.
  - destruct (body_at env _ raw gz) as [[body ce]|e] eqn:Hbody; [|discriminate].
    destruct (env_put_object env _); [discriminate|].
    intros [= <- <-] _. eexists body, ce, _, w. split; [exact Hbody|].
    split; [reflexivity|]. split; [reflexivity|]. split; [reflexivity|].
    by left.
Qed.

(** X7. A stored result points at the object just written: under its s3_key
    the archive holds an object whose metadata give the URL and the digest of
    the uncompressed payload, the same URL and digest as the result; its
    content type follows the format; with compression off its body is the
    payload itself and it has no content encoding, with compression on its
    body is what gzip made of the payload and its content encoding is
    gzip. *)
Theorem stored_object_integrity
    (env : Env) (ds url : string) (raw : bytes) (bucket pfx fmt : string)
    (gz : bool) (tbl : option string) (w : World) (r : Dict) (w' : World) :
  put_if_new env ds url raw bucket pfx fmt gz tbl w = (Ok r, w') ->
  r !! "stored" = Some (VBool true) ->
  exists key obj,
    r !! "s3_key" = Some (VStr key)
    /\ s3 w' !! (bucket, key) = Some obj
    /\ r !! "hash" = Some (VStr (sha256 raw))
    /\ r !! "url" = Some (VStr url)
    /\ Metadata obj !! "sha256" = Some (sha256 raw)
    /\ Metadata obj !! "oecd_source_url" = Some url
    /\ dom (Metadata obj) = {[ "sha256"; "oecd_source_url" ]}
    /\ ContentType obj = (if String.eqb fmt "csv" then "text/csv" else "application/json")
    /\ (if gz
        then ContentEncoding obj = Some "gzip" /\ exists t, env_gzip env t raw = Ok (Body obj)
        else ContentEncoding obj = None /\ Body obj = raw).
Proof.
  intros Hrun Hstored.
  destruct (put_if_new_stored _ _ _ _ _ _ _ _ _ _ _ _ Hrun Hstored)
    as (body & ce & t & w1 & Hbody & -> & Hs3 & _ & _).
  eexists _, (archive_object body ce fmt (sha256 raw) url).
  split; [apply stored_result_s3_key|].
  split; [by rewrite Hs3, lookup_insert_eq|].
  split. { unfold stored_result. rewrite !lookup_insert_ne by discriminate. apply lookup_insert_eq. }
  split. { unfold stored_result. rewrite !lookup_insert_ne by discriminate. apply lookup_insert_eq. }
  cbn [archive_object Metadata ContentType ContentEncoding Body].
  split. { rewrite lookup_insert_ne by discriminate. apply lookup_insert_eq. }
  split. { apply lookup_insert_eq. }
  split. { rewrite !dom_insert_L, dom_empty_L. set_solver. }
  split; [reflexivity|].
  unfold body_at in Hbody. destruct gz.
  - destruct (env_gzip env t raw) as [out|e] eqn:Hz; [|discriminate].
    injection Hbody as <- <-. split; [done|]. by exists t.
  - by injection Hbody as <- <-.
Qed.

Lemma stored_object_integrity_witness :
  exists key obj,
    s3 (put_if_new Scenarios.env_ok "MEI" Scenarios.url_A Scenarios.P1 "bkt" "oecd/raw" "csv"
          false None Scenarios.w0).2 !! ("bkt", key) = Some obj
    /\ Metadata obj !! "sha256" = Some (sha256 Scenarios.P1)
    /\ Body obj = Scenarios.P1.
Proof.
  destruct (stored_object_integrity Scenarios.env_ok "MEI" Scenarios.url_A Scenarios.P1 "bkt"
              "oecd/raw" "csv" false None Scenarios.w0
              (stored_result "oecd/raw/MEI/20240615/MEI_20240615T123045Z_45c331a07835.csv"
                 (sha256 Scenarios.P1) Scenarios.url_A)
              (put_if_new Scenarios.env_ok "MEI" Scenarios.url_A Scenarios.P1 "bkt"
                 "oecd/raw" "csv" false None Scenarios.w0).2
              ltac:(vm_compute; reflexivity) ltac:(vm_compute; reflexivity))
    as (key & obj & _ & Hs3 & _ & _ & Hmeta & _ & _ & _ & _ & Hbody).
  exists key, obj. by repeat split.
Defined.

(** X8. With the ledger enabled, a stored result and the ledger row written
    for it carry the same instant, the UTC clock read at the start of the
    call. The row's last_run is the timestamp YYYYMMDDTHHMMSSZ of that
    instant; the archive key of the result is
    prefix/dataset/YYYYMMDD/dataset_timestamp_digest[:12].ext with that same
    timestamp and with the date it starts with as the day directory. The
    row's dataset, last_hash and last_url are the dataset, the hash and the
    url of the result, and the row has no other field. *)
Theorem ledger_row_matches_key
    (env : Env) (ds url : string) (raw : bytes) (bucket pfx fmt : string)
    (gz : bool) (table : string) (w : World) (r : Dict) (w' : World) :
  table <> "" ->
  put_if_new env ds url raw bucket pfx fmt gz (Some table) w = (Ok r, w') ->
  r !! "stored" = Some (VBool true) ->
  let t := env_utcnow env (clock w) in
  let ymd := ord2ymd (EPOCH_ORDINAL + t / 86400) in
  let date := pad4 ymd.1.1 ++ pad2 ymd.1.2 ++ pad2 ymd.2 in
  let ts := date ++ "T" ++ pad2 (t mod 86400 / 3600) ++ pad2 ((t mod 86400) mod 3600 / 60)
            ++ pad2 ((t mod 86400) mod 60) ++ "Z" in
  exists row,
    ddb w' !! (table, ds) = Some row
    /\ row !! "last_run" = Some ts
    /\ row !! "last_hash" = Some (sha256 raw)
    /\ row !! "last_url" = Some url
    /\ row !! "dataset" = Some ds
    /\ dom row = {[ "dataset"; "last_hash"; "last_url"; "last_run" ]}
    /\ r !! "s3_key"
       = Some (VStr (rstrip_slash pfx ++ "/" ++ ds ++ "/" ++ date ++ "/"
                     ++ ds ++ "_" ++ ts ++ "_" ++ prefix 12 (sha256 raw) ++ "."
                     ++ (if String.eqb fmt "csv" then "csv" else "json")))
    /\ r !! "hash" = Some (VStr (sha256 raw))
    /\ r !! "url" = Some (VStr url).
Proof.
  intros Htable Hrun Hstored t ymd date ts.
  destruct (put_if_new_stored _ _ _ _ _ _ _ _ _ _ _ _ Hrun Hstored)
    as (body & ce & t' & w1 & _ & -> & _ & -> & [[_ Hoff]|(table' & Hon & ->)]).
  { rewrite (table_enabled_some _ Htable) in Hoff. discriminate. }
  rewrite (table_enabled_some _ Htable) in Hon. injection Hon as <-.
  fold t.
  assert (Hts : strftime_YmdTHMSZ (utc_of_posix t) = ts).
  { unfold strftime_YmdTHMSZ, strftime_Ymd, utc_of_posix.
    cbn [dt_ordinal dt_hour dt_minute dt_second]. subst ts date ymd.
    destruct (ord2ymd (EPOCH_ORDINAL + t / 86400)) as [[y m] d]. reflexivity. }
  assert (Hdate : strftime_Ymd (utc_of_posix t) = date).
  { unfold strftime_Ymd, utc_of_posix. cbn [dt_ordinal]. subst date ymd.
    destruct (ord2ymd (EPOCH_ORDINAL + t / 86400)) as [[y m] d]. reflexivity. }
  exists (row_at t ds url raw). cbn [ddb].
  split; [apply lookup_insert_eq|].
  unfold row_at, ledger_item. rewrite Hts.
  split; [rewrite !lookup_insert_ne by discriminate; apply lookup_insert_eq|].
  split; [rewrite !lookup_insert_ne by discriminate; apply lookup_insert_eq|].
  split; [rewrite !lookup_insert_ne by discriminate; apply lookup_insert_eq|].
  split; [apply lookup_insert_eq|].
  split; [rewrite !dom_insert_L, dom_empty_L; set_solver|].
  split.
  { rewrite stored_result_s3_key. unfold key_at, s3_key, ext_of. fold t.
    rewrite Hts, Hdate. reflexivity. }
  split; unfold stored_result; rewrite !lookup_insert_ne by discriminate; apply lookup_insert_eq.
Qed.

Lemma ledger_row_matches_key_witness :
  let w' := (put_if_new Scenarios.env_ok "MEI" Scenarios.url_A Scenarios.P1 "bkt" "oecd/raw"
               "csv" false (Some "T") Scenarios.w0).2 in
  exists row,
    ddb w' !! ("T", "MEI") = Some row
    /\ row !! "last_run" = Some "20240615T123045Z".
Proof.
  destruct (ledger_row_matches_key Scenarios.env_ok "MEI" Scenarios.url_A Scenarios.P1 "bkt"
              "oecd/raw" "csv" false "T" Scenarios.w0
              (stored_result "oecd/raw/MEI/20240615/MEI_20240615T123045Z_45c331a07835.csv"
                 (sha256 Scenarios.P1) Scenarios.url_A)
              (put_if_new Scenarios.env_ok "MEI" Scenarios.url_A Scenarios.P1 "bkt"
                 "oecd/raw" "csv" false (Some "T") Scenarios.w0).2
              ltac:(discriminate) ltac:(vm_compute; reflexivity)
              ltac:(vm_compute; reflexivity))
    as (row & Hrow & Hrun & _).
  exists row. split; [exact Hrow|]. exact Hrun.
Defined.

(** ** Only the last digest is remembered *)

Lemma body_at_up env t raw gz :
  storage_up env -> exists body ce, body_at env t raw gz = Ok (body, ce).
Proof.
  intros (_ & _ & Hgz). unfold body_at. destruct gz; [|by eexists _, _].
  destruct (Hgz t raw) as [z ->]. by eexists _, _.
Qed.

Lemma put_if_new_novel_up env ds url raw bucket pfx fmt gz table w :
  storage_up env ->
  table <> "" ->
  same_hash (ddb w !! (table, ds)) (sha256 raw) = false ->
  exists key obj row,
    put_if_new env ds url raw bucket pfx fmt gz (Some table) w
    = (Ok (stored_result key (sha256 raw) url),
       {| trace := PutObject bucket key obj :: PutItem table row :: GetItem table ds :: trace w;
          ddb := <[(table, ds) := row]> (ddb w);
          s3 := <[(bucket, key) := obj]> (s3 w) |})
    /\ row !! "last_hash" = Some (sha256 raw).
Proof.
  intros Hup Htable Hnew. pose proof Hup as (Hledger & Hobj & _).
  rewrite put_if_new_unfold, (table_enabled_some _ Htable), (proj1 (Hledger _)), Hnew,
    (proj2 (Hledger _)).
  unfold archive_step.
  destruct (body_at_up env
              (clock {| trace := PutItem table (row_at (env_utcnow env (clock w)) ds url raw)
                                 :: GetItem table ds :: trace w;
                        ddb := <[(table, ds) := row_at (env_utcnow env (clock w)) ds url raw]>
                                 (ddb w);
                        s3 := s3 w |}) raw gz Hup) as (body & ce & ->).
  rewrite Hobj. eexists _, _, _. split; [reflexivity|]. apply ledger_item_last_hash.
Qed.

Lemma same_hash_differs w table ds raw it :
  ddb w !! (table, ds) = Some it ->
  it !! "last_hash" <> Some (sha256 raw) ->
  same_hash (ddb w !! (table, ds)) (sha256 raw) = false.
Proof. intros Hit Hne. apply same_hash_other. right. by exists it. Qed.

(** X9. The ledger remembers one digest per dataset. If the last archived
    payload was A, then B arrives and then A again, both are archived: the
    return of A is novel although A was archived before, and the row ends on
    the digest of A. *)
Theorem reverted_payload_is_archived_again
    (env : Env) (ds url : string) (A B : bytes) (bucket pfx fmt : string)
    (gz : bool) (table : string) (w : World) :
  storage_up env ->
  table <> "" ->
  sha256 A <> sha256 B ->
  holds_digest w table ds A ->
  let first := put_if_new env ds url B bucket pfx fmt gz (Some table) w in
  let second := put_if_new env ds url A bucket pfx fmt gz (Some table) first.2 in
  (exists key, first.1 = Ok (stored_result key (sha256 B) url))
  /\ (exists key, second.1 = Ok (stored_result key (sha256 A) url))
  /\ archive_writes second.2 = S (S (archive_writes w))
  /\ holds_digest second.2 table ds A.
Proof.
  intros Hup Htable Hab (it & Hit & Hh) first second. subst first second.
  destruct (put_if_new_novel_up env ds url B bucket pfx fmt gz table w Hup Htable)
    as (k1 & o1 & row1 & -> & Hrow1).
  { eapply same_hash_differs; [exact Hit|]. rewrite Hh. congruence. }
  cbn [fst snd].
  destruct (put_if_new_novel_up env ds url A bucket pfx fmt gz table
              {| trace := PutObject bucket k1 o1 :: PutItem table row1 :: GetItem table ds
                          :: trace w;
                 ddb := <[(table, ds) := row1]> (ddb w);
                 s3 := <[(bucket, k1) := o1]> (s3 w) |} Hup Htable)
    as (k2 & o2 & row2 & -> & Hrow2).
  { eapply same_hash_differs; [cbn [ddb]; apply lookup_insert_eq|]. rewrite Hrow1. congruence. }
  cbn [fst snd]. split; [by exists k1|]. split; [by exists k2|]. split; [reflexivity|].
  exists row2. cbn [ddb]. by rewrite lookup_insert_eq.
Qed.

Lemma reverted_payload_is_archived_again_witness :
  let first :=
    put_if_new Scenarios.env_ok "MEI" Scenarios.url_A Scenarios.P2 "bkt" "oecd/raw" "csv"
      false (Some "T") Scenarios.w_seen_P1 in
  let second :=
    put_if_new Scenarios.env_ok "MEI" Scenarios.url_A Scenarios.P1 "bkt" "oecd/raw" "csv"
      false (Some "T") first.2 in
  archive_writes second.2 = 2%nat.
Proof.
  refine (proj1 (proj2 (proj2 (reverted_payload_is_archived_again Scenarios.env_ok "MEI"
                                 Scenarios.url_A Scenarios.P1 Scenarios.P2 "bkt" "oecd/raw"
                                 "csv" false "T" Scenarios.w_seen_P1 _ _ _ _)))).
  - split; [intros t; by split|]. split; [done|]. intros t b. by exists b.
  - discriminate.
  - vm_compute. discriminate.
  - eexists. split; vm_compute; reflexivity.
Defined.

(** ** What a run leaves untouched *)

Lemma put_if_new_stores env ds url raw bucket pfx fmt gz tbl w :
  (ddb (put_if_new env ds url raw bucket pfx fmt gz tbl w).2 = ddb w
   \/ exists table row,
       table_enabled tbl = Some table
       /\ ddb (put_if_new env ds url raw bucket pfx fmt gz tbl w).2
          = <[(table, ds) := row]> (ddb w))
  /\ (s3 (put_if_new env ds url raw bucket pfx fmt gz tbl w).2 = s3 w
      \/ exists key obj,
          s3 (put_if_new env ds url raw bucket pfx fmt gz tbl w).2
          = <[(bucket, key) := obj]> (s3 w)).
Proof.
  rewrite put_if_new_unfold. unfold archive_step.
  destruct (table_enabled tbl) as [table|].
  - destruct (env_get_item env (clock w)); [by split; left|].
    destruct (same_hash _ _); [by split; left|].
    destruct (env_put_item env _); [by split; left|].
    destruct (body_at env _ raw gz) as [[body ce]|e].
    + destruct (env_put_object env _); (split; [right; by eexists _, _|]);
        [by left | right; by eexists _, _].
    + split; [right; by eexists _, _ | by left].
  - destruct (body_at env _ raw gz) as [[body ce]|e]; [|by split; left].
    destruct (env_put_object env _); (split; [by left|]); [by left | right; by eexists _, _].
Qed.

Lemma ingest_one_stores env cfg ds w :
  (ddb (ingest_one env cfg ds w).2 = ddb w
   \/ exists table row,
       table_enabled (cfg_ddb_table cfg) = Some table
       /\ ddb (ingest_one env cfg ds w).2 = <[(table, ds) := row]> (ddb w))
  /\ (s3 (ingest_one env cfg ds w).2 = s3 w
      \/ exists key obj,
          s3 (ingest_one env cfg ds w).2 = <[(cfg_s3_bucket cfg, key) := obj]> (s3 w)).
Proof.
  rewrite ingest_one_unfold.
  destruct (fetch_oecd_frame env ds (key_path_of cfg ds) (cfg_last_n_obs cfg) (cfg_fmt cfg) w)
    as (evs & Hw1 & _).
  destruct (fetch_oecd env ds _ _ _ w) as [[[raw url]|e] w1]; cbn [snd] in Hw1; subst w1;
    [|by split; left].
  pose proof (put_if_new_stores env ds url raw (cfg_s3_bucket cfg) (cfg_s3_prefix cfg)
                (cfg_fmt cfg) (cfg_gzip_output cfg) (cfg_ddb_table cfg) (after evs w)) as H.
  destruct (put_if_new env ds url raw _ _ _ _ _ (after evs w)) as [[out|e] w2]; exact H.
Qed.

(** X10. A run removes no key: every archive key and every ledger key that
    holds a value before the run holds one after it, though not always the
    same one, since a row is rewritten for each novel payload and an object
    is replaced when a later payload gets its key. What lies outside the
    run's scope is left exactly as it was: the objects of every bucket but
    the configured one, and the rows of every table but the configured one
    and of every dataset that is not configured. *)
Theorem run_removes_no_key_and_stays_in_scope (env : Env) (cfg : Config) (w : World) :
  let w' := (lambda_handler env cfg w).2 in
  (forall k, is_Some (s3 w !! k) -> is_Some (s3 w' !! k))
  /\ (forall k, is_Some (ddb w !! k) -> is_Some (ddb w' !! k))
  /\ (forall bucket key,
        bucket <> cfg_s3_bucket cfg -> s3 w' !! (bucket, key) = s3 w !! (bucket, key))
  /\ (forall table ds,
        table_enabled (cfg_ddb_table cfg) <> Some table \/ ds ∉ cfg_datasets cfg ->
        ddb w' !! (table, ds) = ddb w !! (table, ds)).
Proof.
  cbv zeta. rewrite (proj2 (proj2 (lambda_handler_results env cfg w))).
  generalize (cfg_datasets cfg). intros dss. revert w.
  induction dss as [|d rest IH]; intros w; [by repeat split|].
  rewrite ingest_all_cons. cbn [snd].
  destruct (IH (ingest_one env cfg d w).2) as (IH1 & IH2 & IH3 & IH4).
  destruct (ingest_one_stores env cfg d w) as (Hddb & Hs3).
  split; [|split; [|split]].
  - intros k Hk. apply IH1.
    destruct Hs3 as [->|(key & obj & ->)]; [done|].
    destruct (decide ((cfg_s3_bucket cfg, key) = k)) as [<-|Hne].
    + rewrite lookup_insert_eq. by eexists.
    + by rewrite lookup_insert_ne.
  - intros k Hk. apply IH2.
    destruct Hddb as [->|(table & row & _ & ->)]; [done|].
    destruct (decide ((table, d) = k)) as [<-|Hne].
    + rewrite lookup_insert_eq. by eexists.
    + by rewrite lookup_insert_ne.
  - intros bucket key Hb. rewrite (IH3 bucket key Hb).
    destruct Hs3 as [->|(key' & obj & ->)]; [done|].
    rewrite lookup_insert_ne; [done|]. congruence.
  - intros table ds Hout. rewrite (IH4 table ds).
    + destruct Hddb as [->|(table' & row & Hon & ->)]; [done|].
      rewrite lookup_insert_ne; [done|]. intros [= -> ->].
      destruct Hout as [Hout|Hout]; [done|]. apply Hout, elem_of_cons. by left.
    + destruct Hout as [Hout|Hout]; [by left|]. right. intros Hin. apply Hout.
      apply elem_of_cons. by right.
Qed.

Lemma run_removes_no_key_and_stays_in_scope_witness :
  ddb (lambda_handler Scenarios.env_ok Scenarios.cfg_ledger Scenarios.w_seen_P2).2
  !! ("T", "EO")
  = ddb Scenarios.w_seen_P2 !! ("T", "EO")
  /\ is_Some (ddb (lambda_handler Scenarios.env_ok Scenarios.cfg_ledger Scenarios.w_seen_P2).2
              !! ("T", "MEI")).
Proof.
  pose proof (run_removes_no_key_and_stays_in_scope Scenarios.env_ok Scenarios.cfg_ledger
                Scenarios.w_seen_P2) as (_ & Hkeep & _ & Hscope).
  split.
  - apply Hscope. right. intros Hin. apply (bool_decide_pack _) in Hin.
    vm_compute in Hin. exact Hin.
  - apply Hkeep. vm_compute. by eexists.
Defined.

(** ** The loop over the datasets *)

Lemma shaped_one_shape (r : Dict) : shaped r -> one_shape r.
Proof.
  destruct (shapes_exclusive r) as (H1 & H2 & H3). unfold one_shape.
  intros [Hs|[Hu|He]].
  - left. split; [done|]. split; intros ?; [apply H1|apply H2]; done.
  - right. left. split; [done|]. split; intros ?; [apply H1|apply H3]; done.
  - right. right. split; [done|]. split; intros ?; [apply H2|apply H3]; done.
Qed.

(** X11. Whatever fails, the report holds exactly one result per configured
    dataset, in the order of the configuration, each naming its dataset and
    of exactly one of the three shapes; the three counts of the summary never
    add up to more than the number of datasets. *)
Theorem one_result_per_dataset (env : Env) (cfg : Config) (w : World) :
  let rep := (lambda_handler env cfg w).1 in
  Forall2 (fun ds r => r !! "dataset" = Some (VStr ds) /\ one_shape r)
    (cfg_datasets cfg) (results rep)
  /\ (sum_stored (summary rep) + sum_unchanged (summary rep) + sum_errors (summary rep)
      <= length (cfg_datasets cfg))%nat.
Proof.
  cbv zeta. destruct (lambda_handler_results env cfg w) as (Hres & Hrep & _).
  pose proof (ingest_all_results env cfg (cfg_datasets cfg) w) as Hall.
  rewrite Hres. split.
  - eapply Forall2_impl; [exact Hall|]. intros ds r [Hd Hs]. split; [done|].
    by apply shaped_one_shape.
  - assert (Hshaped : Forall shaped (ingest_all env cfg (cfg_datasets cfg) [] w).1).
    { clear -Hall. induction Hall as [|? ? ? ? [_ ?]]; by constructor. }
    pose proof (make_report_counts _ Hshaped) as (H1 & H2 & H3). cbv zeta in H1, H2.
    rewrite (Forall2_length _ _ _ Hall), Hrep. lia.
Qed.

Lemma ingest_one_with_datasets env cfg l ds w :
  ingest_one env (with_datasets cfg l) ds w = ingest_one env cfg ds w.
Proof. reflexivity. Qed.

Lemma ingest_all_with_datasets env cfg l dss : forall acc w,
  ingest_all env (with_datasets cfg l) dss acc w = ingest_all env cfg dss acc w.
Proof.
  induction dss as [|ds rest IH]; intros acc w; [reflexivity|].
  cbn [ingest_all]. rewrite ingest_one_with_datasets.
  destruct (ingest_one env cfg ds w) as [r w1]. apply IH.
Qed.

Lemma ingest_all_app env cfg l1 : forall l2 w,
  ingest_all env cfg (l1 ++ l2) [] w
  = (((ingest_all env cfg l1 [] w).1
      ++ (ingest_all env cfg l2 [] (ingest_all env cfg l1 [] w).2).1)%list,
     (ingest_all env cfg l2 [] (ingest_all env cfg l1 [] w).2).2).
Proof.
  induction l1 as [|d rest IH]; intros l2 w.
  - cbn [app ingest_all fst snd]. by destruct (ingest_all env cfg l2 [] w).
  - cbn [app]. rewrite !ingest_all_cons, IH. reflexivity.
Qed.

Lemma make_report_app (rs1 rs2 : list Dict) :
  results (make_report (rs1 ++ rs2)) = (rs1 ++ rs2)%list
  /\ sum_stored (summary (make_report (rs1 ++ rs2)))
     = (sum_stored (summary (make_report rs1)) + sum_stored (summary (make_report rs2)))%nat
  /\ sum_unchanged (summary (make_report (rs1 ++ rs2)))
     = (sum_unchanged (summary (make_report rs1))
        + sum_unchanged (summary (make_report rs2)))%nat
  /\ sum_errors (summary (make_report (rs1 ++ rs2)))
     = (sum_errors (summary (make_report rs1)) + sum_errors (summary (make_report rs2)))%nat
  /\ (statusCode (make_report (rs1 ++ rs2)) = 200
      <-> statusCode (make_report rs1) = 200 /\ statusCode (make_report rs2) = 200).
Proof.
  cbn [make_report results summary sum_stored sum_unchanged sum_errors statusCode].
  rewrite !List.filter_app, !length_app. repeat split; try reflexivity.
  - destruct (List.filter is_err rs1); [|by rewrite bool_decide_eq_false_2 in H].
    by rewrite bool_decide_eq_true_2.
  - destruct (List.filter is_err rs1) as [|r l]; [|by rewrite bool_decide_eq_false_2 in H].
    exact H.
  - intros [H1 H2].
    destruct (List.filter is_err rs1) as [|r l]; [|by rewrite bool_decide_eq_false_2 in H1].
    exact H2.
Qed.

(** X12. Runs compose: a run over the datasets l1 followed by l2 gives the
    results of a run over l1 followed by those of a run over l2 started where
    the first one ended; it leaves the same world, its counts are the sums of
    theirs, and its status is 200 exactly when both of theirs are. *)
Theorem runs_compose (env : Env) (cfg : Config) (l1 l2 : list string) (w : World) :
  let whole := lambda_handler env (with_datasets cfg (l1 ++ l2)) w in
  let first := lambda_handler env (with_datasets cfg l1) w in
  let second := lambda_handler env (with_datasets cfg l2) first.2 in
  results whole.1 = (results first.1 ++ results second.1)%list
  /\ whole.2 = second.2
  /\ sum_stored (summary whole.1)
     = (sum_stored (summary first.1) + sum_stored (summary second.1))%nat
  /\ sum_unchanged (summary whole.1)
     = (sum_unchanged (summary first.1) + sum_unchanged (summary second.1))%nat
  /\ sum_errors (summary whole.1)
     = (sum_errors (summary first.1) + sum_errors (summary second.1))%nat
  /\ (statusCode whole.1 = 200 <-> statusCode first.1 = 200 /\ statusCode second.1 = 200).
Proof.
  cbv zeta.
  destruct (lambda_handler_results env (with_datasets cfg (l1 ++ l2)) w) as (_ & -> & ->).
  destruct (lambda_handler_results env (with_datasets cfg l1) w) as (_ & -> & ->).
  destruct (lambda_handler_results env (with_datasets cfg l2)
              (ingest_all env (with_datasets cfg l1) (cfg_datasets (with_datasets cfg l1)) [] w).2)
    as (_ & -> & ->).
  cbn [with_datasets cfg_datasets]. rewrite !ingest_all_with_datasets, ingest_all_app.
  cbn [fst snd].
  destruct (make_report_app (ingest_all env cfg l1 [] w).1
              (ingest_all env cfg l2 [] (ingest_all env cfg l1 [] w).2).1)
    as (H1 & H2 & H3 & H4 & H5).
  split; [exact H1|]. split; [reflexivity|]. split; [exact H2|]. split; [exact H3|].
  split; [exact H4|exact H5].
Qed.

(** X13. A result without error reports the payload that was fetched: its
    hash is the SHA-256 digest of the fetched bytes, of which there are at
    least 32, and its url is the candidate URL that served them. *)
Theorem result_reports_fetched_payload
    (env : Env) (cfg : Config) (ds : string) (w : World) (r : Dict) (w' : World) :
  ingest_one env cfg ds w = (r, w') ->
  r !! "error" = None ->
  exists raw url w1 urls,
    fetch_oecd env ds (key_path_of cfg ds) (cfg_last_n_obs cfg) (cfg_fmt cfg) w
    = (Ok (raw, url), w1)
    /\ build_oecd_urls env ds (key_path_of cfg ds) (cfg_last_n_obs cfg) (cfg_fmt cfg) w
       = (Ok urls, w)
    /\ url ∈ urls
    /\ (32 <= length raw)%nat
    /\ r !! "hash" = Some (VStr (sha256 raw))
    /\ r !! "url" = Some (VStr url)
    /\ r !! "dataset" = Some (VStr ds).
Proof.
  intros Hrun Hnoerr.
  assert (Hfetched : forall raw url w1,
    fetch_oecd env ds (key_path_of cfg ds) (cfg_last_n_obs cfg) (cfg_fmt cfg) w
    = (Ok (raw, url), w1) ->
    exists urls,
      build_oecd_urls env ds (key_path_of cfg ds) (cfg_last_n_obs cfg) (cfg_fmt cfg) w
      = (Ok urls, w)
      /\ url ∈ urls /\ (32 <= length raw)%nat).
  { intros raw url w1. rewrite fetch_oecd_unfold.
    pose proof (build_oecd_urls_world env ds (key_path_of cfg ds) (cfg_last_n_obs cfg)
                  (cfg_fmt cfg) w) as Hbw.
    destruct (build_oecd_urls env ds _ _ _ w) as [[urls|e] wb]; [|discriminate].
    cbn [snd] in Hbw. subst wb. intros Hloop. exists urls. split; [done|].
    destruct (fetch_loop_cases env ds (key_path_of cfg ds) urls [] w)
      as [(pre & u & post & errs & w2 & blob & w3 & -> & _ & _ & Hlong & Hf)
         |(errs & w3 & _ & Hf)]; rewrite Hf in Hloop; [|discriminate].
    injection Hloop as <- <- _. split.
    - apply elem_of_app. right. apply elem_of_cons. by left.
    - by apply too_short_false. }
  destruct (ingest_one_result env cfg ds w)
    as [Hds [(raw & url & w1 & w2 & key & Hf & Hone)
            |[(raw & url & w1 & w2 & Hf & Hone)|(e & w2 & Hone)]]];
    rewrite Hone in Hrun; injection Hrun as <- <-.
  - destruct (Hfetched raw url w1 Hf) as (urls & Hb & Hin & Hlen).
    exists raw, url, w1, urls. repeat split; try done;
      unfold stored_result; rewrite !lookup_insert_ne by discriminate; apply lookup_insert_eq.
  - destruct (Hfetched raw url w1 Hf) as (urls & Hb & Hin & Hlen).
    exists raw, url, w1, urls. repeat split; try done;
      unfold unchanged_result; rewrite !lookup_insert_ne by discriminate; apply lookup_insert_eq.
  - rewrite error_result_error in Hnoerr. discriminate.
Qed.

Lemma result_reports_fetched_payload_witness :
  exists raw url w1 urls,
    fetch_oecd Scenarios.env_ok "MEI" (key_path_of Scenarios.cfg_ledger "MEI") 60 "csv"
      Scenarios.w0 = (Ok (raw, url), w1)
    /\ build_oecd_urls Scenarios.env_ok "MEI" (key_path_of Scenarios.cfg_ledger "MEI") 60 "csv"
         Scenarios.w0 = (Ok urls, Scenarios.w0)
    /\ url ∈ urls
    /\ (32 <= length raw)%nat
    /\ (ingest_one Scenarios.env_ok Scenarios.cfg_ledger "MEI" Scenarios.w0).1 !! "hash"
       = Some (VStr (sha256 raw))
    /\ (ingest_one Scenarios.env_ok Scenarios.cfg_ledger "MEI" Scenarios.w0).1 !! "url"
       = Some (VStr url)
    /\ (ingest_one Scenarios.env_ok Scenarios.cfg_ledger "MEI" Scenarios.w0).1 !! "dataset"
       = Some (VStr "MEI").
Proof.
  exact (result_reports_fetched_payload Scenarios.env_ok Scenarios.cfg_ledger "MEI"
           Scenarios.w0 _ _ (surjective_pairing _) ltac:(vm_compute; reflexivity)).
Defined.

(** ** The digest *)

Lemma rounds_length ks : forall st w, length st = 8%nat -> length (SHA256.rounds ks st w) = 8%nat.
Proof. induction ks as [|k ks IH]; intros st w Hst; [exact Hst|]. cbn [SHA256.rounds]. by apply IH. Qed.

Lemma compress_length st block : length st = 8%nat -> length (SHA256.compress st block) = 8%nat.
Proof.
  intros Hst. unfold SHA256.compress. rewrite length_zip_with, Hst, rounds_length by done.
  reflexivity.
Qed.

Lemma blocks_length fuel : forall st ws, length st = 8%nat -> length (SHA256.blocks fuel st ws) = 8%nat.
Proof.
  induction fuel as [|fuel IH]; intros st ws Hst; [exact Hst|].
  cbn [SHA256.blocks]. destruct ws; [exact Hst|]. apply IH. by apply compress_length.
Qed.

Lemma all_chars_append p (a b : string) :
  all_chars p (a ++ b) = all_chars p a && all_chars p b.
Proof.
  induction a as [|c a IH]; [reflexivity|].
  rewrite string_append_cons. cbn [all_chars]. by rewrite IH, andb_assoc.
Qed.

Lemma hex_digit_ok d :
  0 <= d < 16 ->
  String.length (hex_digit d) = 1%nat /\ all_chars is_hex_char (hex_digit d) = true.
Proof.
  intros Hd. unfold hex_digit.
  assert (Hall : forallb (fun k =>
                    (String.length (String.substring k 1 "0123456789abcdef") =? 1)%nat
                    && all_chars is_hex_char (String.substring k 1 "0123456789abcdef"))
                   (seq 0 16) = true) by (vm_compute; reflexivity).
  rewrite forallb_forall in Hall. specialize (Hall (Z.to_nat d)).
  rewrite andb_true_iff, Nat.eqb_eq in Hall. apply Hall, in_seq. lia.
Qed.

Lemma hex_word_ok n v :
  String.length (SHA256.hex_word n v) = n /\ all_chars is_hex_char (SHA256.hex_word n v) = true.
Proof.
  induction n as [|n [IHlen IHhex]]; [done|]. cbn [SHA256.hex_word].
  destruct (hex_digit_ok (Z.shiftr v (4 * Z.of_nat n) mod 16)) as [Hlen Hhex].
  { apply Z.mod_pos_bound. lia. }
  rewrite string_length_append, all_chars_append, Hlen, Hhex, IHlen, IHhex. done.
Qed.

Lemma concat_hex_words (ws : list Z) :
  String.length (String.concat "" (SHA256.hex_word 8 <$> ws)) = (8 * length ws)%nat
  /\ all_chars is_hex_char (String.concat "" (SHA256.hex_word 8 <$> ws)) = true.
Proof.
  induction ws as [|v ws [IHlen IHhex]]; [done|].
  destruct (hex_word_ok 8 v) as [Hlen Hhex].
  rewrite fmap_cons. cbn [String.concat].
  destruct (SHA256.hex_word 8 <$> ws) as [|s rest] eqn:Hrest.
  - destruct ws; [|discriminate]. rewrite Hlen. done.
  - rewrite !string_length_append, !all_chars_append, Hlen, Hhex, IHlen, IHhex.
    cbn [String.length all_chars length]. split; [lia|done].
Qed.

Lemma substring_prefix_length n : forall s : string,
  (n <= String.length s)%nat -> String.length (String.substring 0 n s) = n.
Proof.
  induction n as [|n IH]; intros s Hn.
  - by destruct s.
  - destruct s as [|c s]; cbn in Hn; [lia|]. cbn. rewrite IH; [done|lia].
Qed.

(** X14. The digest of any payload is a string of exactly 64 characters, all
    of them lowercase hexadecimal digits, so the digest part of an archive
    key always has its full twelve characters. *)
Theorem sha256_is_64_hex (data : bytes) :
  String.length (sha256 data) = 64%nat
  /\ all_chars is_hex_char (sha256 data) = true
  /\ String.length (prefix 12 (sha256 data)) = 12%nat.
Proof.
  unfold sha256, SHA256.hexdigest.
  destruct (concat_hex_words (SHA256.digest_words data)) as [Hlen Hhex].
  assert (H8 : length (SHA256.digest_words data) = 8%nat).
  { unfold SHA256.digest_words. by apply blocks_length. }
  rewrite H8 in Hlen. split; [exact Hlen|]. split; [exact Hhex|].
  unfold prefix. apply substring_prefix_length. rewrite Hlen. lia.
Qed.

(** ** Reading the list of datasets *)

Lemma split_comma_nonempty s : split_comma s <> [].
Proof.
  destruct s as [|c s]; [discriminate|]. cbn [split_comma].
  destruct (Ascii.eqb c comma); [discriminate|]. by destruct (split_comma s).
Qed.

Lemma split_comma_parts s : Forall (fun d => all_chars no_comma d = true) (split_comma s).
Proof.
  induction s as [|c s IH]; [by repeat constructor|]. cbn [split_comma].
  destruct (Ascii.eqb c comma) eqn:Hc; [by constructor|].
  destruct (split_comma s) as [|first others]; [repeat constructor|].
  - cbn. unfold no_comma. by rewrite Hc.
  - apply Forall_cons in IH as [Hf Ho]. constructor; [|done].
    cbn [all_chars]. unfold no_comma at 1. by rewrite Hc, Hf.
Qed.

Lemma lstrip_all p s : all_chars p s = true -> all_chars p (lstrip s) = true.
Proof.
  induction s as [|c s IH]; [done|]. cbn [lstrip all_chars].
  intros [Hc Hs]%andb_true_iff. destruct (is_space c); [by apply IH|].
  cbn [all_chars]. by rewrite Hc, Hs.
Qed.

Lemma rstrip_all p s : all_chars p s = true -> all_chars p (rstrip s) = true.
Proof.
  induction s as [|c s IH]; [done|]. cbn [rstrip all_chars].
  intros [Hc Hs]%andb_true_iff. specialize (IH Hs).
  destruct (rstrip s) as [|c' r].
  - destruct (is_space c); [done|]. cbn. by rewrite Hc.
  - cbn [all_chars] in *. by rewrite Hc, IH.
Qed.

Lemma rstrip_cons c s :
  rstrip (String c s)
  = match rstrip s with
    | EmptyString => if is_space c then EmptyString else String c EmptyString
    | r => String c r
    end.
Proof. reflexivity. Qed.

Lemma rstrip_idem s : rstrip (rstrip s) = rstrip s.
Proof.
  induction s as [|c s IH]; [done|]. rewrite rstrip_cons.
  destruct (rstrip s) as [|c' r] eqn:Hr.
  - destruct (is_space c) eqn:Hc; [done|]. rewrite rstrip_cons. cbn [rstrip]. by rewrite Hc.
  - rewrite rstrip_cons, IH. reflexivity.
Qed.

Lemma lstrip_head s :
  lstrip s = "" \/ exists c r, lstrip s = String c r /\ is_space c = false.
Proof.
  induction s as [|c s IH]; [by left|]. cbn [lstrip].
  destruct (is_space c) eqn:Hc; [exact IH|]. right. by exists c, s.
Qed.

Lemma rstrip_head c r : is_space c = false -> exists r', rstrip (String c r) = String c r'.
Proof.
  intros Hc. cbn [rstrip]. destruct (rstrip r) as [|c' r'']; [|by eexists].
  rewrite Hc. by eexists.
Qed.

Lemma strip_idem s : strip (strip s) = strip s.
Proof.
  unfold strip. destruct (lstrip_head s) as [->|(c & r & -> & Hc)]; [reflexivity|].
  destruct (rstrip_head c r Hc) as [r' Hr]. rewrite Hr. cbn [lstrip]. rewrite Hc.
  rewrite <- Hr. apply rstrip_idem.
Qed.

(** X15. Every dataset name read from OECD_DATASETS is not empty, contains
    no comma, and has no white space at either end. *)
Theorem parse_datasets_clean (text : string) : Forall clean_name (parse_datasets text).
Proof.
  unfold parse_datasets. apply Forall_forall. intros d Hd.
  apply list_elem_of_In, filter_In in Hd as [Hin Hne].
  apply list_elem_of_In, list_elem_of_fmap in Hin as (part & -> & Hpart).
  repeat split.
  - apply negb_true_iff, String.eqb_neq in Hne. exact Hne.
  - apply strip_idem.
  - pose proof (split_comma_parts text) as Hall. rewrite Forall_forall in Hall.
    apply rstrip_all, lstrip_all, Hall, Hpart.
Qed.

Lemma split_comma_clean d : all_chars no_comma d = true -> split_comma d = [d].
Proof.
  induction d as [|c d IH]; [done|]. cbn [all_chars split_comma].
  intros [Hc Hd]%andb_true_iff. unfold no_comma in Hc. apply negb_true_iff in Hc.
  by rewrite Hc, (IH Hd).
Qed.

Lemma split_comma_append d rest :
  all_chars no_comma d = true ->
  split_comma (d ++ "," ++ rest) = d :: split_comma rest.
Proof.
  induction d as [|c d IH]; [done|]. cbn [all_chars].
  intros [Hc Hd]%andb_true_iff. unfold no_comma in Hc. apply negb_true_iff in Hc.
  rewrite string_append_cons. cbn [split_comma]. by rewrite Hc, (IH Hd).
Qed.

Lemma clean_names_kept (names : list string) :
  Forall clean_name names ->
  List.filter (fun d => negb (String.eqb d "")) (strip <$> names) = names.
Proof.
  induction 1 as [|d rest (Hne & Hstrip & _) _ IH]; [done|].
  rewrite fmap_cons, Hstrip. cbn [List.filter].
  apply String.eqb_neq in Hne. rewrite Hne. cbn [negb]. by rewrite IH.
Qed.

Lemma split_comma_join (names : list string) :
  Forall clean_name names -> names <> [] -> split_comma (join "," names) = names.
Proof.
  induction 1 as [|d rest (_ & _ & Hd) Hrest IH]; [done|]. intros _.
  destruct rest as [|d' rest'].
  - by apply split_comma_clean.
  - change (join "," (d :: d' :: rest')) with (d ++ "," ++ join "," (d' :: rest'))%string.
    rewrite split_comma_append by exact Hd. by rewrite IH.
Qed.

(** X16. Round trip: clean names written one after the other with commas
    in between are read back as the same list. *)
Theorem parse_datasets_join (names : list string) :
  Forall clean_name names -> parse_datasets (join "," names) = names.
Proof.
  intros Hall. unfold parse_datasets.
  destruct names as [|d rest]; [reflexivity|].
  rewrite split_comma_join by done. by apply clean_names_kept.
Qed.

Lemma parse_datasets_join_witness :
  parse_datasets (join "," ["HEALTH_STAT"; "EO"; "MEI"]) = ["HEALTH_STAT"; "EO"; "MEI"].
Proof.
  apply parse_datasets_join. repeat constructor; discriminate.
Defined.

(** ** The entry point *)

Lemma getenv_default environ name d :
  getenv environ name (Some d) false = Ok (Some (default d (environ !! name))).
Proof. unfold getenv, os_getenv. by destruct (environ !! name). Qed.

Lemma getenv_optional environ name : getenv environ name None false = Ok (environ !! name).
Proof. unfold getenv, os_getenv. by destruct (environ !! name). Qed.

Lemma getenv_required environ name :
  getenv environ name None true
  = match environ !! name with
    | Some v => if String.eqb v "" then Raise (missing_var name) else Ok (Some v)
    | None => Raise (missing_var name)
    end.
Proof.
  unfold getenv, os_getenv. destruct (environ !! name) as [v|]; [|reflexivity].
  cbn [andb]. rewrite (bool_decide_eq_false_2 (Some v = None)) by discriminate. cbn [orb].
  destruct (String.eqb_spec v "") as [->|Hne].
  - by rewrite bool_decide_eq_true_2.
  - rewrite bool_decide_eq_false_2; [done|]. congruence.
Qed.

(** The entry point, decision by decision. *)
Lemma lambda_handler_entry_unfold host env w :
  lambda_handler_entry host env w =
    match getenv (host_environ host) "S3_BUCKET" None true with
    | Raise e => (Raise e, w)
    | Ok None => (Raise (PyError "TypeError" "expected str, got NoneType"), w)
    | Ok (Some bucket) =>
        match host_int host (default "60" (host_environ host !! "LAST_N_OBS")) with
        | Raise e => (Raise e, w)
        | Ok n =>
            match getenv (host_environ host) "OECD_DATASETS" None true with
            | Raise e => (Raise e, w)
            | Ok None => (Raise (PyError "TypeError" "expected str, got NoneType"), w)
            | Ok (Some text) =>
                match load_keys_map host
                        (default "{}" (host_environ host !! "OECD_KEYS_JSON")) w with
                | (Raise e, _) => (Raise e, w)
                | (Ok (KeysDict m), _) =>
                    ((Ok (lambda_handler env (entry_config host bucket n text m) w).1),
                     (lambda_handler env (entry_config host bucket n text m) w).2)
                | (Ok (KeysOther ty), _) =>
                    match parse_datasets text with
                    | [] => (Ok (make_report []), w)
                    | _ :: _ =>
                        (Raise (PyError "AttributeError"
                                  ("'" ++ ty ++ "' object has no attribute 'get'")), w)
                    end
                end
            end
        end
    end.
Proof.
  unfold lambda_handler_entry.
  rewrite !getenv_default, getenv_optional.
  unfold bind, lift, str_of, ret, raise.
  destruct (getenv (host_environ host) "S3_BUCKET" None true) as [[bucket|]|e]; try reflexivity.
  destruct (host_int host _) as [n|e]; [|reflexivity].
  destruct (getenv (host_environ host) "OECD_DATASETS" None true) as [[text|]|e];
    try reflexivity.
  unfold load_keys_map, ret, raise.
  destruct (host_json_loads host _) as [[m|ty]|e].
  - unfold entry_config.
    by destruct (lambda_handler env _ w).
  - by destruct (parse_datasets text).
  - by destruct (String.eqb (type_name e) "JSONDecodeError").
Qed.


(** X18. When S3_BUCKET is unset or empty the entry point raises the
    RuntimeError that names it, whatever else is configured; when S3_BUCKET
    is set and LAST_N_OBS parses but OECD_DATASETS is unset or empty, it
    raises the one that names OECD_DATASETS. In both cases no call has been
    made. *)
Theorem missing_required_variable (host : Host) (env : Env) (w : World) :
  (unset (host_environ host) "S3_BUCKET" ->
   lambda_handler_entry host env w = (Raise (missing_var "S3_BUCKET"), w))
  /\ (forall n,
        ~ unset (host_environ host) "S3_BUCKET" ->
        host_int host (default "60" (host_environ host !! "LAST_N_OBS")) = Ok n ->
        unset (host_environ host) "OECD_DATASETS" ->
        lambda_handler_entry host env w = (Raise (missing_var "OECD_DATASETS"), w)).
Proof.
  rewrite lambda_handler_entry_unfold, !getenv_required. unfold unset. split.
  - by intros [->| ->].
  - intros n Hbucket Hint Hds.
    destruct (host_environ host !! "S3_BUCKET") as [bucket|]; [|by destruct Hbucket; left].
    destruct (String.eqb_spec bucket "") as [->|_]; [by destruct Hbucket; right|].
    rewrite Hint. by destruct Hds as [->| ->].
Qed.

Lemma missing_required_variable_witness :
  lambda_handler_entry Cases.host_no_bucket Scenarios.env_ok Scenarios.w0
  = (Raise (missing_var "S3_BUCKET"), Scenarios.w0)
  /\ lambda_handler_entry Cases.host_no_datasets Scenarios.env_ok Scenarios.w0
     = (Raise (missing_var "OECD_DATASETS"), Scenarios.w0).
Proof.
  split.
  - apply (proj1 (missing_required_variable Cases.host_no_bucket Scenarios.env_ok Scenarios.w0)).
    left. vm_compute. reflexivity.
  - apply (proj2 (missing_required_variable Cases.host_no_datasets Scenarios.env_ok
                    Scenarios.w0) 60).
    + intros [H|H]; vm_compute in H; discriminate.
    + vm_compute. reflexivity.
    + left. vm_compute. reflexivity.
Defined.

(** X19. A value of OECD_DATASETS that is not empty but holds only commas
    and white space passes the required-variable check and yields no dataset:
    the entry point returns status 200 with no result and all counts zero,
    having made no call, whatever OECD_KEYS_JSON parses to. *)
Theorem blank_dataset_list_succeeds
    (host : Host) (env : Env) (w : World) (bucket text : string) (n : Z) (keys : KeysJson) :
  host_environ host !! "S3_BUCKET" = Some bucket ->
  bucket <> "" ->
  host_int host (default "60" (host_environ host !! "LAST_N_OBS")) = Ok n ->
  host_environ host !! "OECD_DATASETS" = Some text ->
  text <> "" ->
  parse_datasets text = [] ->
  host_json_loads host (default "{}" (host_environ host !! "OECD_KEYS_JSON")) = Ok keys ->
  lambda_handler_entry host env w
  = (Ok {| statusCode := 200;
           summary := {| sum_stored := 0; sum_unchanged := 0; sum_errors := 0 |};
           results := [] |}, w).
Proof.
  intros Hb Hbne Hint Hds Htne Hparse Hjson.
  rewrite lambda_handler_entry_unfold, !getenv_required, Hb, Hint, Hds.
  apply String.eqb_neq in Hbne, Htne. rewrite Hbne, Htne.
  unfold load_keys_map. rewrite Hjson. unfold ret. destruct keys as [m|ty].
  - unfold lambda_handler, entry_config. cbn [cfg_datasets]. rewrite Hparse. reflexivity.
  - rewrite Hparse. reflexivity.
Qed.

Lemma blank_dataset_list_succeeds_witness :
  lambda_handler_entry Cases.host_blank_datasets Scenarios.env_ok Scenarios.w0
  = (Ok {| statusCode := 200;
           summary := {| sum_stored := 0; sum_unchanged := 0; sum_errors := 0 |};
           results := [] |}, Scenarios.w0).
Proof.
  apply (blank_dataset_list_succeeds Cases.host_blank_datasets Scenarios.env_ok Scenarios.w0
           "your-bucket" " , ," 60 (KeysDict ∅)).
  - vm_compute. reflexivity.
  - discriminate.
  - vm_compute. reflexivity.
  - vm_compute. reflexivity.
  - discriminate.
  - vm_compute. reflexivity.
  - vm_compute. reflexivity.
Defined.

(** ** What a run requests and writes *)

Lemma string_append_assoc (a b c : string) : ((a ++ b) ++ c = a ++ b ++ c)%string.
Proof.
  induction a as [|x a IH]; [reflexivity|]. rewrite !string_append_cons. by rewrite IH.
Qed.

Lemma build_oecd_urls_ok env ds kp n fmt w :
  window_overflows (env_utcnow env (clock w)) n = false ->
  exists url_start,
    build_oecd_urls env ds kp n fmt w
    = (Ok [url_base ds kp ++ "?" ++ params_common fmt ++ "&lastNObservations=" ++ str_int n;
           url_start], w).
Proof.
  unfold window_overflows, build_oecd_urls, bind, utcnow, timedelta_days, datetime_sub_date,
    ret, raise, MAX_DELTA_DAYS.
  cbn [utc_of_posix dt_ordinal]. intros H. apply negb_false_iff in H.
  apply andb_true_iff in H as [[Hd Hlo]%andb_true_iff Hhi].
  rewrite Hd, Hlo, Hhi. cbn [andb]. by eexists.
Qed.

Lemma put_if_new_extends env ds url raw bucket pfx fmt gz tbl w :
  exists evs, trace (put_if_new env ds url raw bucket pfx fmt gz tbl w).2 = (evs ++ trace w)%list.
Proof.
  rewrite put_if_new_unfold. unfold archive_step.
  destruct (table_enabled tbl) as [table|].
  - destruct (env_get_item env (clock w)); [by exists [GetItem table ds]|].
    destruct (same_hash _ _); [by exists [GetItem table ds]|].
    destruct (env_put_item env _); [by eexists [_; _]|].
    destruct (body_at env _ raw gz) as [[body ce]|e]; [|by eexists [_; _]].
    destruct (env_put_object env _); by eexists [_; _; _].
  - destruct (body_at env _ raw gz) as [[body ce]|e]; [|by exists []].
    destruct (env_put_object env _); by eexists [_].
Qed.

(** X20. Unless the window overflows, the first call made for a dataset is
    the GET of its incremental URL, built with the SDMX key that
    OECD_KEYS_JSON gives for the dataset, or with "all" when it gives
    none. *)
Theorem first_request_uses_configured_key (env : Env) (cfg : Config) (ds : string) (w : World) :
  window_overflows (env_utcnow env (clock w)) (cfg_last_n_obs cfg) = false ->
  exists later,
    trace (ingest_one env cfg ds w).2
    = (later
       ++ [Urlopen ("https://stats.oecd.org/sdmx-json/data/" ++ ds ++ "/"
                    ++ default "all" (cfg_keys_map cfg !! ds)
                    ++ "?" ++ params_common (cfg_fmt cfg)
                    ++ "&lastNObservations=" ++ str_int (cfg_last_n_obs cfg))]
       ++ trace w)%list.
Proof.
  intros Hok.
  destruct (build_oecd_urls_ok env ds (key_path_of cfg ds) (cfg_last_n_obs cfg) (cfg_fmt cfg)
              w Hok) as (url_start & Hb).
  set (url_first := (url_base ds (key_path_of cfg ds) ++ "?" ++ params_common (cfg_fmt cfg)
                     ++ "&lastNObservations=" ++ str_int (cfg_last_n_obs cfg))%string) in *.
  assert (Hfetch : exists later,
             trace (fetch_oecd env ds (key_path_of cfg ds) (cfg_last_n_obs cfg)
                      (cfg_fmt cfg) w).2 = (later ++ [Urlopen url_first] ++ trace w)%list).
  { rewrite fetch_oecd_unfold, Hb, fetch_loop_step.
    destruct (http_get_first_event env url_first w) as (later & Hlater).
    destruct (http_get env url_first 3 w) as [[blob|e] w1]; cbn [snd] in Hlater.
    - destruct (too_short blob); [|by exists later].
      destruct (fetch_loop_frame env ds (key_path_of cfg ds) [url_start]
                  ([] ++ [short_summary url_first])%list w1) as (evs & -> & _).
      exists (evs ++ later)%list. rewrite trace_after, Hlater. by rewrite <- app_assoc.
    - destruct (fetch_loop_frame env ds (key_path_of cfg ds) [url_start]
                  ([] ++ [raised_summary e])%list w1) as (evs & -> & _).
      exists (evs ++ later)%list. rewrite trace_after, Hlater. by rewrite <- app_assoc. }
  destruct Hfetch as (later & Hlater).
  assert (Hsame : (url_base ds (key_path_of cfg ds) ++ "?" ++ params_common (cfg_fmt cfg)
                   ++ "&lastNObservations=" ++ str_int (cfg_last_n_obs cfg))%string
                  = ("https://stats.oecd.org/sdmx-json/data/" ++ ds ++ "/"
                     ++ default "all" (cfg_keys_map cfg !! ds)
                     ++ "?" ++ params_common (cfg_fmt cfg)
                     ++ "&lastNObservations=" ++ str_int (cfg_last_n_obs cfg))%string).
  { unfold url_base, key_path_of.
    generalize (params_common (cfg_fmt cfg) ++ "&lastNObservations="
                ++ str_int (cfg_last_n_obs cfg))%string.
    generalize (default "all" (cfg_keys_map cfg !! ds)). intros kp tail.
    by rewrite !string_append_assoc. }
  rewrite <- Hsame. fold url_first.
  rewrite ingest_one_unfold.
  destruct (fetch_oecd env ds _ _ _ w) as [[[raw url]|e] w1]; cbn [snd] in Hlater.
  - destruct (put_if_new_extends env ds url raw (cfg_s3_bucket cfg) (cfg_s3_prefix cfg)
                (cfg_fmt cfg) (cfg_gzip_output cfg) (cfg_ddb_table cfg) w1) as (evs & Hevs).
    destruct (put_if_new env ds url raw _ _ _ _ _ w1) as [[out|e] w2]; cbn [snd] in *;
      exists (evs ++ later)%list; rewrite Hevs, Hlater; by rewrite <- app_assoc.
  - by exists later.
Qed.

Lemma first_request_uses_configured_key_witness :
  exists later,
    trace (ingest_one Scenarios.env_ok Cases.cfg_keys "MEI" Scenarios.w0).2
    = (later
       ++ [Urlopen "https://stats.oecd.org/sdmx-json/data/MEI/AUS.M.BLF.N.PT?detail=DataOnly&dimensionAtObservation=AllDimensions&contentType=json&lastNObservations=60"]
       ++ [])%list.
Proof.
  destruct (first_request_uses_configured_key Scenarios.env_ok Cases.cfg_keys "MEI"
              Scenarios.w0 eq_refl) as (later & H).
  exists later. rewrite H. vm_compute. reflexivity.
Defined.

Lemma body_at_encoding env t raw gz body ce :
  body_at env t raw gz = Ok (body, ce) -> ce = (if gz then Some "gzip" else None).
Proof.
  unfold body_at. destruct gz; [|by intros [= _ <-]].
  destruct (env_gzip env t raw); [by intros [= _ <-]|discriminate].
Qed.

Lemma ingest_one_writes env cfg ds w :
  exists evs,
    trace (ingest_one env cfg ds w).2 = (evs ++ trace w)%list
    /\ Forall (write_conforms cfg) evs.
Proof.
  rewrite ingest_one_unfold.
  destruct (fetch_oecd_frame env ds (key_path_of cfg ds) (cfg_last_n_obs cfg) (cfg_fmt cfg) w)
    as (evs & Hw1 & Hnet).
  assert (Hconf : Forall (write_conforms cfg) evs).
  { eapply Forall_impl; [exact Hnet|]. by intros []. }
  destruct (fetch_oecd env ds _ _ _ w) as [[[raw url]|e] w1]; cbn [snd] in Hw1; subst w1;
    [|by exists evs].
  assert (Hput : exists evs',
             trace (put_if_new env ds url raw (cfg_s3_bucket cfg) (cfg_s3_prefix cfg)
                      (cfg_fmt cfg) (cfg_gzip_output cfg) (cfg_ddb_table cfg) (after evs w)).2
             = (evs' ++ trace (after evs w))%list
             /\ Forall (write_conforms cfg) evs').
  { rewrite put_if_new_unfold. unfold archive_step.
    assert (Hobj : forall t body ce key,
              body_at env t raw (cfg_gzip_output cfg) = Ok (body, ce) ->
              write_conforms cfg
                (PutObject (cfg_s3_bucket cfg) key
                   (archive_object body ce (cfg_fmt cfg) (sha256 raw) url))).
    { intros t body ce key Hbody. apply body_at_encoding in Hbody as ->. by repeat split. }
    destruct (table_enabled (cfg_ddb_table cfg)) as [table|].
    - destruct (env_get_item env _); [exists [GetItem table ds]; by repeat constructor|].
      destruct (same_hash _ _); [exists [GetItem table ds]; by repeat constructor|].
      destruct (env_put_item env _); [eexists [PutItem _ _; GetItem _ _]; by repeat constructor|].
      destruct (body_at env _ raw _) as [[body ce]|e] eqn:Hbody;
        [|eexists [PutItem _ _; GetItem _ _]; by repeat constructor].
      destruct (env_put_object env _);
        (eexists [PutObject _ _ _; PutItem _ _; GetItem _ _]; split; [reflexivity|];
         constructor; [by eapply Hobj|by repeat constructor]).
    - destruct (body_at env _ raw _) as [[body ce]|e] eqn:Hbody;
        [|exists []; by repeat constructor].
      destruct (env_put_object env _);
        (eexists [PutObject _ _ _]; split; [reflexivity|];
         constructor; [by eapply Hobj|constructor]). }
  destruct Hput as (evs' & Htrace & Hconf').
  exists (evs' ++ evs)%list. split; [|by apply Forall_app].
  destruct (put_if_new env ds url raw _ _ _ _ _ (after evs w)) as [[out|e] w2];
    cbn [snd] in *; rewrite Htrace, trace_after; by rewrite <- app_assoc.
Qed.

Lemma ingest_all_writes env cfg dss : forall w,
  exists evs,
    trace (ingest_all env cfg dss [] w).2 = (evs ++ trace w)%list
    /\ Forall (write_conforms cfg) evs.
Proof.
  induction dss as [|d rest IH]; intros w; [by exists []|].
  rewrite ingest_all_cons. cbn [snd].
  destruct (ingest_one_writes env cfg d w) as (evs & Hevs & Hconf).
  destruct (IH (ingest_one env cfg d w).2) as (evs' & Hevs' & Hconf').
  exists (evs' ++ evs)%list. rewrite Hevs', Hevs. split; [by rewrite <- app_assoc|].
  by apply Forall_app.
Qed.

(** X21. Every archive write of an invocation goes to the bucket named by
    S3_BUCKET. It is compressed, with content encoding gzip, exactly when
    GZIP (default true) reads "true" whatever its letter case, so that
    GZIP=1 or GZIP=yes switch compression off; and its content type is
    text/csv exactly when FORMAT (default csv) reads "csv" whatever its
    letter case, and application/json for any other value. *)
Theorem archive_writes_follow_environment
    (host : Host) (env : Env) (w : World) (rep : Report) (w' : World) :
  lambda_handler_entry host env w = (Ok rep, w') ->
  exists evs bucket,
    trace w' = (evs ++ trace w)%list
    /\ host_environ host !! "S3_BUCKET" = Some bucket
    /\ Forall
         (fun ev =>
            match ev with
            | PutObject b key obj =>
                b = bucket
                /\ ContentEncoding obj
                   = (if String.eqb (lower (default "true" (host_environ host !! "GZIP")))
                           "true"
                      then Some "gzip" else None)
                /\ ContentType obj
                   = (if String.eqb (lower (default "csv" (host_environ host !! "FORMAT")))
                           "csv"
                      then "text/csv" else "application/json")
            | _ => True
            end) evs.
Proof.
  rewrite lambda_handler_entry_unfold, !getenv_required.
  destruct (host_environ host !! "S3_BUCKET") as [bucket|]; [|discriminate].
  destruct (String.eqb bucket ""); [discriminate|].
  destruct (host_int host _) as [n|e]; [|discriminate].
  destruct (host_environ host !! "OECD_DATASETS") as [text|]; [|discriminate].
  destruct (String.eqb text ""); [discriminate|].
  destruct (load_keys_map host _ w) as [[[m|ty]|e] w1]; [| |discriminate].
  - intros [= <- <-].
    rewrite (proj2 (proj2 (lambda_handler_results env (entry_config host bucket n text m) w))).
    destruct (ingest_all_writes env (entry_config host bucket n text m)
                (cfg_datasets (entry_config host bucket n text m)) w) as (evs & Hevs & Hconf).
    exists evs, bucket. split; [exact Hevs|]. split; [reflexivity|].
    eapply Forall_impl; [exact Hconf|]. intros [] H; try exact I.
    destruct H as (Hb & Hct & Hce). cbn [entry_config cfg_s3_bucket cfg_fmt cfg_gzip_output] in *.
    by repeat split.
  - destruct (parse_datasets text); [|discriminate].
    intros [= <- <-]. exists [], bucket. by repeat split.
Qed.

Lemma archive_writes_follow_environment_witness :
  exists evs bucket,
    trace (lambda_handler_entry Cases.host_gzip_one Scenarios.env_ok Scenarios.w0).2
    = (evs ++ [])%list
    /\ host_environ Cases.host_gzip_one !! "S3_BUCKET" = Some bucket
    /\ Forall
         (fun ev =>
            match ev with
            | PutObject b key obj =>
                b = bucket
                /\ ContentEncoding obj
                   = (if String.eqb
                           (lower (default "true" (host_environ Cases.host_gzip_one !! "GZIP")))
                           "true"
                      then Some "gzip" else None)
                /\ ContentType obj
                   = (if String.eqb
                           (lower (default "csv" (host_environ Cases.host_gzip_one !! "FORMAT")))
                           "csv"
                      then "text/csv" else "application/json")
            | _ => True
            end) evs.
Proof.
  exact (archive_writes_follow_environment Cases.host_gzip_one Scenarios.env_ok Scenarios.w0
           (match (lambda_handler_entry Cases.host_gzip_one Scenarios.env_ok Scenarios.w0).1 with
            | Ok rep => rep
            | Raise _ => make_report []
            end)
           (lambda_handler_entry Cases.host_gzip_one Scenarios.env_ok Scenarios.w0).2
           ltac:(vm_cast_no_check
                   (eq_refl (lambda_handler_entry Cases.host_gzip_one Scenarios.env_ok
                               Scenarios.w0)))).
Defined.
